(** * Sales-LM edge functions: a shallow embedding and its properties

    The repository holds two Deno edge functions,

    - [supabase/functions/process-document/index.ts]  (Handler A), and
    - [supabase/functions/send-chat-message/index.ts] (Handler B).

    Each is one [serve] callback: it reads the request, reads the process
    environment, calls one webhook with [fetch] and answers with a
    [Response]; Handler A also updates a row of the [sources] table.

    The embedding keeps the shape of the TypeScript: JavaScript values
    are an inductive type, the callback is a computation in a small
    state-and-exception monad, and everything outside the code (the
    request, the environment, the webhook, the store, the clock) is a
    field of a record [World] the callback is run in. *)

From Stdlib Require Import String Ascii List ZArith NArith Bool Lia DecimalString.
From Stdlib Require Import Floats.SpecFloat.
From stdpp Require Import base option strings gmap.

Set Warnings "-register-all".

Open Scope string_scope.
Open Scope list_scope.

(* ================================================================== *)
(** * JavaScript values *)
(* ================================================================== *)

Module JS.

(** A JavaScript number is an IEEE 754 binary64. *)
Definition number : Type := spec_float.

(** The number a non-negative integer denotes (an HTTP status code). *)
Definition number_of_N (n : N) : number :=
  binary_normalize 53 1024 (Z.of_N n) 0 false.

(** The decimal digits of a non-negative integer: what a template
    literal prints for an integer-valued number such as
    [response.status]. *)
Definition string_of_N (n : N) : string :=
  NilZero.string_of_uint (N.to_uint n).

(** The values the handlers see: what [JSON.parse] produces, plus
    [undefined] (an absent property, an unset environment variable).
    An object lists its own properties in insertion order; [JSON.parse]
    keeps one entry per key. *)
Inductive value : Type :=
| VUndefined
| VNull
| VBool (b : bool)
| VNumber (x : number)
| VString (s : string)
| VArray (elems : list value)
| VObject (props : list (string * value)).

(** An [Error] object: the handlers read only [message]. *)
Record Error : Type := mkError { name : string; message : string }.

Definition TypeError (msg : string) : Error := mkError "TypeError" msg.
Definition SyntaxError (msg : string) : Error := mkError "SyntaxError" msg.
Definition new_Error (msg : string) : Error := mkError "Error" msg.

(** The result of evaluating something that may throw. *)
Inductive Outcome (A : Type) : Type :=
| Returned (a : A)
| Thrown (e : Error).
Arguments Returned {A} a.
Arguments Thrown {A} e.

(** ToBoolean: [!v] is [negb (truthy v)]. *)
Definition truthy (v : value) : bool :=
  match v with
  | VUndefined | VNull => false
  | VBool b => b
  | VNumber (S754_zero _) | VNumber S754_nan => false
  | VNumber _ => true
  | VString s => negb (String.eqb s "")
  | VArray _ | VObject _ => true
  end.

(** ToBoolean of a [string | undefined], as [Deno.env.get] returns. *)
Definition truthy_opt (o : option string) : bool :=
  match o with
  | Some s => negb (String.eqb s "")
  | None => false
  end.

Definition of_opt (o : option string) : value :=
  match o with
  | Some s => VString s
  | None => VUndefined
  end.

Fixpoint own_property (key : string) (props : list (string * value)) : option value :=
  match props with
  | [] => None
  | (k, v) :: rest => if String.eqb key k then Some v else own_property key rest
  end.

(** [v.key] for a key that no prototype defines, which holds for every
    key the handlers destructure ([sourceId], [filePath], [sourceType],
    [session_id], [message], [user_id]): the own property of an object,
    [undefined] on anything else.  Reading a property of [null] or
    [undefined] throws; see [destructure]. *)
Definition get (v : value) (key : string) : value :=
  match v with
  | VObject props => default VUndefined (own_property key props)
  | _ => VUndefined
  end.

(** [const { k1, k2, ... } = v]: a TypeError on [null] and [undefined]. *)
Definition destructure (v : value) (first_key : string) : Outcome value :=
  match v with
  | VNull =>
      Thrown (TypeError ("Cannot destructure property '" +:+ first_key
                         +:+ "' of '(intermediate value)' as it is null."))
  | VUndefined =>
      Thrown (TypeError ("Cannot destructure property '" +:+ first_key
                         +:+ "' of '(intermediate value)' as it is undefined."))
  | _ => Returned v
  end.

Fixpoint join (sep : string) (parts : list string) : string :=
  match parts with
  | [] => ""
  | [p] => p
  | p :: rest => p +:+ sep +:+ join sep rest
  end.

Section ToString.
(** Number::toString (shortest round-trip decimal) is the engine's. *)
Variable Number_toString : number -> string.

(** ToString, as a template literal applies it.  An object parsed
    from JSON has no callable property: if it has an own [toString]
    the conversion finds nothing to call and throws ([None]),
    otherwise [Object.prototype.toString] answers.  An array is
    joined with commas, [null] and [undefined] elements printing as
    the empty string. *)
Fixpoint ToString (v : value) : option string :=
  match v with
  | VUndefined => Some "undefined"
  | VNull => Some "null"
  | VBool true => Some "true"
  | VBool false => Some "false"
  | VNumber x => Some (Number_toString x)
  | VString s => Some s
  | VArray elems =>
      let fix each (l : list value) : option (list string) :=
        match l with
        | [] => Some []
        | e :: rest =>
            match
              match e with
              | VUndefined | VNull => Some ""
              | _ => ToString e
              end, each rest
            with
            | Some s, Some ss => Some (s :: ss)
            | _, _ => None
            end
        end in
      match each elems with
      | Some parts => Some (join "," parts)
      | None => None
      end
  | VObject props =>
      match own_property "toString" props with
      | Some _ => None
      | None => Some "[object Object]"
      end
  end.
End ToString.

(** [s.includes(sub)], as a proposition. *)
Definition includes (s sub : string) : Prop :=
  exists before after, s = before +:+ sub +:+ after.

End JS.

Export JS.

(* ================================================================== *)
(** * The runtime's URL parser *)
(* ================================================================== *)

Module URL.

Definition code (c : ascii) : nat := nat_of_ascii c.

Definition between (lo hi : nat) (c : ascii) : bool :=
  Nat.leb lo (code c) && Nat.leb (code c) hi.

Definition is_char (n : nat) (c : ascii) : bool := Nat.eqb (code c) n.

Definition one_of (codes : list nat) (c : ascii) : bool :=
  existsb (Nat.eqb (code c)) codes.

Definition is_c0_control_or_space : ascii -> bool := between 0 32.
Definition is_ascii_tab_or_newline : ascii -> bool := one_of [9; 10; 13]%nat.
Definition is_ascii_digit : ascii -> bool := between 48 57.
Definition is_ascii_upper_alpha : ascii -> bool := between 65 90.
Definition is_ascii_lower_alpha : ascii -> bool := between 97 122.

Definition is_ascii_alpha (c : ascii) : bool :=
  is_ascii_upper_alpha c || is_ascii_lower_alpha c.

Definition is_ascii_alphanumeric (c : ascii) : bool :=
  is_ascii_digit c || is_ascii_alpha c.

Definition is_ascii_hex_digit (c : ascii) : bool :=
  is_ascii_digit c || between 65 70 c || between 97 102 c.

Definition is_non_ascii (c : ascii) : bool := Nat.leb 128 (code c).

Definition ascii_lowercase (c : ascii) : ascii :=
  if is_ascii_upper_alpha c then ascii_of_nat (code c + 32) else c.

(** '/' and '\' *)
Definition is_slash (c : ascii) : bool := one_of [47; 92]%nat c.

(** NUL, TAB, LF, CR, space, '#', '/', ':', '<', '>', '?', '@', '[',
    '\', ']', '^', '|' *)
Definition is_forbidden_host_code_point : ascii -> bool :=
  one_of [0; 9; 10; 13; 32; 35; 47; 58; 60; 62; 63; 64; 91; 92; 93; 94; 124]%nat.

(** the forbidden host code points, the C0 controls, '%' and DEL *)
Definition is_forbidden_domain_code_point (c : ascii) : bool :=
  is_forbidden_host_code_point c || between 0 31 c || one_of [37; 127]%nat c.

(** The longest prefix whose characters satisfy [p], and the rest. *)
Fixpoint span (p : ascii -> bool) (l : list ascii) : list ascii * list ascii :=
  match l with
  | [] => ([], [])
  | c :: rest =>
      if p c then let '(yes, no) := span p rest in (c :: yes, no)
      else ([], l)
  end.

Fixpoint skip (p : ascii -> bool) (l : list ascii) : list ascii :=
  match l with
  | [] => []
  | c :: rest => if p c then skip p rest else l
  end.

(** The pieces between the occurrences of a separator (never empty). *)
Fixpoint split_on (sep : nat) (l : list ascii) : list (list ascii) :=
  match l with
  | [] => [[]]
  | c :: rest =>
      match split_on sep rest with
      | p :: ps => if is_char sep c then [] :: p :: ps else (c :: p) :: ps
      | [] => [[c]]
      end
  end.

Definition is_empty (l : list ascii) : bool :=
  match l with [] => true | _ => false end.

(** Steps 1 to 3 of the basic URL parser: leading and trailing C0
    controls and spaces are removed, then every tab and newline. *)
Definition preprocess (input : string) : list ascii :=
  let l := skip is_c0_control_or_space (list_ascii_of_string input) in
  let l := rev (skip is_c0_control_or_space (rev l)) in
  filter (fun c => negb (is_ascii_tab_or_newline c)) l.

(** Scheme start state and scheme state, without a base URL: an ASCII
    letter, then letters, digits, '+', '-' and '.', then ':'.  Anything
    else leads to the no-scheme state, which fails when there is no
    base.  The result is the lower-cased scheme and what follows ':'. *)
Definition scheme_state (l : list ascii) : option (string * list ascii) :=
  match l with
  | c :: rest =>
      if is_ascii_alpha c then
        let '(more, after) :=
          span (fun c => is_ascii_alphanumeric c || one_of [43; 45; 46]%nat c) rest in
        match after with
        | colon :: remaining =>
            if is_char 58 colon
            then Some (string_of_list_ascii (map ascii_lowercase (c :: more)), remaining)
            else None
        | [] => None
        end
      else None
  | [] => None
  end.

Definition is_special (scheme : string) : bool :=
  existsb (String.eqb scheme) ["ftp"; "file"; "http"; "https"; "ws"; "wss"].

(** The last piece of a host, once one trailing empty piece is dropped,
    is made of digits, or is [0x] followed by hexadecimal digits: the
    host then goes through the IPv4 parser. *)
Definition ends_in_a_number (host : list ascii) : bool :=
  let parts := rev (split_on 46 host) in
  let parts :=
    match parts with
    | [] :: (_ :: _) as others => others
    | _ => parts
    end in
  match parts with
  | (c :: cs) as last :: _ =>
      forallb is_ascii_digit last
      || match cs with
         | x :: digits =>
             is_char 48 c && one_of [88; 120]%nat x && forallb is_ascii_hex_digit digits
         | [] => false
         end
  | _ => false
  end.

(** A piece of a domain that starts with [xn--] in any letter case. *)
Definition is_punycode_label (label : list ascii) : bool :=
  match map ascii_lowercase label with
  | x :: n :: d1 :: d2 :: _ =>
      is_char 120 x && is_char 110 n && is_char 45 d1 && is_char 45 d2
  | _ => false
  end.

Section HostParser.
(** The runtime's verdict on the hosts this model does not decide:
    IPv6 literals, IPv4 addresses, and domains that go through percent
    decoding or IDNA processing.  The first argument is the parser's
    [isOpaque] flag. *)
Variable runtime_host_parser : bool -> string -> bool.

(** The host parser.  For an opaque host only the forbidden host code
    points fail.  A domain made of ASCII characters, with no '%' and no
    [xn--] label, is only lower-cased by domain-to-ASCII, so it fails
    exactly on a forbidden domain code point, unless it ends in a number. *)
Definition host_parser (is_opaque : bool) (input : list ascii) : bool :=
  match input with
  | c :: _ =>
      if is_char 91 c then runtime_host_parser is_opaque (string_of_list_ascii input)
      else if is_opaque then negb (existsb is_forbidden_host_code_point input)
      else if existsb (fun c => is_non_ascii c || is_char 37 c) input
              || existsb is_punycode_label (split_on 46 input)
           then runtime_host_parser is_opaque (string_of_list_ascii input)
      else if existsb is_forbidden_domain_code_point input then false
      else if ends_in_a_number input
           then runtime_host_parser is_opaque (string_of_list_ascii input)
      else true
  | [] => is_opaque
  end.

(** Host state: the host runs up to the first ':' outside brackets. *)
Fixpoint split_host_port (inside_brackets : bool) (l : list ascii)
  : list ascii * option (list ascii) :=
  match l with
  | [] => ([], None)
  | c :: rest =>
      if is_char 58 c && negb inside_brackets then ([], Some rest)
      else
        let inside :=
          if is_char 91 c then true
          else if is_char 93 c then false
          else inside_brackets in
        let '(host, port) := split_host_port inside rest in
        (c :: host, port)
  end.

Definition decimal (digits : list ascii) : N :=
  fold_left (fun n c => (10 * n + N.of_nat (code c - 48))%N) digits 0%N.

(** Port state: digits only, and at most 65535 when there are any. *)
Definition port_state (buffer : list ascii) : bool :=
  forallb is_ascii_digit buffer && (decimal buffer <=? 65535)%N.

(** Authority state, host state and port state.  The authority ends at
    the first '/', '?' or '#' (or '\' in a special URL); credentials are
    what precedes its last '@'. *)
Definition authority_state (special : bool) (l : list ascii) : bool :=
  let ends c := one_of [47; 63; 35]%nat c || (special && is_char 92 c) in
  let '(authority, _) := span (fun c => negb (ends c)) l in
  let pieces := split_on 64 authority in
  let at_sign_seen := Nat.ltb 1 (length pieces) in
  let buffer := List.last pieces [] in
  if at_sign_seen && is_empty buffer then false
  else
    match split_host_port false buffer with
    | (host, Some port) =>
        negb (is_empty host) && host_parser (negb special) host && port_state port
    | (host, None) =>
        negb (special && is_empty host) && host_parser (negb special) host
    end.

(** An ASCII letter followed by ':' or '|'. *)
Definition is_windows_drive_letter (buffer : list ascii) : bool :=
  match buffer with
  | [letter; c] => is_ascii_alpha letter && one_of [58; 124]%nat c
  | _ => false
  end.

(** File state, file slash state and file host state, without a base. *)
Definition file_state (l : list ascii) : bool :=
  match l with
  | c1 :: c2 :: rest =>
      if is_slash c1 && is_slash c2 then
        let '(buffer, _) :=
          span (fun c => negb (one_of [47; 92; 63; 35]%nat c)) rest in
        if is_windows_drive_letter buffer then true
        else if is_empty buffer then true
        else host_parser false buffer
      else true
  | _ => true
  end.

(** Modelled from the spec: the URL constructor [new URL(string)] is the
    runtime's, not the repository's.  The spec asks that the string
    "parses as a structurally valid URL (scheme + authority/path per
    standard URL grammar)"; the standard grammar is the URL Standard's
    basic URL parser, run without a base URL.  The parser fails in the
    scheme, authority, host and port states only; the path, query and
    fragment states accept everything.  The result is the scheme of the
    parsed URL, [None] where the constructor throws. *)
Definition basic_URL_parser (input : string) : option string :=
  match scheme_state (preprocess input) with
  | None => None
  | Some (scheme, remaining) =>
      let ok :=
        if String.eqb scheme "file" then file_state remaining
        else if is_special scheme then authority_state true (skip is_slash remaining)
        else
          match remaining with
          | c1 :: c2 :: rest =>
              if is_char 47 c1 && is_char 47 c2 then authority_state false rest
              else true
          | _ => true
          end in
      if ok then Some scheme else None
  end.

End HostParser.

End URL.

(* ================================================================== *)
(** * The runtime: requests, responses, the world and its effects *)
(* ================================================================== *)

Module Runtime.

(** A body as the Fetch API exposes it: [text()] gives [body_text],
    [json()] gives [body_json], the result of [JSON.parse] on that text
    ([Thrown] with the engine's SyntaxError when it is not JSON). *)
Record Body : Type := mkBody {
  body_text : string;
  body_json : Outcome value
}.

(** The incoming request.  [None] is a null body (no payload sent). *)
Record Request : Type := mkRequest {
  method : string;
  request_body : option Body
}.

Definition Headers : Type := list (string * string).

(** What a handler hands to [new Response] or to [fetch] as a body:
    nothing, a string, or [JSON.stringify(v)]. *)
Inductive BodyInit : Type :=
| BodyNull
| BodyString (s : string)
| JSON_stringify (v : value).

(** The response a handler returns to its caller. *)
Record HttpResponse : Type := mkHttpResponse {
  res_body : BodyInit;
  res_status : N;
  res_headers : Headers
}.

(** [new Response(body, { status, headers })]; the status defaults to 200. *)
Definition new_Response (body : BodyInit) (status : option N) (headers : Headers)
  : HttpResponse :=
  mkHttpResponse body (default 200%N status) headers.

(** The second argument of [fetch]. *)
Record FetchInit : Type := mkFetchInit {
  fetch_method : string;
  fetch_headers : Headers;
  fetch_body : BodyInit
}.

(** The webhook's response, as [fetch] resolves to it. *)
Record FetchResponse : Type := mkFetchResponse {
  status : N;
  statusText : string;
  headers : Headers;
  response_body : option Body
}.

(** [response.ok]: the status is in the range 200 to 299. *)
Definition ok (r : FetchResponse) : bool :=
  (200 <=? status r)%N && (status r <=? 299)%N.

(** The client [createClient(url, key)] returns. *)
Record SupabaseClient : Type := mkClient {
  supabaseUrl : string;
  supabaseKey : string
}.

(** [client.from(table).update(data).eq(column, v)] *)
Record StoreUpdate : Type := mkStoreUpdate {
  upd_client : SupabaseClient;
  upd_table : string;
  upd_data : value;
  upd_column : string;
  upd_equals : value
}.

Inductive Level : Type := Log | Err.

(** What a run does that can be seen from outside, in order. *)
Inductive Event : Type :=
| Console (level : Level) (label : string) (args : list value)
| Fetch (url : string) (init : FetchInit)
| Update (u : StoreUpdate).

(** Everything a run depends on and the code does not define. *)
Record World : Type := mkWorld {
  (** the process environment, read by [Deno.env.get] *)
  env : gmap string string;
  (** the request the callback is invoked with *)
  request : Request;
  (** what [fetch(url, init)] settles to; [Thrown] is a network error *)
  fetch_result : string -> FetchInit -> Outcome FetchResponse;
  (** the error [createClient(url, key)] throws, if any *)
  createClient_error : string -> string -> option Error;
  (** the error the awaited update rejects with, if any *)
  update_error : StoreUpdate -> option Error;
  (** [new Date().toISOString()] at the n-th reading of the clock *)
  clock : nat -> string;
  (** the engine's Number::toString *)
  Number_toString : number -> string;
  (** the runtime's host parser, where [URL.host_parser] defers to it *)
  runtime_host_parser : bool -> string -> bool
}.

(** What a run changes as it goes: the events so far, whether the body
    of the request and of the webhook's response have been read, and how
    often the clock was read. *)
Record State : Type := mkState {
  trace : list Event;
  request_body_used : bool;
  response_body_used : bool;
  clock_reads : nat
}.

Definition initial : State := mkState [] false false 0.

(** ** The monad of handler code: state and exceptions *)

Definition M (A : Type) : Type := State -> Outcome A * State.

Definition ret {A} (a : A) : M A := fun st => (Returned a, st).

Definition throw {A} (e : Error) : M A := fun st => (Thrown e, st).

Definition bind {A B} (m : M A) (k : A -> M B) : M B :=
  fun st =>
    match m st with
    | (Returned a, st') => k a st'
    | (Thrown e, st') => (Thrown e, st')
    end.

(** [try { m } catch (e) { handler e }] *)
Definition try_catch {A} (m : M A) (handler : Error -> M A) : M A :=
  fun st =>
    match m st with
    | (Returned a, st') => (Returned a, st')
    | (Thrown e, st') => handler e st'
    end.

(** The outcome of [m] as a value, for a [try] whose [catch] leaves the
    function while its body lets it go on. *)
Definition attempt {A} (m : M A) : M (Outcome A) :=
  fun st => let '(o, st') := m st in (Returned o, st').

Definition lift {A} (o : Outcome A) : M A := fun st => (o, st).

Declare Scope js_scope.
Delimit Scope js_scope with js.
Notation "x <- m ;; k" := (bind m (fun x => k))
  (at level 20, m at level 99, k at level 200, only parsing) : js_scope.
Notation "m ;; k" := (bind m (fun _ => k))
  (at level 100, k at level 200, only parsing, right associativity) : js_scope.
Open Scope js_scope.

(** The state once one more event has happened. *)
Definition record (e : Event) (st : State) : State :=
  mkState (trace st ++ [e]) (request_body_used st) (response_body_used st)
          (clock_reads st).

Definition emit (e : Event) : M unit := fun st => (Returned tt, record e st).

Definition console_log (label : string) (args : list value) : M unit :=
  emit (Console Log label args).

Definition console_error (label : string) (args : list value) : M unit :=
  emit (Console Err label args).

(** An error as the console prints it: its message. *)
Definition shown (e : Error) : value := VString (message e).

(** ** Body reading, after the Fetch Standard

    A body is a stream.  The Body mixin's "consume body" algorithm,
    behind both [json()] and [text()], first rejects with a TypeError if
    the object is unusable, that is, if its body is non-null and its
    stream is disturbed or locked; otherwise it reads the stream to its
    end, which disturbs it, and only then converts the bytes, so a body
    is used up even when [JSON.parse] fails on it.  [clone()] throws a
    TypeError on an unusable object.  A null body is never unusable and
    reads as no bytes: [text()] gives the empty string and [json()]
    fails to parse. *)

(** The TypeError of a second read, and that of cloning what was read.
    The wording is Deno's. *)
Definition body_unusable : Error := TypeError "Body already consumed.".

Definition clone_unusable : Error := TypeError "Body is unusable.".

(** The SyntaxError of [JSON.parse] on no input.  The wording is V8's. *)
Definition end_of_input : Error := SyntaxError "Unexpected end of JSON input".

Definition mark_request_used : M unit :=
  fun st =>
    (Returned tt, mkState (trace st) true (response_body_used st) (clock_reads st)).

Definition mark_response_used : M unit :=
  fun st =>
    (Returned tt, mkState (trace st) (request_body_used st) true (clock_reads st)).

Definition request_used : M bool := fun st => (Returned (request_body_used st), st).

Definition response_used : M bool := fun st => (Returned (response_body_used st), st).

Section Effects.
Variable w : World.

(** [Deno.env.get(name)] *)
Definition Deno_env_get (name : string) : option string := env w !! name.

(** [new Date().toISOString()] *)
Definition Date_toISOString : M string :=
  fun st =>
    (Returned (clock w (clock_reads st)),
     mkState (trace st) (request_body_used st) (response_body_used st)
             (S (clock_reads st))).

(** [await req.json()] *)
Definition req_json : M value :=
  match request_body (request w) with
  | None => throw end_of_input
  | Some b =>
      used <- request_used ;;
      if used then throw body_unusable
      else mark_request_used ;; lift (body_json b)
  end.

(** [await req.clone().json()]: [clone()] throws on a body that was
    read; otherwise the clone has a body of its own, and reading it
    leaves the body of [req] as it was. *)
Definition req_clone_json : M value :=
  match request_body (request w) with
  | None => throw end_of_input
  | Some b =>
      used <- request_used ;;
      if used then throw clone_unusable
      else lift (body_json b)
  end.

(** [await fetch(url, init)] *)
Definition fetch (url : string) (init : FetchInit) : M FetchResponse :=
  emit (Fetch url init) ;; lift (fetch_result w url init).

(** [await response.text()] *)
Definition response_text (r : FetchResponse) : M string :=
  match response_body r with
  | None => ret ""
  | Some b =>
      used <- response_used ;;
      if used then throw body_unusable
      else mark_response_used ;; ret (body_text b)
  end.

(** [await response.json()] *)
Definition response_json (r : FetchResponse) : M value :=
  match response_body r with
  | None => throw end_of_input
  | Some b =>
      used <- response_used ;;
      if used then throw body_unusable
      else mark_response_used ;; lift (body_json b)
  end.

(** [createClient(url, key)] *)
Definition createClient (url key : string) : M SupabaseClient :=
  match createClient_error w url key with
  | Some e => throw e
  | None => ret (mkClient url key)
  end.

(** [await client.from(table).update(data).eq(column, v)] *)
Definition from_update_eq (client : SupabaseClient) (table : string) (data : value)
  (column : string) (v : value) : M unit :=
  let u := mkStoreUpdate client table data column v in
  emit (Update u) ;;
  match update_error w u with
  | Some e => throw e
  | None => ret tt
  end.

(** [new URL(string)]: the scheme of the parsed URL, or a TypeError. *)
Definition new_URL (input : string) : M string :=
  match URL.basic_URL_parser (runtime_host_parser w) input with
  | Some scheme => ret scheme
  | None => throw (TypeError "Invalid URL")
  end.

(** [`${v}`] *)
Definition template (v : value) : M string :=
  match ToString (Number_toString w) v with
  | Some s => ret s
  | None => throw (TypeError "Cannot convert object to primitive value")
  end.

End Effects.

End Runtime.

Export Runtime.

(* ================================================================== *)
(** * Handler A: supabase/functions/process-document/index.ts *)
(* ================================================================== *)

Module ProcessDocument.

Definition corsHeaders : Headers :=
  [("Access-Control-Allow-Origin", "*");
   ("Access-Control-Allow-Headers", "authorization, x-client-info, apikey, content-type")].

(** [{ ...corsHeaders, 'Content-Type': 'application/json' }] *)
Definition json_headers : Headers :=
  corsHeaders ++ [("Content-Type", "application/json")].

Definition required_fields_message : string :=
  "sourceId, filePath, and sourceType are required".

Definition not_configured_message : string :=
  "Document processing webhook URL not configured. Please set DOCUMENT_PROCESSING_WEBHOOK_URL in Supabase Edge Function secrets.".

Definition invalid_format_message (webhookUrl : string) : string :=
  "Invalid webhook URL format: " +:+ webhookUrl
  +:+ ". Please ensure the URL includes the protocol (https://) and is properly formatted.".

Definition connect_failed_message (webhookUrl : string) : string :=
  "Failed to connect to webhook URL: " +:+ webhookUrl
  +:+ ". Please verify the URL is correct and accessible.".

Definition webhook_returned_message (response : FetchResponse) (errorText : string)
  : string :=
  "Webhook returned " +:+ string_of_N (status response) +:+ " "
  +:+ statusText response +:+ ": " +:+ errorText.

Section Handler.
Variable w : World.

(** lines 10-17 *)
Definition isValidUrl (s : string) : M bool :=
  try_catch (new_URL w s ;; ret true) (fun _ => ret false).

(** lines 20-35 *)
Definition updateSourceStatus (sourceId : value) (status : string)
  (errorMessage : option string) : M unit :=
  supabaseClient <-
    createClient w (default "" (Deno_env_get w "SUPABASE_URL"))
                   (default "" (Deno_env_get w "SUPABASE_SERVICE_ROLE_KEY")) ;;
  let updateData :=
    VObject (("processing_status", VString status)
             :: (if truthy_opt errorMessage
                 then [("metadata", VObject [("error", of_opt errorMessage)])]
                 else [])) in
  from_update_eq w supabaseClient "sources" updateData "id" sourceId.

(** [`${Deno.env.get('SUPABASE_URL')}`] *)
Definition supabase_url_text : string :=
  default "undefined" (Deno_env_get w "SUPABASE_URL").

(** lines 158-175: the top-level [catch] *)
Definition on_error (error : Error) : M HttpResponse :=
  console_error "Error in process-document function:" [shown error] ;;
  try_catch
    (body <- req_clone_json w ;;
     fields <- lift (destructure body "sourceId") ;;
     let sourceId := get fields "sourceId" in
     if truthy sourceId
     then updateSourceStatus sourceId "failed"
            (Some "Internal server error during document processing")
     else ret tt)
    (fun parseError =>
       console_error "Could not parse request to update source status:"
                     [shown parseError]) ;;
  ret (new_Response
         (JSON_stringify
            (VObject [("error", VString "Internal server error");
                      ("details", VString (message error))]))
         (Some 500%N) json_headers).

(** lines 115-156: what follows the call, given how it settled *)
Definition answer (sourceId : value) (webhookUrl : string)
  (fetched : Outcome FetchResponse) : M HttpResponse :=
  match fetched with
  | Thrown fetchError =>
      console_error "Network error calling webhook:" [shown fetchError] ;;
      let errorMessage := connect_failed_message webhookUrl in
      updateSourceStatus sourceId "failed" (Some errorMessage) ;;
      ret (new_Response
             (JSON_stringify
                (VObject [("error", VString "Document processing failed");
                          ("details", VString errorMessage);
                          ("webhookUrl", VString webhookUrl)]))
             (Some 500%N) json_headers)
  | Returned response =>
      if negb (ok response) then
        errorText <- response_text response ;;
        console_error "Webhook call failed:"
          [VNumber (number_of_N (status response));
           VString (statusText response); VString errorText] ;;
        let errorMessage := webhook_returned_message response errorText in
        updateSourceStatus sourceId "failed" (Some errorMessage) ;;
        ret (new_Response
               (JSON_stringify
                  (VObject [("error", VString "Document processing failed");
                            ("details", VString errorMessage);
                            ("webhookUrl", VString webhookUrl);
                            ("status", VNumber (number_of_N (status response)));
                            ("statusText", VString (statusText response))]))
               (Some 500%N) json_headers)
      else
        result <- response_json response ;;
        console_log "Webhook response:" [result] ;;
        ret (new_Response
               (JSON_stringify
                  (VObject [("success", VBool true);
                            ("message", VString "Document processing initiated");
                            ("result", result)]))
               None json_headers)
  end.

(** lines 83-114: the payload and the call of the webhook *)
Definition call_webhook (sourceId filePath sourceType : value)
  (webhookUrl : string) (authHeader : option string) : M HttpResponse :=
  console_log "Calling external webhook:" [VString webhookUrl] ;;
  path <- template w filePath ;;
  let fileUrl :=
    supabase_url_text +:+ "/storage/v1/object/public/sources/" +:+ path in
  let payload :=
    VObject [("source_id", sourceId);
             ("file_url", VString fileUrl);
             ("file_path", filePath);
             ("source_type", sourceType);
             ("callback_url",
              VString (supabase_url_text +:+ "/functions/v1/process-document-callback"))] in
  console_log "Webhook payload:" [payload] ;;
  let headers :=
    ("Content-Type", "application/json")
    :: (if truthy_opt authHeader
        then [("Authorization", default "" authHeader)]
        else []) in
  fetched <- attempt (fetch w webhookUrl
                        (mkFetchInit "POST" headers (JSON_stringify payload))) ;;
  answer sourceId webhookUrl fetched.

(** lines 43-81: the body of the [try], up to the call of the webhook *)
Definition process : M HttpResponse :=
  body <- req_json w ;;
  fields <- lift (destructure body "sourceId") ;;
  let sourceId := get fields "sourceId" in
  let filePath := get fields "filePath" in
  let sourceType := get fields "sourceType" in
  if negb (truthy sourceId) || negb (truthy filePath) || negb (truthy sourceType)
  then
    ret (new_Response
           (JSON_stringify (VObject [("error", VString required_fields_message)]))
           (Some 400%N) json_headers)
  else
    console_log "Processing document:"
      [VObject [("source_id", sourceId); ("file_path", filePath);
                ("source_type", sourceType)]] ;;
    let webhookUrl := Deno_env_get w "DOCUMENT_PROCESSING_WEBHOOK_URL" in
    let authHeader := Deno_env_get w "NOTEBOOK_GENERATION_AUTH" in
    if negb (truthy_opt webhookUrl) then
      console_error "Missing DOCUMENT_PROCESSING_WEBHOOK_URL environment variable" [] ;;
      let errorMessage := not_configured_message in
      updateSourceStatus sourceId "failed" (Some errorMessage) ;;
      ret (new_Response
             (JSON_stringify (VObject [("error", VString errorMessage)]))
             (Some 500%N) json_headers)
    else
      let webhookUrl := default "" webhookUrl in
      valid <- isValidUrl webhookUrl ;;
      if negb valid then
        console_error "Invalid DOCUMENT_PROCESSING_WEBHOOK_URL format:"
                      [VString webhookUrl] ;;
        let errorMessage := invalid_format_message webhookUrl in
        updateSourceStatus sourceId "failed" (Some errorMessage) ;;
        ret (new_Response
               (JSON_stringify (VObject [("error", VString errorMessage)]))
               (Some 500%N) json_headers)
      else call_webhook sourceId filePath sourceType webhookUrl authHeader.

(** lines 37-176: the callback given to [serve] *)
Definition handler : M HttpResponse :=
  if String.eqb (method (request w)) "OPTIONS" then
    ret (new_Response (BodyString "ok") None corsHeaders)
  else try_catch process on_error.

End Handler.

(** One invocation: the callback run from the initial state. *)
Definition serve (w : World) : Outcome HttpResponse * State := handler w initial.

End ProcessDocument.

(* ================================================================== *)
(** * Handler B: supabase/functions/send-chat-message/index.ts *)
(* ================================================================== *)

Module SendChatMessage.

Definition corsHeaders : Headers :=
  [("Access-Control-Allow-Origin", "*");
   ("Access-Control-Allow-Headers", "authorization, x-client-info, apikey, content-type")].

(** [{ ...corsHeaders, 'Content-Type': 'application/json' }] *)
Definition json_headers : Headers :=
  corsHeaders ++ [("Content-Type", "application/json")].

Definition url_not_set_message : string :=
  "NOTEBOOK_CHAT_URL environment variable not set. Please configure this secret in Supabase Edge Functions.".

Definition auth_not_set_message : string :=
  "NOTEBOOK_GENERATION_AUTH environment variable not set. Please configure this secret in Supabase Edge Functions.".

Definition invalid_format_message (webhookUrl : string) : string :=
  "Invalid NOTEBOOK_CHAT_URL format: " +:+ webhookUrl
  +:+ ". Please ensure the URL includes the protocol (https://) and is properly formatted.".

Definition connect_failed_message (webhookUrl : string) (fetchError : Error) : string :=
  "Failed to connect to webhook URL: " +:+ webhookUrl
  +:+ ". Network error: " +:+ message fetchError.

Definition webhook_responded_message (webhookResponse : FetchResponse)
  (errorText : string) : string :=
  "Webhook responded with status: " +:+ string_of_N (status webhookResponse)
  +:+ " " +:+ statusText webhookResponse +:+ ". Response: " +:+ errorText.

(** [error.message || 'Failed to send message to webhook'] *)
Definition message_or_default (error : Error) : string :=
  if String.eqb (message error) "" then "Failed to send message to webhook"
  else message error.

Section Handler.
Variable w : World.

(** lines 9-16 *)
Definition isValidUrl (s : string) : M bool :=
  try_catch (new_URL w s ;; ret true) (fun _ => ret false).

(** [console.error(errorMessage); throw new Error(errorMessage)] *)
Definition fail {A} (errorMessage : string) : M A :=
  console_error errorMessage [] ;; throw (new_Error errorMessage).

(** lines 94-101: the parsed body, or the fallback object *)
Definition read_webhook_data (webhookResponse : FetchResponse) : M value :=
  try_catch (response_json webhookResponse)
    (fun parseError =>
       responseText <- response_text webhookResponse ;;
       console_log "Webhook returned non-JSON response:" [VString responseText] ;;
       ret (VObject [("message", VString "Webhook processed successfully");
                     ("response", VString responseText)])).

(** lines 76-113: what follows the call, given how it settled *)
Definition answer (webhookUrl : string) (fetched : Outcome FetchResponse)
  : M HttpResponse :=
  match fetched with
  | Thrown fetchError => fail (connect_failed_message webhookUrl fetchError)
  | Returned webhookResponse =>
      console_log "Webhook response status:"
        [VNumber (number_of_N (status webhookResponse))] ;;
      console_log "Webhook response headers:"
        [VObject (map (fun kv => (fst kv, VString (snd kv)))
                      (headers webhookResponse))] ;;
      if negb (ok webhookResponse) then
        errorText <- response_text webhookResponse ;;
        let errorMessage := webhook_responded_message webhookResponse errorText in
        console_error errorMessage [] ;;
        console_error "Full webhook URL used:" [VString webhookUrl] ;;
        throw (new_Error errorMessage)
      else
        webhookData <- read_webhook_data webhookResponse ;;
        console_log "Webhook response data:" [webhookData] ;;
        ret (new_Response
               (JSON_stringify
                  (VObject [("success", VBool true); ("data", webhookData)]))
               None json_headers)
  end.

(** lines 25-75: the body of the [try], up to the call of the webhook *)
Definition relay : M HttpResponse :=
  body <- req_json w ;;
  fields <- lift (destructure body "session_id") ;;
  let session_id := get fields "session_id" in
  let message := get fields "message" in
  let user_id := get fields "user_id" in
  console_log "Received message:"
    [VObject [("session_id", session_id); ("message", message);
              ("user_id", user_id)]] ;;
  let webhookUrl := Deno_env_get w "NOTEBOOK_CHAT_URL" in
  let authHeader := Deno_env_get w "NOTEBOOK_GENERATION_AUTH" in
  if negb (truthy_opt webhookUrl) then fail url_not_set_message
  else if negb (truthy_opt authHeader) then fail auth_not_set_message
  else
    let webhookUrl := default "" webhookUrl in
    let authHeader := default "" authHeader in
    valid <- isValidUrl webhookUrl ;;
    if negb valid then fail (invalid_format_message webhookUrl)
    else
      console_log "Sending to webhook URL:" [VString webhookUrl] ;;
      console_log "Using auth header (first 10 chars):"
        [VString (String.substring 0 10 authHeader +:+ "...")] ;;
      timestamp <- Date_toISOString w ;;
      let payload :=
        VObject [("session_id", session_id); ("message", message);
                 ("user_id", user_id); ("timestamp", VString timestamp)] in
      console_log "Webhook payload:" [payload] ;;
      fetched <- attempt (fetch w webhookUrl
                            (mkFetchInit "POST"
                               [("Content-Type", "application/json");
                                ("Authorization", authHeader)]
                               (JSON_stringify payload))) ;;
      answer webhookUrl fetched.

(** lines 115-135: the top-level [catch] *)
Definition on_error (error : Error) : M HttpResponse :=
  console_error "Error in send-chat-message:" [shown error] ;;
  timestamp <- Date_toISOString w ;;
  ret (new_Response
         (JSON_stringify
            (VObject
               [("error", VString (message_or_default error));
                ("details",
                 VObject [("webhookUrl", of_opt (Deno_env_get w "NOTEBOOK_CHAT_URL"));
                          ("hasAuth",
                           VBool (truthy_opt (Deno_env_get w "NOTEBOOK_GENERATION_AUTH")));
                          ("timestamp", VString timestamp)])]))
         (Some 500%N) json_headers).

(** lines 18-136: the callback given to [serve] *)
Definition handler : M HttpResponse :=
  if String.eqb (method (request w)) "OPTIONS" then
    ret (new_Response BodyNull None corsHeaders)
  else try_catch relay on_error.

End Handler.

(** One invocation: the callback run from the initial state. *)
Definition serve (w : World) : Outcome HttpResponse * State := handler w initial.

End SendChatMessage.

(* ================================================================== *)
(** * Observations on a run *)
(* ================================================================== *)

(** The outbound calls of a trace, in order. *)
Fixpoint fetches (t : list Event) : list (string * FetchInit) :=
  match t with
  | [] => []
  | Fetch url init :: rest => (url, init) :: fetches rest
  | _ :: rest => fetches rest
  end.

(** The status-record writes of a trace, in order. *)
Fixpoint updates (t : list Event) : list StoreUpdate :=
  match t with
  | [] => []
  | Update u :: rest => u :: updates rest
  | _ :: rest => updates rest
  end.

(** Whether [new URL(s)] returns. *)
Definition parses (w : World) (s : string) : bool :=
  match URL.basic_URL_parser (runtime_host_parser w) s with
  | Some _ => true
  | None => false
  end.

(** The three fields Handler A requires. *)
Definition required_fields : list string := ["sourceId"; "filePath"; "sourceType"].

(** The write [updateSourceStatus(id, 'failed', msg)] issues for a
    non-empty [msg], through a client made from the environment. *)
Definition failed_update (w : World) (id : value) (msg : string) : StoreUpdate :=
  mkStoreUpdate
    (mkClient (default "" (env w !! "SUPABASE_URL"))
              (default "" (env w !! "SUPABASE_SERVICE_ROLE_KEY")))
    "sources"
    (VObject [("processing_status", VString "failed");
              ("metadata", VObject [("error", VString msg)])])
    "id" id.

(** The store accepts [updateSourceStatus(id, 'failed', msg)]: the
    client can be made and the update resolves. *)
Definition store_accepts (w : World) (id : value) (msg : string) : Prop :=
  createClient_error w (default "" (env w !! "SUPABASE_URL"))
                       (default "" (env w !! "SUPABASE_SERVICE_ROLE_KEY")) = None
  /\ update_error w (failed_update w id msg) = None.

(** A response body is empty: no body, or the empty string. *)
Definition body_is_empty (b : BodyInit) : bool :=
  match b with
  | BodyNull => true
  | BodyString s => String.eqb s ""
  | JSON_stringify _ => false
  end.

(** Handler A's answer to a request without its required fields. *)
Definition required_fields_response : HttpResponse :=
  mkHttpResponse
    (JSON_stringify
       (VObject [("error", VString ProcessDocument.required_fields_message)]))
    400%N ProcessDocument.json_headers.

(** Handler A's answer from its top-level [catch]. *)
Definition internal_error_response (error : Error) : HttpResponse :=
  mkHttpResponse
    (JSON_stringify
       (VObject [("error", VString "Internal server error");
                 ("details", VString (message error))]))
    500%N ProcessDocument.json_headers.

(** Handler A's answer when the webhook URL is not configured. *)
Definition not_configured_response : HttpResponse :=
  mkHttpResponse
    (JSON_stringify
       (VObject [("error", VString ProcessDocument.not_configured_message)]))
    500%N ProcessDocument.json_headers.

(** Handler B's answer from its top-level [catch], the clock reading
    [timestamp]. *)
Definition chat_error_response (w : World) (error : Error) (timestamp : string)
  : HttpResponse :=
  mkHttpResponse
    (JSON_stringify
       (VObject
          [("error", VString (SendChatMessage.message_or_default error));
           ("details",
            VObject [("webhookUrl", of_opt (env w !! "NOTEBOOK_CHAT_URL"));
                     ("hasAuth",
                      VBool (truthy_opt (env w !! "NOTEBOOK_GENERATION_AUTH")));
                     ("timestamp", VString timestamp)])]))
    500%N SendChatMessage.json_headers.

(** The error the request leaves in Handler A's [catch] when it is read
    a second time: the body is gone, or there never was one. *)
Definition reread_error (w : World) : Error :=
  match request_body (request w) with
  | Some _ => clone_unusable
  | None => end_of_input
  end.

(** A field of the request's JSON body, [undefined] when there is no
    such field or no JSON body. *)
Definition request_field (w : World) (key : string) : value :=
  match request_body (request w) with
  | Some b =>
      match body_json b with
      | Returned v => get v key
      | Thrown _ => VUndefined
      end
  | None => VUndefined
  end.

(** What [await response.text()] gives on a body not yet read. *)
Definition body_text_of (r : FetchResponse) : string :=
  match response_body r with
  | Some b => body_text b
  | None => ""
  end.

(** The state once the request body has been read and nothing else done. *)
Definition read : State := mkState [] true false 0.

(** [m] adds nothing to what [obs] sees of the trace. *)
Definition silent {A X} (obs : list Event -> list X) (m : M A) : Prop :=
  forall st, obs (trace (snd (m st))) = obs (trace st).

(** A message embeds the status code, the status text and the body text
    of a webhook response. *)
Definition embeds (msg : string) (r : FetchResponse) : Prop :=
  includes msg (string_of_N (status r))
  /\ includes msg (statusText r)
  /\ includes msg (body_text_of r).

(* ================================================================== *)
(** * Concrete worlds *)
(* ================================================================== *)

Module Examples.

(** The double quote, and a JSON string literal without escapes. *)
Definition dq : string := String (ascii_of_nat 34) EmptyString.
Definition quoted (s : string) : string := dq +:+ s +:+ dq.

(** [createClient] of supabase-js refuses an empty URL or key. *)
Definition createClient_refuses_empty (url key : string) : option Error :=
  if String.eqb url "" then Some (new_Error "supabaseUrl is required.")
  else if String.eqb key "" then Some (new_Error "supabaseKey is required.")
  else None.

(** A world whose store resolves every update and whose clock stands
    still.  No example holds a number or a host the runtime is asked
    about, so the last two fields are never consulted. *)
Definition world (e : gmap string string) (req : Request)
  (webhook : Outcome FetchResponse) : World :=
  mkWorld e req (fun _ _ => webhook) createClient_refuses_empty (fun _ => None)
          (fun _ => "2024-05-01T12:00:00.000Z") (fun _ => "0") (fun _ _ => false).

(** [{"sourceId":"doc-1","filePath":"user/report.pdf","sourceType":"pdf"}] *)
Definition document : value :=
  VObject [("sourceId", VString "doc-1");
           ("filePath", VString "user/report.pdf");
           ("sourceType", VString "pdf")].

Definition document_text : string :=
  "{" +:+ quoted "sourceId" +:+ ":" +:+ quoted "doc-1" +:+ ","
  +:+ quoted "filePath" +:+ ":" +:+ quoted "user/report.pdf" +:+ ","
  +:+ quoted "sourceType" +:+ ":" +:+ quoted "pdf" +:+ "}".

Definition post_document : Request :=
  mkRequest "POST" (Some (mkBody document_text (Returned document))).

(** [{"sourceId":"doc-1","sourceType":"pdf"}]: no [filePath] *)
Definition post_without_filePath : Request :=
  mkRequest "POST"
    (Some (mkBody
             ("{" +:+ quoted "sourceId" +:+ ":" +:+ quoted "doc-1" +:+ ","
              +:+ quoted "sourceType" +:+ ":" +:+ quoted "pdf" +:+ "}")
             (Returned (VObject [("sourceId", VString "doc-1");
                                 ("sourceType", VString "pdf")])))).

(** [{"sourceId":"doc-1","filePath":"user/report.pdf","sourceType":""}] *)
Definition post_empty_sourceType : Request :=
  mkRequest "POST"
    (Some (mkBody
             ("{" +:+ quoted "sourceId" +:+ ":" +:+ quoted "doc-1" +:+ ","
              +:+ quoted "filePath" +:+ ":" +:+ quoted "user/report.pdf" +:+ ","
              +:+ quoted "sourceType" +:+ ":" +:+ dq +:+ dq +:+ "}")
             (Returned (VObject [("sourceId", VString "doc-1");
                                 ("filePath", VString "user/report.pdf");
                                 ("sourceType", VString "")])))).

(** [{"session_id":"s-1","message":"hello","user_id":"u-1"}] *)
Definition chat : value :=
  VObject [("session_id", VString "s-1");
           ("message", VString "hello");
           ("user_id", VString "u-1")].

Definition post_chat : Request :=
  mkRequest "POST"
    (Some (mkBody
             ("{" +:+ quoted "session_id" +:+ ":" +:+ quoted "s-1" +:+ ","
              +:+ quoted "message" +:+ ":" +:+ quoted "hello" +:+ ","
              +:+ quoted "user_id" +:+ ":" +:+ quoted "u-1" +:+ "}")
             (Returned chat))).

(** A CORS preflight. *)
Definition preflight : Request := mkRequest "OPTIONS" None.

(** The store's own configuration, as the platform provides it. *)
Definition store_env : gmap string string :=
  <["SUPABASE_URL" := "https://project.supabase.co"]>
    (<["SUPABASE_SERVICE_ROLE_KEY" := "service-role-key"]> ∅).

(** Handler A, fully configured. *)
Definition document_env : gmap string string :=
  <["DOCUMENT_PROCESSING_WEBHOOK_URL" := "https://example.com/path"]> store_env.

(** Handler B, fully configured. *)
Definition chat_env : gmap string string :=
  <["NOTEBOOK_CHAT_URL" := "https://example.com/path"]>
    (<["NOTEBOOK_GENERATION_AUTH" := "Bearer 0123456789abcdef"]> ∅).

(** HTTP 503 with the body [unavailable]. *)
Definition unavailable : FetchResponse :=
  mkFetchResponse 503 "Service Unavailable" [("content-type", "text/plain")]
    (Some (mkBody "unavailable"
             (Thrown (SyntaxError "Unexpected token 'u', unavailable is not valid JSON")))).

(** HTTP 200 with the body [{"ok":true}]. *)
Definition ok_true : FetchResponse :=
  mkFetchResponse 200 "OK" [("content-type", "application/json")]
    (Some (mkBody ("{" +:+ quoted "ok" +:+ ":true}")
             (Returned (VObject [("ok", VBool true)])))).

(** HTTP 200 with the body [done], which is not JSON. *)
Definition done_text : FetchResponse :=
  mkFetchResponse 200 "OK" [("content-type", "text/plain")]
    (Some (mkBody "done"
             (Thrown (SyntaxError "Unexpected token 'd', done is not valid JSON")))).

(** Handler A, webhook URL unset, store configured. *)
Definition document_unconfigured : World :=
  world store_env post_document (Returned ok_true).

(** Handler A, webhook URL unset and store unconfigured as well:
    [createClient('', '')] throws. *)
Definition document_nothing_configured : World :=
  world ∅ post_document (Returned ok_true).

(** Handler B, webhook URL unset. *)
Definition chat_unconfigured : World :=
  world (<["NOTEBOOK_GENERATION_AUTH" := "Bearer 0123456789abcdef"]> ∅)
        post_chat (Returned ok_true).

(** The call Handler A makes for [post_document] under [document_env]. *)
Definition document_call : FetchInit :=
  mkFetchInit "POST" [("Content-Type", "application/json")]
    (JSON_stringify
       (VObject
          [("source_id", VString "doc-1");
           ("file_url",
            VString "https://project.supabase.co/storage/v1/object/public/sources/user/report.pdf");
           ("file_path", VString "user/report.pdf");
           ("source_type", VString "pdf");
           ("callback_url",
            VString "https://project.supabase.co/functions/v1/process-document-callback")])).

(** The call Handler B makes for [post_chat] under [chat_env]. *)
Definition chat_call : FetchInit :=
  mkFetchInit "POST"
    [("Content-Type", "application/json");
     ("Authorization", "Bearer 0123456789abcdef")]
    (JSON_stringify
       (VObject
          [("session_id", VString "s-1");
           ("message", VString "hello");
           ("user_id", VString "u-1");
           ("timestamp", VString "2024-05-01T12:00:00.000Z")])).

End Examples.

(* ================================================================== *)
(** * The calls, the writes and the envelopes of the handlers *)
(* ================================================================== *)

(** [headers] of Handler A's call (lines 100-106): the content type,
    and the authorization when NOTEBOOK_GENERATION_AUTH is set to a
    non-empty string. *)
Definition document_call_headers (w : World) : Headers :=
  match env w !! "NOTEBOOK_GENERATION_AUTH" with
  | Some (String c rest) =>
      [("Content-Type", "application/json"); ("Authorization", String c rest)]
  | _ => [("Content-Type", "application/json")]
  end.

(** [payload] of Handler A's call (lines 86-95) for the request body
    [v], [path] being [filePath] as the template literal prints it. *)
Definition document_payload (w : World) (v : value) (path : string) : value :=
  let base := default "undefined" (env w !! "SUPABASE_URL") in
  VObject
    [("source_id", get v "sourceId");
     ("file_url", VString (base +:+ "/storage/v1/object/public/sources/" +:+ path));
     ("file_path", get v "filePath");
     ("source_type", get v "sourceType");
     ("callback_url", VString (base +:+ "/functions/v1/process-document-callback"))].

(** [payload] of Handler B's call (lines 56-61) for the request body
    [v]: its three fields as they are, [undefined] included, and the
    first reading of the clock. *)
Definition chat_payload (w : World) (v : value) : value :=
  VObject
    [("session_id", get v "session_id");
     ("message", get v "message");
     ("user_id", get v "user_id");
     ("timestamp", VString (clock w 0))].

(** Handler A's state once the request was read and found complete. *)
Definition accepted (v : value) : State :=
  record (Console Log "Processing document:"
            [VObject [("source_id", get v "sourceId");
                      ("file_path", get v "filePath");
                      ("source_type", get v "sourceType")]])
    read.

(** Handler A's state when the webhook has just been called. *)
Definition called (w : World) (v : value) (url path : string) : State :=
  record (Fetch url (mkFetchInit "POST" (document_call_headers w)
                       (JSON_stringify (document_payload w v path))))
    (record (Console Log "Webhook payload:" [document_payload w v path])
       (record (Console Log "Calling external webhook:" [VString url])
          (accepted v))).

(** The four messages Handler A writes to a status record. *)
Definition failure_message (msg : string) : Prop :=
  msg = ProcessDocument.not_configured_message
  \/ (exists url, msg = ProcessDocument.invalid_format_message url)
  \/ (exists url, msg = ProcessDocument.connect_failed_message url)
  \/ (exists r text, msg = ProcessDocument.webhook_returned_message r text).

(** What a run of Handler A may leave behind and may answer: no write,
    or one write of a failure to the row of the request; at most one
    call; a request that cannot be read again; a JSON response with one
    of three status codes. *)
Definition A_outcome (w : World) (r : Outcome HttpResponse * State) : Prop :=
  (updates (trace (snd r)) = []
   \/ exists msg, failure_message msg
        /\ truthy (request_field w "sourceId") = true
        /\ updates (trace (snd r)) = [failed_update w (request_field w "sourceId") msg])
  /\ length (fetches (trace (snd r))) <= 1
  /\ (request_body (request w) = None \/ request_body_used (snd r) = true)
  /\ forall resp, fst r = Returned resp ->
       (res_status resp = 200%N \/ res_status resp = 400%N \/ res_status resp = 500%N)
       /\ res_headers resp = ProcessDocument.json_headers
       /\ exists v, res_body resp = JSON_stringify v.

(** The message the [catch] of Handler A would write (line 165). *)
Definition recovery_message : string :=
  "Internal server error during document processing".

(** The request cannot be read as an object, and [e] is the error that
    says so: there is no body, the body is not JSON, or it is the JSON
    [null], which cannot be destructured. *)
Definition unreadable (req : Request) (first_key : string) (e : Error) : Prop :=
  match request_body req with
  | None => e = end_of_input
  | Some b =>
      body_json b = Thrown e
      \/ (body_json b = Returned VNull /\ destructure VNull first_key = Thrown e)
  end.

(** A webhook response that [json()] fails on with [e]: one without a
    body, or one whose body is not JSON. *)
Definition not_json (r : FetchResponse) (e : Error) : Prop :=
  match response_body r with
  | None => e = end_of_input
  | Some b => body_json b = Thrown e
  end.

(** Handler B's state once the request was read. *)
Definition received (v : value) : State :=
  record (Console Log "Received message:"
            [VObject [("session_id", get v "session_id");
                      ("message", get v "message");
                      ("user_id", get v "user_id")]])
    read.

(** Handler B's 500 with [msg] as its [error], the clock reading
    [timestamp] (lines 118-134). *)
Definition chat_failure (w : World) (msg timestamp : string) : HttpResponse :=
  mkHttpResponse
    (JSON_stringify
       (VObject
          [("error", VString msg);
           ("details",
            VObject [("webhookUrl", of_opt (env w !! "NOTEBOOK_CHAT_URL"));
                     ("hasAuth",
                      VBool (truthy_opt (env w !! "NOTEBOOK_GENERATION_AUTH")));
                     ("timestamp", VString timestamp)])]))
    500%N SendChatMessage.json_headers.

(** Handler B's call (lines 67-74) for the request body [v] and the
    token [auth]. *)
Definition chat_call_init (w : World) (v : value) (auth : string) : FetchInit :=
  mkFetchInit "POST"
    [("Content-Type", "application/json"); ("Authorization", auth)]
    (JSON_stringify (chat_payload w v)).

(** [s] starts with [p]. *)
Fixpoint starts_with (p s : string) : bool :=
  match p, s with
  | EmptyString, _ => true
  | String a p', String b s' => Ascii.eqb a b && starts_with p' s'
  | String _ _, EmptyString => false
  end.

(** [s.includes(sub)], computed. *)
Fixpoint includesb (s sub : string) : bool :=
  starts_with sub s
  || match s with
     | EmptyString => false
     | String _ s' => includesb s' sub
     end.

Module Scenarios.
Import Examples.

(** Handler A with a webhook URL that lacks its scheme. *)
Definition document_bad_url : World :=
  world (<["DOCUMENT_PROCESSING_WEBHOOK_URL" := "example.com/hook"]> store_env)
        post_document (Returned ok_true).

(** Handler A with the webhook URL set to the empty string. *)
Definition document_empty_url : World :=
  world (<["DOCUMENT_PROCESSING_WEBHOOK_URL" := ""]> store_env)
        post_document (Returned ok_true).

(** A connection that cannot be made. *)
Definition refused : Error := TypeError "error sending request: connection refused".

Definition document_refused : World := world document_env post_document (Thrown refused).

Definition chat_refused : World := world chat_env post_chat (Thrown refused).

(** A request whose body is the text [hello], which is not JSON. *)
Definition post_hello : Request :=
  mkRequest "POST"
    (Some (mkBody "hello"
             (Thrown (SyntaxError "Unexpected token 'h', hello is not valid JSON")))).

(** [{"sourceId":"doc-1","filePath":{"toString":1},"sourceType":"pdf"}] *)
Definition post_odd_filePath : Request :=
  mkRequest "POST"
    (Some (mkBody
             ("{" +:+ quoted "sourceId" +:+ ":" +:+ quoted "doc-1" +:+ ","
              +:+ quoted "filePath" +:+ ":{" +:+ quoted "toString" +:+ ":1},"
              +:+ quoted "sourceType" +:+ ":" +:+ quoted "pdf" +:+ "}")
             (Returned
                (VObject [("sourceId", VString "doc-1");
                          ("filePath", VObject [("toString", VNumber (number_of_N 1))]);
                          ("sourceType", VString "pdf")])))).

(** [{}] *)
Definition post_empty_object : Request :=
  mkRequest "POST" (Some (mkBody "{}" (Returned (VObject [])))).

(** HTTP 204, which has no body. *)
Definition no_content : FetchResponse := mkFetchResponse 204 "No Content" [] None.

(** Handler B with its URL but without its token. *)
Definition chat_without_auth : World :=
  world (<["NOTEBOOK_CHAT_URL" := "https://example.com/path"]> ∅)
        post_chat (Returned ok_true).

(** Handler B with a URL that lacks its scheme. *)
Definition chat_bad_url : World :=
  world (<["NOTEBOOK_CHAT_URL" := "example.com/hook"]>
           (<["NOTEBOOK_GENERATION_AUTH" := "Bearer 0123456789abcdef"]> ∅))
        post_chat (Returned ok_true).

(** Handler B with its URL set to the empty string. *)
Definition chat_empty_url : World :=
  world (<["NOTEBOOK_CHAT_URL" := ""]>
           (<["NOTEBOOK_GENERATION_AUTH" := "Bearer 0123456789abcdef"]> ∅))
        post_chat (Returned ok_true).

(** Handler A with its webhook URL but without the store's own
    configuration: [createClient('', '')] throws.  The webhook answers
    503. *)
Definition document_without_store : World :=
  world (<["DOCUMENT_PROCESSING_WEBHOOK_URL" := "https://example.com/path"]> ∅)
        post_document (Returned unavailable).

(** A POST without a body. *)
Definition post_nothing : Request := mkRequest "POST" None.

End Scenarios.

(* ================================================================== *)
(** * Facts about the monad and the runtime *)
(* ================================================================== *)

(** In the names below, [A_] is Handler A ([ProcessDocument]) and [B_]
    is Handler B ([SendChatMessage]). *)

Lemma bind_emit {B} e (k : unit -> M B) st : bind (emit e) k st = k tt (record e st).
Proof. reflexivity. Qed.

(** A [try] around a sequence: the first step runs, then the rest is
    still inside the [try]. *)
Lemma try_catch_bind {A B} (m : M A) (k : A -> M B) h st :
  try_catch (bind m k) h st =
    match m st with
    | (Returned a, st1) => try_catch (k a) h st1
    | (Thrown e, st1) => h e st1
    end.
Proof. unfold try_catch, bind. destruct (m st) as [[a|e] st1]; reflexivity. Qed.

Lemma try_catch_ret {A} (a : A) h st : try_catch (ret a) h st = (Returned a, st).
Proof. reflexivity. Qed.

Lemma destructure_returned v k v' : destructure v k = Returned v' -> v' = v.
Proof. destruct v; intros H; inversion H; reflexivity. Qed.

Lemma truthy_is_object v key : truthy (get v key) = true -> exists props, v = VObject props.
Proof. destruct v; simpl; try discriminate. eauto. Qed.

(** ** Strings *)

Lemma append_assoc (a b c : string) : (a +:+ b) +:+ c = a +:+ b +:+ c.
Proof.
  induction a as [|x a IH]; [reflexivity|].
  exact (f_equal (String x) IH).
Qed.

Lemma append_empty (s : string) : s +:+ "" = s.
Proof.
  induction s as [|x s IH]; [reflexivity|].
  exact (f_equal (String x) IH).
Qed.

Lemma includes_middle (before s after : string) : includes (before +:+ s +:+ after) s.
Proof. exists before, after. reflexivity. Qed.

(** [includesb] finds every substring. *)
Lemma starts_with_append p rest : starts_with p (p +:+ rest) = true.
Proof.
  induction p as [|a p IH]; [reflexivity|].
  change (String a p +:+ rest) with (String a (p +:+ rest)).
  cbn [starts_with]. rewrite Ascii.eqb_refl. exact IH.
Qed.

Lemma includes_includesb s sub : includes s sub -> includesb s sub = true.
Proof.
  intros (before & after & ->).
  induction before as [|a before IH].
  - change ("" +:+ sub +:+ after) with (sub +:+ after).
    destruct (sub +:+ after) eqn:E; cbn [includesb]; rewrite <- E, starts_with_append;
      reflexivity.
  - change (String a before +:+ sub +:+ after) with (String a (before +:+ sub +:+ after)).
    cbn [includesb]. rewrite IH. apply orb_true_r.
Qed.

(** ** Reading bodies *)

Lemma req_json_initial w :
  req_json w initial =
    match request_body (request w) with
    | None => (Thrown end_of_input, initial)
    | Some b => (body_json b, read)
    end.
Proof. unfold req_json. destruct (request_body (request w)); reflexivity. Qed.

(** [text()] on a response not yet read. *)
Lemma response_text_unused r st :
  response_body_used st = false ->
  exists st1, response_text r st = (Returned (body_text_of r), st1)
              /\ trace st1 = trace st /\ request_body_used st1 = request_body_used st
              /\ clock_reads st1 = clock_reads st.
Proof.
  intros H. unfold response_text, body_text_of.
  destruct (response_body r); [|eexists; repeat split].
  unfold bind, response_used. rewrite H. eexists. repeat split.
Qed.

(** [json()] on a body not yet read: the body is used up whatever the
    parse gives. *)
Lemma response_json_unused r b st :
  response_body r = Some b -> response_body_used st = false ->
  response_json r st = (body_json b, snd (mark_response_used st)).
Proof.
  intros Hb Hu. unfold response_json, bind, response_used, lift. rewrite Hb, Hu.
  reflexivity.
Qed.

(** [text()] on a body that was read. *)
Lemma response_text_used r b st :
  response_body r = Some b -> response_body_used st = true ->
  response_text r st = (Thrown body_unusable, st).
Proof.
  intros Hb Hu. unfold response_text, bind, response_used. rewrite Hb, Hu.
  reflexivity.
Qed.

(** ** What a computation adds to the trace *)

Lemma fetches_app t1 t2 : fetches (t1 ++ t2) = fetches t1 ++ fetches t2.
Proof. induction t1 as [|[] t1 IH]; simpl; rewrite ?IH; reflexivity. Qed.

Lemma updates_app t1 t2 : updates (t1 ++ t2) = updates t1 ++ updates t2.
Proof. induction t1 as [|[] t1 IH]; simpl; rewrite ?IH; reflexivity. Qed.

Section Silent.
Context {X : Type} (obs : list Event -> list X).
Hypothesis obs_app : forall t1 t2, obs (t1 ++ t2) = obs t1 ++ obs t2.

Lemma silent_ret {A} (a : A) : silent obs (ret a).
Proof. intros st. reflexivity. Qed.

Lemma silent_throw {A} e : silent obs (@throw A e).
Proof. intros st. reflexivity. Qed.

Lemma silent_lift {A} (o : Outcome A) : silent obs (lift o).
Proof. intros st. reflexivity. Qed.

Lemma silent_emit e : obs [e] = [] -> silent obs (emit e).
Proof. intros H st. simpl. rewrite obs_app, H. apply app_nil_r. Qed.

Lemma silent_bind {A B} (m : M A) (k : A -> M B) :
  silent obs m -> (forall a, silent obs (k a)) -> silent obs (bind m k).
Proof.
  intros Hm Hk st. unfold bind. specialize (Hm st).
  destruct (m st) as [[a|e] st1]; simpl in *.
  - rewrite Hk. exact Hm.
  - exact Hm.
Qed.

Lemma silent_try_catch {A} (m : M A) (h : Error -> M A) :
  silent obs m -> (forall e, silent obs (h e)) -> silent obs (try_catch m h).
Proof.
  intros Hm Hh st. unfold try_catch. specialize (Hm st).
  destruct (m st) as [[a|e] st1]; simpl in *.
  - exact Hm.
  - rewrite Hh. exact Hm.
Qed.

Lemma silent_attempt {A} (m : M A) : silent obs m -> silent obs (attempt m).
Proof.
  intros Hm st. unfold attempt. specialize (Hm st).
  destruct (m st) as [o st1]. exact Hm.
Qed.

End Silent.

Section SilentEffects.
Context {X : Type} (obs : list Event -> list X).
Hypothesis obs_app : forall t1 t2, obs (t1 ++ t2) = obs t1 ++ obs t2.
Hypothesis obs_console : forall l s a, obs [Console l s a] = [].
Variable w : World.

Lemma silent_console_log s a : silent obs (console_log s a).
Proof. apply silent_emit; auto. Qed.

Lemma silent_console_error s a : silent obs (console_error s a).
Proof. apply silent_emit; auto. Qed.

Lemma silent_req_json : silent obs (req_json w).
Proof.
  intros st. unfold req_json. destruct (request_body (request w)); [|reflexivity].
  unfold bind, request_used, mark_request_used, lift.
  destruct (request_body_used st); [reflexivity|].
  cbn. destruct (body_json b); reflexivity.
Qed.

Lemma silent_req_clone_json : silent obs (req_clone_json w).
Proof.
  intros st. unfold req_clone_json. destruct (request_body (request w)); [|reflexivity].
  unfold bind, request_used, lift.
  destruct (request_body_used st); reflexivity.
Qed.

Lemma silent_response_text r : silent obs (response_text r).
Proof.
  intros st. unfold response_text. destruct (response_body r); [|reflexivity].
  unfold bind, response_used, mark_response_used.
  destruct (response_body_used st); reflexivity.
Qed.

Lemma silent_response_json r : silent obs (response_json r).
Proof.
  intros st. unfold response_json. destruct (response_body r); [|reflexivity].
  unfold bind, response_used, mark_response_used, lift.
  destruct (response_body_used st); [reflexivity|].
  cbn. destruct (body_json b); reflexivity.
Qed.

Lemma silent_Date : silent obs (Date_toISOString w).
Proof. intros st. reflexivity. Qed.

Lemma silent_new_URL s : silent obs (new_URL w s).
Proof. intros st. unfold new_URL. destruct (URL.basic_URL_parser _ s); reflexivity. Qed.

Lemma silent_template v : silent obs (template w v).
Proof. intros st. unfold template. destruct (ToString _ v); reflexivity. Qed.

Lemma silent_createClient u k : silent obs (createClient w u k).
Proof. intros st. unfold createClient. destruct (createClient_error w u k); reflexivity. Qed.
End SilentEffects.

(** Decompose a goal [silent obs m] along the structure of [m]. *)
Ltac silence app :=
  repeat first
    [ apply silent_ret | apply silent_throw | apply silent_lift
    | apply (silent_console_log _ app); reflexivity
    | apply (silent_console_error _ app); reflexivity
    | apply silent_req_json | apply silent_req_clone_json
    | apply silent_response_text | apply silent_response_json
    | apply silent_Date | apply silent_new_URL | apply silent_template
    | apply silent_createClient
    | apply (silent_emit _ app); reflexivity
    | apply silent_bind; [|intros ?]
    | apply silent_try_catch; [|intros ?]
    | apply silent_attempt
    | match goal with
      | |- silent _ (if ?b then _ else _) => destruct b
      | |- silent _ (match ?x with _ => _ end) => destruct x
      end ].

(** A silent handler leaves what is observed of a [try] to its body. *)
Lemma try_catch_observed {A X} (obs : list Event -> list X) (m : M A) h st :
  (forall e, silent obs (h e)) ->
  obs (trace (snd (try_catch m h st))) = obs (trace (snd (m st))).
Proof.
  intros Hh. unfold try_catch. destruct (m st) as [[a|e] st1]; [reflexivity|].
  apply Hh.
Qed.

(* ================================================================== *)
(** * Handler A, step by step *)
(* ================================================================== *)

Section HandlerA.
Variable w : World.
Import ProcessDocument.

(** [isValidUrl] returns whether the string parses and changes nothing. *)
Lemma A_isValidUrl_run s st : isValidUrl w s st = (Returned (parses w s), st).
Proof.
  unfold isValidUrl, try_catch, bind, new_URL, parses.
  destruct (URL.basic_URL_parser _ s); reflexivity.
Qed.

(** [updateSourceStatus(id, 'failed', msg)]: no write if the client
    cannot be made; otherwise the one write, which may reject. *)
Lemma A_updateSourceStatus_run id msg st :
  msg <> "" ->
  updateSourceStatus w id "failed" (Some msg) st =
    match createClient_error w (default "" (env w !! "SUPABASE_URL"))
                               (default "" (env w !! "SUPABASE_SERVICE_ROLE_KEY")) with
    | Some e => (Thrown e, st)
    | None =>
        (match update_error w (failed_update w id msg) with
         | Some e => Thrown e
         | None => Returned tt
         end, record (Update (failed_update w id msg)) st)
    end.
Proof.
  intros Hmsg.
  unfold updateSourceStatus, bind, createClient, Deno_env_get.
  destruct (createClient_error w _ _); [reflexivity|].
  unfold ret, from_update_eq, bind, emit, truthy_opt, of_opt.
  apply String.eqb_neq in Hmsg. rewrite Hmsg. cbn [negb].
  fold (failed_update w id msg).
  destruct (update_error w _); reflexivity.
Qed.

(** The top-level [catch], entered once the request was read (or had no
    body): rereading the request fails, so nothing is written; the
    failure is logged and the generic response returned. *)
Lemma A_on_error_run e st :
  (request_body (request w) = None \/ request_body_used st = true) ->
  on_error w e st =
    (Returned (internal_error_response e),
     record (Console Err "Could not parse request to update source status:" [shown (reread_error w)])
       (record (Console Err "Error in process-document function:" [shown e]) st)).
Proof.
  intros H. unfold on_error, console_error, reread_error.
  rewrite bind_emit. unfold bind at 1. unfold try_catch, req_clone_json.
  destruct (request_body (request w)) as [b|] eqn:Hb.
  - destruct H as [H|H]; [discriminate|].
    unfold bind, request_used, record. cbn [request_body_used]. rewrite H. reflexivity.
  - reflexivity.
Qed.

Lemma A_updateSourceStatus_no_fetch id s m : silent fetches (updateSourceStatus w id s m).
Proof.
  unfold updateSourceStatus, from_update_eq. silence fetches_app.
Qed.

Lemma A_on_error_no_fetch e : silent fetches (on_error w e).
Proof. unfold on_error. silence fetches_app. Qed.

Lemma A_answer_no_fetch id url fetched : silent fetches (answer w id url fetched).
Proof. unfold answer. silence fetches_app. Qed.

(** A falsy required field ends the run at the check of line 45. *)
Lemma A_falsy_field b v :
  method (request w) <> "OPTIONS" ->
  request_body (request w) = Some b ->
  body_json b = Returned v ->
  v <> VNull -> v <> VUndefined ->
  truthy (get v "sourceId") && truthy (get v "filePath") && truthy (get v "sourceType")
    = false ->
  serve w = (Returned required_fields_response, read).
Proof.
  intros Hm Hb Hj Hn Hu Hf.
  unfold serve, handler.
  apply String.eqb_neq in Hm. rewrite Hm.
  unfold process. rewrite try_catch_bind, req_json_initial, Hb, Hj.
  rewrite try_catch_bind. unfold lift.
  assert (Hd : destructure v "sourceId" = Returned v)
    by (destruct v; try reflexivity; congruence).
  rewrite Hd.
  assert (Hf' : negb (truthy (get v "sourceId")) || negb (truthy (get v "filePath"))
                || negb (truthy (get v "sourceType")) = true).
  { destruct (truthy (get v "sourceId")), (truthy (get v "filePath")),
      (truthy (get v "sourceType")); simpl in *; congruence. }
  rewrite Hf'. reflexivity.
Qed.

(** The run up to the check of the webhook URL, when it is not set. *)
Lemma A_not_configured b v :
  method (request w) <> "OPTIONS" ->
  request_body (request w) = Some b ->
  body_json b = Returned v ->
  truthy (get v "sourceId") = true ->
  truthy (get v "filePath") = true ->
  truthy (get v "sourceType") = true ->
  truthy_opt (env w !! "DOCUMENT_PROCESSING_WEBHOOK_URL") = false ->
  serve w =
    try_catch
      (updateSourceStatus w (get v "sourceId") "failed" (Some not_configured_message) ;;
       ret not_configured_response)
      (on_error w)
      (record (Console Err "Missing DOCUMENT_PROCESSING_WEBHOOK_URL environment variable" [])
         (record (Console Log "Processing document:"
                    [VObject [("source_id", get v "sourceId");
                              ("file_path", get v "filePath");
                              ("source_type", get v "sourceType")]])
            read)).
Proof.
  intros Hm Hb Hj H1 H2 H3 He.
  unfold serve, handler.
  apply String.eqb_neq in Hm. rewrite Hm.
  unfold process. rewrite try_catch_bind, req_json_initial, Hb, Hj.
  rewrite try_catch_bind. unfold lift.
  destruct (truthy_is_object _ _ H1) as [props ->].
  cbn [destructure]. rewrite H1, H2, H3. cbn [negb orb].
  rewrite try_catch_bind. unfold console_log at 1. unfold emit at 1. cbv beta iota.
  unfold Deno_env_get. rewrite He. cbn [negb].
  rewrite try_catch_bind. unfold console_error at 1. unfold emit at 1. cbv beta iota.
  reflexivity.
Qed.

(** What the caller gets when the webhook URL is not set: the
    configuration error if the status write returns, the error of the
    status write if it throws. *)
Lemma A_not_configured_run b v :
  method (request w) <> "OPTIONS" ->
  request_body (request w) = Some b ->
  body_json b = Returned v ->
  truthy (get v "sourceId") = true ->
  truthy (get v "filePath") = true ->
  truthy (get v "sourceType") = true ->
  truthy_opt (env w !! "DOCUMENT_PROCESSING_WEBHOOK_URL") = false ->
  exists st,
    serve w =
      (Returned
         match createClient_error w (default "" (env w !! "SUPABASE_URL"))
                 (default "" (env w !! "SUPABASE_SERVICE_ROLE_KEY")) with
         | Some e => internal_error_response e
         | None =>
             match update_error w
                     (failed_update w (get v "sourceId") not_configured_message) with
             | Some e => internal_error_response e
             | None => not_configured_response
             end
         end, st)
    /\ fetches (trace st) = []
    /\ updates (trace st) =
         match createClient_error w (default "" (env w !! "SUPABASE_URL"))
                 (default "" (env w !! "SUPABASE_SERVICE_ROLE_KEY")) with
         | Some _ => []
         | None => [failed_update w (get v "sourceId") not_configured_message]
         end.
Proof.
  intros Hm Hb Hj H1 H2 H3 He.
  rewrite (A_not_configured b v) by assumption.
  rewrite try_catch_bind, A_updateSourceStatus_run by discriminate.
  destruct (createClient_error w _ _) as [e|].
  - rewrite A_on_error_run by (right; reflexivity).
    eexists. repeat split.
  - destruct (update_error w _) as [e|].
    + rewrite A_on_error_run by (right; reflexivity).
      eexists. repeat split.
    + rewrite try_catch_ret. eexists. repeat split.
Qed.

(** If the body of the [try] called the webhook, it called it once,
    after reading the request and before any write, and went on with
    [answer] on what the call settled to. *)
Lemma A_process_fetch url init :
  In (url, init) (fetches (trace (snd (process w initial)))) ->
  exists st0,
    process w initial = answer w (request_field w "sourceId") url
                          (fetch_result w url init) st0
    /\ request_body_used st0 = true /\ response_body_used st0 = false
    /\ fetches (trace st0) = [(url, init)] /\ updates (trace st0) = [].
Proof.
  unfold request_field.
  cbv beta iota zeta delta
    [process call_webhook bind req_json request_used mark_request_used lift initial
     ret throw console_log console_error emit attempt fetch template Deno_env_get
     request_body_used].
  destruct (request_body (request w)) as [b|]; [|intros []].
  destruct (body_json b) as [v|e]; [|intros []].
  destruct (destructure v "sourceId") as [v'|e] eqn:Hd; [|intros []].
  apply destructure_returned in Hd. subst v'.
  destruct (negb (truthy (get v "sourceId")) || _ || _); [intros []|].
  destruct (negb (truthy_opt (env w !! "DOCUMENT_PROCESSING_WEBHOOK_URL"))).
  { rewrite A_updateSourceStatus_run by discriminate.
    destruct (createClient_error w _ _); [intros []|].
    destruct (update_error w _); intros []. }
  rewrite A_isValidUrl_run.
  destruct (negb (parses w _)).
  { rewrite A_updateSourceStatus_run by discriminate.
    destruct (createClient_error w _ _); [intros []|].
    destruct (update_error w _); intros []. }
  destruct (ToString (Number_toString w) (get v "filePath")) as [path|]; [|intros []].
  match goal with |- context [answer w ?i ?u (fetch_result w ?u ?ini) ?st] =>
    set (st0 := st); set (ini0 := ini); set (u0 := u);
    rewrite (A_answer_no_fetch i u0 (fetch_result w u0 ini0) st0)
  end.
  intros [Heq|[]]. inversion Heq; subst url init.
  exists st0. repeat split; reflexivity.
Qed.

(** The same for the whole callback. *)
Lemma A_fetch_inversion url init :
  In (url, init) (fetches (trace (snd (serve w)))) ->
  exists st0,
    serve w = try_catch (answer w (request_field w "sourceId") url
                           (fetch_result w url init)) (on_error w) st0
    /\ request_body_used st0 = true /\ response_body_used st0 = false
    /\ fetches (trace st0) = [(url, init)] /\ updates (trace st0) = [].
Proof.
  unfold serve, handler.
  destruct (String.eqb (method (request w)) "OPTIONS"); [intros []|].
  rewrite (try_catch_observed fetches) by apply A_on_error_no_fetch.
  intros H. destruct (A_process_fetch _ _ H) as (st0 & Hp & Hrest).
  exists st0. split; [|exact Hrest].
  unfold try_catch. rewrite Hp. reflexivity.
Qed.

(** A non-success status, the store accepting the write. *)
Lemma A_answer_not_ok id url r st0 :
  ok r = false -> response_body_used st0 = false ->
  store_accepts w id (webhook_returned_message r (body_text_of r)) ->
  exists st1,
    try_catch (answer w id url (Returned r)) (on_error w) st0 =
      (Returned
         (mkHttpResponse
            (JSON_stringify
               (VObject [("error", VString "Document processing failed");
                         ("details", VString (webhook_returned_message r (body_text_of r)));
                         ("webhookUrl", VString url);
                         ("status", VNumber (number_of_N (status r)));
                         ("statusText", VString (statusText r))]))
            500%N json_headers), st1)
    /\ updates (trace st1) =
         updates (trace st0) ++ [failed_update w id (webhook_returned_message r (body_text_of r))]
    /\ fetches (trace st1) = fetches (trace st0).
Proof.
  intros Hok Hu [Hc Hup].
  destruct (response_text_unused r st0 Hu) as (st1 & Ht & Htr & _ & _).
  unfold answer. rewrite Hok. cbn [negb].
  rewrite try_catch_bind, Ht. cbv beta iota.
  rewrite try_catch_bind. unfold console_error at 1. unfold emit at 1. cbv beta iota.
  rewrite try_catch_bind, A_updateSourceStatus_run by discriminate.
  rewrite Hc, Hup. cbv beta iota. rewrite try_catch_ret.
  eexists. split; [reflexivity|].
  cbn [record trace]. rewrite !updates_app, !fetches_app, Htr. cbn.
  rewrite !app_nil_r. split; reflexivity.
Qed.

(** A non-success status, whatever the store does: a 500. *)
Lemma A_answer_not_ok_any id url r st0 :
  ok r = false -> response_body_used st0 = false -> request_body_used st0 = true ->
  exists resp st1,
    try_catch (answer w id url (Returned r)) (on_error w) st0 = (Returned resp, st1)
    /\ res_status resp = 500%N.
Proof.
  intros Hok Hu Hr.
  destruct (response_text_unused r st0 Hu) as (st1 & Ht & _ & Hr1 & _).
  unfold answer. rewrite Hok. cbn [negb].
  rewrite try_catch_bind, Ht. cbv beta iota.
  rewrite try_catch_bind. unfold console_error at 1. unfold emit at 1. cbv beta iota.
  rewrite try_catch_bind, A_updateSourceStatus_run by discriminate.
  destruct (createClient_error w _ _) as [e|].
  - rewrite A_on_error_run by (right; cbn; congruence). eauto.
  - destruct (update_error w _) as [e|].
    + rewrite A_on_error_run by (right; cbn; congruence). eauto.
    + rewrite try_catch_ret. eauto.
Qed.

(** A success status with a JSON body. *)
Lemma A_answer_json id url r b v st0 :
  ok r = true -> response_body_used st0 = false ->
  response_body r = Some b -> body_json b = Returned v ->
  exists st1,
    try_catch (answer w id url (Returned r)) (on_error w) st0 =
      (Returned
         (mkHttpResponse
            (JSON_stringify
               (VObject [("success", VBool true);
                         ("message", VString "Document processing initiated");
                         ("result", v)]))
            200%N json_headers), st1)
    /\ updates (trace st1) = updates (trace st0)
    /\ fetches (trace st1) = fetches (trace st0).
Proof.
  intros Hok Hu Hb Hj.
  unfold answer. rewrite Hok. cbn [negb].
  rewrite try_catch_bind. unfold response_json. rewrite Hb.
  unfold bind at 1. unfold response_used at 1. rewrite Hu.
  unfold bind at 1. unfold mark_response_used, lift. rewrite Hj. cbv beta iota.
  rewrite try_catch_bind. unfold console_log at 1. unfold emit at 1. cbv beta iota.
  rewrite try_catch_ret.
  eexists. split; [reflexivity|].
  cbn [record trace]. rewrite !updates_app, !fetches_app. cbn.
  rewrite !app_nil_r. split; reflexivity.
Qed.

(** The top-level [catch] lets no exception out. *)
Lemma A_on_error_returns e st :
  exists st', on_error w e st = (Returned (internal_error_response e), st')
              /\ fetches (trace st') = fetches (trace st).
Proof.
  pose proof (A_on_error_no_fetch e st) as Hq.
  unfold on_error in *. unfold bind at 1 in Hq. unfold bind at 1.
  unfold console_error at 1 in Hq. unfold console_error at 1. 
  unfold emit at 1 in Hq. unfold emit at 1. cbv beta iota in *.
  unfold bind at 1 in Hq. unfold bind at 1.
  destruct (try_catch _ _ _) as [[[]|e'] st1] eqn:Ht.
  - eexists. split; [reflexivity|exact Hq].
  - exfalso. revert Ht. unfold try_catch.
    destruct (bind _ _ _) as [[[]|e2] st2]; [discriminate|].
    unfold console_error, emit. discriminate.
Qed.

Lemma A_total : exists resp st, serve w = (Returned resp, st).
Proof.
  unfold serve, handler.
  destruct (String.eqb (method (request w)) "OPTIONS"); [eauto|].
  unfold try_catch. destruct (process w initial) as [[resp|e] st]; [eauto|].
  destruct (A_on_error_returns e st) as (st' & H & _). eauto.
Qed.

End HandlerA.

(* ================================================================== *)
(** * Handler B, step by step *)
(* ================================================================== *)

Lemma read_webhook_data_json r b v st :
  response_body r = Some b -> body_json b = Returned v ->
  response_body_used st = false ->
  SendChatMessage.read_webhook_data r st = (Returned v, snd (mark_response_used st)).
Proof.
  intros Hb Hj Hu. unfold SendChatMessage.read_webhook_data, try_catch.
  rewrite (response_json_unused r b), Hj by assumption. reflexivity.
Qed.

Lemma read_webhook_data_not_json r b e st :
  response_body r = Some b -> body_json b = Thrown e ->
  response_body_used st = false ->
  SendChatMessage.read_webhook_data r st =
    (Thrown body_unusable, snd (mark_response_used st)).
Proof.
  intros Hb Hj Hu. unfold SendChatMessage.read_webhook_data, try_catch.
  rewrite (response_json_unused r b), Hj by assumption.
  unfold bind. rewrite (response_text_used r b) by (assumption || reflexivity).
  reflexivity.
Qed.

Section HandlerB.
Variable w : World.
Import SendChatMessage.

Lemma B_isValidUrl_run s st : isValidUrl w s st = (Returned (parses w s), st).
Proof.
  unfold isValidUrl, try_catch, bind, new_URL, parses.
  destruct (URL.basic_URL_parser _ s); reflexivity.
Qed.

(** The top-level [catch] reads the clock and returns the error
    response. *)
Lemma B_on_error_run e st :
  on_error w e st =
    (Returned (chat_error_response w e (clock w (clock_reads st))),
     mkState (trace st ++ [Console Err "Error in send-chat-message:" [shown e]])
             (request_body_used st) (response_body_used st) (S (clock_reads st))).
Proof. reflexivity. Qed.

Lemma B_on_error_no_fetch e : silent fetches (on_error w e).
Proof. unfold on_error. silence fetches_app. Qed.

Lemma B_answer_no_fetch url fetched : silent fetches (answer url fetched).
Proof. unfold answer, fail, read_webhook_data. silence fetches_app. Qed.

(** Handler B has no status record: it never writes one. *)
Lemma B_handler_no_update : silent updates (handler w).
Proof.
  unfold handler, relay, answer, on_error, fail, read_webhook_data, isValidUrl, fetch.
  silence updates_app.
Qed.

(** Without NOTEBOOK_CHAT_URL the body of the [try] throws before any
    call. *)
Lemma B_relay_unset :
  truthy_opt (env w !! "NOTEBOOK_CHAT_URL") = false ->
  exists e st, relay w initial = (Thrown e, st) /\ fetches (trace st) = [].
Proof.
  intros He.
  cbv beta iota zeta delta
    [relay fail bind req_json request_used mark_request_used lift initial
     ret throw console_log console_error emit Deno_env_get request_body_used].
  destruct (request_body (request w)) as [b|]; [|eauto].
  destruct (body_json b) as [v|e]; [|eauto].
  destruct (destructure v "session_id") as [v'|e]; [|eauto].
  rewrite He. cbn [negb]. eauto.
Qed.

(** If the body of the [try] called the webhook, it called it once,
    after one reading of the clock, and went on with [answer]. *)
Lemma B_relay_fetch url init :
  In (url, init) (fetches (trace (snd (relay w initial)))) ->
  exists st0,
    relay w initial = answer url (fetch_result w url init) st0
    /\ response_body_used st0 = false /\ clock_reads st0 = 1
    /\ fetches (trace st0) = [(url, init)].
Proof.
  cbv beta iota zeta delta
    [relay fail bind req_json request_used mark_request_used lift initial
     ret throw console_log console_error emit attempt fetch Deno_env_get
     Date_toISOString request_body_used].
  destruct (request_body (request w)) as [b|]; [|intros []].
  destruct (body_json b) as [v|e]; [|intros []].
  destruct (destructure v "session_id") as [v'|e] eqn:Hd; [|intros []].
  destruct (negb (truthy_opt (env w !! "NOTEBOOK_CHAT_URL"))); [intros []|].
  destruct (negb (truthy_opt (env w !! "NOTEBOOK_GENERATION_AUTH"))); [intros []|].
  rewrite B_isValidUrl_run.
  destruct (negb (parses w _)); [intros []|].
  match goal with |- context [answer ?u (fetch_result w ?u ?ini) ?st] =>
    set (st0 := st); set (ini0 := ini); set (u0 := u);
    rewrite (B_answer_no_fetch u0 (fetch_result w u0 ini0) st0)
  end.
  intros [Heq|[]]. inversion Heq; subst url init.
  exists st0. repeat split; reflexivity.
Qed.

Lemma B_fetch_inversion url init :
  In (url, init) (fetches (trace (snd (serve w)))) ->
  exists st0,
    serve w = try_catch (answer url (fetch_result w url init)) (on_error w) st0
    /\ response_body_used st0 = false /\ clock_reads st0 = 1
    /\ fetches (trace st0) = [(url, init)].
Proof.
  unfold serve, handler.
  destruct (String.eqb (method (request w)) "OPTIONS"); [intros []|].
  rewrite (try_catch_observed fetches) by apply B_on_error_no_fetch.
  intros H. destruct (B_relay_fetch _ _ H) as (st0 & Hp & Hrest).
  exists st0. split; [|exact Hrest].
  unfold try_catch. rewrite Hp. reflexivity.
Qed.

(** A non-success status. *)
Lemma B_answer_not_ok url r st0 :
  ok r = false -> response_body_used st0 = false ->
  exists st1,
    try_catch (answer url (Returned r)) (on_error w) st0 =
      (Returned (chat_error_response w
                   (new_Error (webhook_responded_message r (body_text_of r)))
                   (clock w (clock_reads st0))), st1)
    /\ fetches (trace st1) = fetches (trace st0).
Proof.
  intros Hok Hu.
  destruct (response_text_unused r
              (record (Console Log "Webhook response headers:"
                 [VObject (map (fun kv => (fst kv, VString (snd kv))) (headers r))])
              (record (Console Log "Webhook response status:"
                 [VNumber (number_of_N (status r))]) st0)) Hu) as (st1 & Ht & Htr & _ & Hc).
  unfold answer.
  rewrite try_catch_bind. unfold console_log at 1. unfold emit at 1. cbv beta iota.
  rewrite try_catch_bind. unfold console_log at 1. unfold emit at 1. cbv beta iota.
  rewrite Hok. cbn [negb].
  rewrite try_catch_bind, Ht. cbv beta iota.
  rewrite try_catch_bind. unfold console_error at 1. unfold emit at 1. cbv beta iota.
  rewrite try_catch_bind. unfold console_error at 1. unfold emit at 1. cbv beta iota.
  unfold try_catch, throw. rewrite B_on_error_run.
  eexists. split.
  - cbn [record clock_reads]. rewrite Hc. reflexivity.
  - cbn [record trace]. rewrite !fetches_app, Htr. cbn [record trace].
    rewrite !fetches_app. cbn. rewrite !app_nil_r. reflexivity.
Qed.

(** A success status with a JSON body. *)
Lemma B_answer_json url r b v st0 :
  ok r = true -> response_body_used st0 = false ->
  response_body r = Some b -> body_json b = Returned v ->
  exists st1,
    try_catch (answer url (Returned r)) (on_error w) st0 =
      (Returned
         (mkHttpResponse
            (JSON_stringify (VObject [("success", VBool true); ("data", v)]))
            200%N json_headers), st1)
    /\ fetches (trace st1) = fetches (trace st0).
Proof.
  intros Hok Hu Hb Hj.
  unfold answer.
  rewrite try_catch_bind. unfold console_log at 1. unfold emit at 1. cbv beta iota.
  rewrite try_catch_bind. unfold console_log at 1. unfold emit at 1. cbv beta iota.
  rewrite Hok. cbn [negb].
  rewrite try_catch_bind.
  rewrite (read_webhook_data_json r b v) by assumption. cbv beta iota.
  rewrite try_catch_bind. unfold console_log at 1. unfold emit at 1. cbv beta iota.
  rewrite try_catch_ret.
  eexists. split; [reflexivity|].
  cbn [record trace mark_response_used snd]. rewrite !fetches_app. cbn.
  rewrite !app_nil_r. reflexivity.
Qed.

(** The fallback of lines 97-100 is never reached with a body that was
    read: [json()] has used it up, so [text()] rejects. *)
Lemma B_answer_not_json url r b e st0 :
  ok r = true -> response_body_used st0 = false ->
  response_body r = Some b -> body_json b = Thrown e ->
  exists st1,
    try_catch (answer url (Returned r)) (on_error w) st0 =
      (Returned (chat_error_response w body_unusable (clock w (clock_reads st0))), st1)
    /\ fetches (trace st1) = fetches (trace st0).
Proof.
  intros Hok Hu Hb Hj.
  unfold answer.
  rewrite try_catch_bind. unfold console_log at 1. unfold emit at 1. cbv beta iota.
  rewrite try_catch_bind. unfold console_log at 1. unfold emit at 1. cbv beta iota.
  rewrite Hok. cbn [negb].
  rewrite try_catch_bind.
  rewrite (read_webhook_data_not_json r b e) by assumption. cbv beta iota.
  rewrite B_on_error_run.
  eexists. split; [reflexivity|].
  cbn [record trace mark_response_used snd]. rewrite !fetches_app. cbn.
  rewrite !app_nil_r. reflexivity.
Qed.

(** With no body at all there is nothing to use up, and the fallback
    answers with the empty text. *)
Lemma B_answer_no_body url r st0 :
  ok r = true -> response_body r = None ->
  exists st1,
    try_catch (answer url (Returned r)) (on_error w) st0 =
      (Returned
         (mkHttpResponse
            (JSON_stringify
               (VObject [("success", VBool true);
                         ("data", VObject [("message", VString "Webhook processed successfully");
                                           ("response", VString "")])]))
            200%N json_headers), st1).
Proof.
  intros Hok Hb.
  unfold answer.
  rewrite try_catch_bind. unfold console_log at 1. unfold emit at 1. cbv beta iota.
  rewrite try_catch_bind. unfold console_log at 1. unfold emit at 1. cbv beta iota.
  rewrite Hok. cbn [negb].
  rewrite try_catch_bind.
  unfold read_webhook_data, response_json, response_text. rewrite Hb.
  eexists. reflexivity.
Qed.

(** The body of the [try] returns nothing but a 200. *)
Lemma B_relay_returned resp st :
  relay w initial = (Returned resp, st) ->
  res_status resp = 200%N.
Proof.
  cbv beta iota zeta delta
    [relay answer fail bind req_json request_used mark_request_used lift initial
     ret throw console_log console_error emit attempt fetch Deno_env_get
     Date_toISOString request_body_used].
  destruct (request_body (request w)) as [b|]; [|discriminate].
  destruct (body_json b) as [v|e]; [|discriminate].
  destruct (destructure v "session_id") as [v'|e] eqn:Hd; [|discriminate].
  destruct (negb (truthy_opt (env w !! "NOTEBOOK_CHAT_URL"))); [discriminate|].
  destruct (negb (truthy_opt (env w !! "NOTEBOOK_GENERATION_AUTH"))); [discriminate|].
  rewrite B_isValidUrl_run.
  destruct (negb (parses w _)); [discriminate|].
  destruct (fetch_result w _ _) as [r|e]; [|discriminate].
  destruct (negb (ok r)).
  - destruct (response_text r _) as [[t|e] st1]; discriminate.
  - destruct (read_webhook_data r _) as [[d|e] st1]; [|discriminate].
    intros H. inversion H. reflexivity.
Qed.

(** The three ways a run of Handler B ends. *)
Lemma B_serve_cases :
  (exists st, serve w = (Returned (mkHttpResponse BodyNull 200%N corsHeaders), st))
  \/ (exists resp st, serve w = (Returned resp, st) /\ res_status resp = 200%N)
  \/ (exists e n st, serve w = (Returned (chat_error_response w e (clock w n)), st)).
Proof.
  unfold serve, handler.
  destruct (String.eqb (method (request w)) "OPTIONS").
  - left. eexists. reflexivity.
  - right. unfold try_catch.
    destruct (relay w initial) as [[resp|e] st] eqn:Hr.
    + left. exists resp, st. split; [reflexivity|]. eapply B_relay_returned; eassumption.
    + right. rewrite B_on_error_run. eauto.
Qed.

End HandlerB.

(* ================================================================== *)
(** * The claims *)
(* ================================================================== *)

Import Examples.

(** C3.  A request to Handler A that lacks [sourceId], [filePath] or
    [sourceType] makes no call of the webhook and no status write.  When
    its body is a JSON value other than [null], it is answered with
    status 400 and the error message naming the three required fields.
    When it has no body, a body that is not JSON, or the JSON [null],
    the field is missing all the same, but reading the request throws
    inside the [try], and the top-level [catch] answers with its 500. *)
Theorem missing_field_is_rejected (w : World) (key : string) :
  method (request w) <> "OPTIONS" ->
  In key required_fields ->
  request_field w key = VUndefined ->
  exists resp st,
    ProcessDocument.serve w = (Returned resp, st)
    /\ fetches (trace st) = []
    /\ updates (trace st) = []
    /\ (forall b v,
          request_body (request w) = Some b ->
          body_json b = Returned v ->
          v <> VNull -> v <> VUndefined ->
          resp = required_fields_response
          /\ res_status resp = 400%N
          /\ forall k, In k required_fields ->
                       includes ProcessDocument.required_fields_message k)
    /\ (forall e, unreadable (request w) "sourceId" e ->
          resp = internal_error_response e /\ res_status resp = 500%N).
Proof.
  intros Hm Hk Hg.
  assert (Hnames : forall k, In k required_fields ->
                             includes ProcessDocument.required_fields_message k).
  { intros k [<-|[<-|[<-|[]]]].
    - exists "", ", filePath, and sourceType are required". reflexivity.
    - exists "sourceId, ", ", and sourceType are required". reflexivity.
    - exists "sourceId, filePath, and ", " are required". reflexivity. }
  assert (Hcatch : forall e st,
            request_body (request w) = None \/ request_body_used st = true ->
            trace st = [] ->
            exists st',
              ProcessDocument.on_error w e st = (Returned (internal_error_response e), st')
              /\ fetches (trace st') = [] /\ updates (trace st') = []).
  { intros e st Hu Ht. rewrite A_on_error_run by exact Hu.
    eexists. split; [reflexivity|]. cbn [record trace]. rewrite Ht. split; reflexivity. }
  unfold request_field in Hg.
  destruct (request_body (request w)) as [b|] eqn:Hb.
  - destruct (body_json b) as [v|e0] eqn:Hj.
    + destruct (destructure v "sourceId") as [v'|e1] eqn:Hd.
      * assert (Hn : v <> VNull) by (intros ->; discriminate Hd).
        assert (Hu : v <> VUndefined) by (intros ->; discriminate Hd).
        exists required_fields_response, read.
        split.
        { apply (A_falsy_field w b v); try assumption.
          destruct Hk as [<-|[<-|[<-|[]]]]; rewrite Hg; cbn [truthy andb];
            rewrite ?andb_false_r; reflexivity. }
        split; [reflexivity|]. split; [reflexivity|]. split.
        { intros b0 v0 _ _ _ _. split; [reflexivity|]. split; [reflexivity|exact Hnames]. }
        intros e He. unfold unreadable in He. rewrite Hb in He.
        destruct He as [He|[He _]]; rewrite Hj in He; [discriminate He|].
        inversion He. contradiction.
      * destruct (Hcatch e1 read) as (st' & Hs & Hf & Hup); [right; reflexivity|reflexivity|].
        exists (internal_error_response e1), st'.
        split.
        { unfold ProcessDocument.serve, ProcessDocument.handler.
          apply String.eqb_neq in Hm. rewrite Hm.
          unfold ProcessDocument.process.
          rewrite try_catch_bind, req_json_initial, Hb, Hj.
          rewrite try_catch_bind. unfold lift. rewrite Hd. exact Hs. }
        split; [exact Hf|]. split; [exact Hup|]. split.
        { intros b' v' Hb' Hj' Hn Hu. inversion Hb'; subst b'.
          rewrite Hj in Hj'. inversion Hj'; subst v'.
          destruct v; try discriminate Hd; contradiction. }
        intros e He. unfold unreadable in He. rewrite Hb in He.
        destruct He as [He|[He Hd']]; rewrite Hj in He; [discriminate He|].
        inversion He; subst v. rewrite Hd in Hd'. inversion Hd'; subst e.
        split; reflexivity.
    + destruct (Hcatch e0 read) as (st' & Hs & Hf & Hup); [right; reflexivity|reflexivity|].
      exists (internal_error_response e0), st'.
      split.
      { unfold ProcessDocument.serve, ProcessDocument.handler.
        apply String.eqb_neq in Hm. rewrite Hm.
        unfold ProcessDocument.process.
        rewrite try_catch_bind, req_json_initial, Hb, Hj. exact Hs. }
      split; [exact Hf|]. split; [exact Hup|]. split.
      { intros b' v' Hb' Hj' _ _. inversion Hb'; subst b'.
        rewrite Hj in Hj'. discriminate Hj'. }
      intros e He. unfold unreadable in He. rewrite Hb in He.
      destruct He as [He|[He _]]; rewrite Hj in He; [|discriminate He].
      inversion He; subst e. split; reflexivity.
  - destruct (Hcatch end_of_input initial) as (st' & Hs & Hf & Hup);
      [left; reflexivity|reflexivity|].
    exists (internal_error_response end_of_input), st'.
    split.
    { unfold ProcessDocument.serve, ProcessDocument.handler.
      apply String.eqb_neq in Hm. rewrite Hm.
      unfold ProcessDocument.process.
      rewrite try_catch_bind, req_json_initial, Hb. exact Hs. }
    split; [exact Hf|]. split; [exact Hup|]. split.
    { intros b' v' Hb'. discriminate Hb'. }
    intros e He. unfold unreadable in He. rewrite Hb in He. subst e.
    split; reflexivity.
Qed.

Lemma missing_field_is_rejected_witness :
  exists st,
    ProcessDocument.serve (world document_env post_without_filePath (Returned ok_true))
      = (Returned required_fields_response, st)
    /\ res_status required_fields_response = 400%N
    /\ (forall k, In k required_fields ->
                  includes ProcessDocument.required_fields_message k)
    /\ fetches (trace st) = []
    /\ updates (trace st) = [].
Proof.
  destruct (missing_field_is_rejected
              (world document_env post_without_filePath (Returned ok_true)) "filePath")
    as (resp & st & Hs & Hf & Hu & H400 & _).
  - discriminate.
  - right. left. reflexivity.
  - reflexivity.
  - destruct (H400 _ _ eq_refl eq_refl) as (-> & Hst & Hnames); [discriminate|discriminate|].
    exists st. repeat split; assumption.
Defined.

(** C3 as stated fails: a POST without a body lacks all three fields
    and is answered with the 500 of the top-level [catch], not with a
    400. *)
Lemma request_without_body_is_answered_500 :
  let w := world document_env Scenarios.post_nothing (Returned ok_true) in
  method (request w) <> "OPTIONS"
  /\ (forall k, In k required_fields -> request_field w k = VUndefined)
  /\ (exists st, ProcessDocument.serve w = (Returned (internal_error_response end_of_input), st))
  /\ ~ (exists resp st,
          ProcessDocument.serve w = (Returned resp, st) /\ res_status resp = 400%N).
Proof.
  split; [discriminate|]. split; [intros k _; reflexivity|].
  split; [eexists; vm_compute; reflexivity|].
  intros (resp & st & Hs & H400).
  vm_compute in Hs. inversion Hs; subst resp. discriminate H400.
Qed.

(** C9.  A request to Handler A in which [sourceId], [filePath] or
    [sourceType] is present but is the empty string gets the very
    response a request without that field gets, the 400 naming the
    required fields, and again no webhook is called and no status record
    written: the check is on truthiness. *)
Theorem empty_field_is_rejected (w : World) (b : Body)
  (props : list (string * value)) (key : string) :
  method (request w) <> "OPTIONS" ->
  request_body (request w) = Some b ->
  body_json b = Returned (VObject props) ->
  In key required_fields ->
  own_property key props = Some (VString "") ->
  exists st,
    ProcessDocument.serve w = (Returned required_fields_response, st)
    /\ fetches (trace st) = []
    /\ updates (trace st) = []
    /\ forall (w' : World) (b' : Body) (props' : list (string * value)),
         method (request w') <> "OPTIONS" ->
         request_body (request w') = Some b' ->
         body_json b' = Returned (VObject props') ->
         own_property key props' = None ->
         fst (ProcessDocument.serve w') = fst (ProcessDocument.serve w).
Proof.
  intros Hm Hb Hj Hk Hp.
  assert (Hfalsy : forall w0 b0 props0 o,
             method (request w0) <> "OPTIONS" ->
             request_body (request w0) = Some b0 ->
             body_json b0 = Returned (VObject props0) ->
             own_property key props0 = o ->
             truthy (default VUndefined o) = false ->
             ProcessDocument.serve w0 = (Returned required_fields_response, read)).
  { intros w0 b0 props0 o Hm0 Hb0 Hj0 Ho Ht.
    apply (A_falsy_field w0 b0 (VObject props0)); try assumption; try discriminate.
    destruct Hk as [<-|[<-|[<-|[]]]]; cbn [get]; rewrite Ho, Ht; cbn [andb];
      rewrite ?andb_false_r; reflexivity. }
  pose proof (Hfalsy w b props _ Hm Hb Hj Hp eq_refl) as Hw.
  exists read. rewrite Hw. repeat split.
  intros w' b' props' Hm' Hb' Hj' Hp'.
  rewrite (Hfalsy w' b' props' _ Hm' Hb' Hj' Hp' eq_refl). reflexivity.
Qed.

Lemma empty_field_is_rejected_witness :
  exists st,
    ProcessDocument.serve (world document_env post_empty_sourceType (Returned ok_true))
      = (Returned required_fields_response, st)
    /\ fetches (trace st) = []
    /\ updates (trace st) = []
    /\ forall (w' : World) (b' : Body) (props' : list (string * value)),
         method (request w') <> "OPTIONS" ->
         request_body (request w') = Some b' ->
         body_json b' = Returned (VObject props') ->
         own_property "sourceType" props' = None ->
         fst (ProcessDocument.serve w')
         = fst (ProcessDocument.serve
                  (world document_env post_empty_sourceType (Returned ok_true))).
Proof.
  eapply (empty_field_is_rejected
            (world document_env post_empty_sourceType (Returned ok_true)) _ _ "sourceType").
  - discriminate.
  - reflexivity.
  - reflexivity.
  - right. right. left. reflexivity.
  - reflexivity.
Defined.

(** C2.  With its webhook URL unset each handler answers 500 and calls
    no webhook.  Handler A, given a request with its three fields, calls
    [updateSourceStatus] before it answers, and when the store client
    can be made that is one write and the only one of the run: status
    [failed], with the message that names
    DOCUMENT_PROCESSING_WEBHOOK_URL.  The write is an event of the run
    that ends in the response, so it comes before the response. *)
Theorem missing_webhook_url_is_reported (wA wB : World) (b : Body) (v : value) :
  method (request wA) <> "OPTIONS" ->
  request_body (request wA) = Some b ->
  body_json b = Returned v ->
  truthy (get v "sourceId") = true ->
  truthy (get v "filePath") = true ->
  truthy (get v "sourceType") = true ->
  env wA !! "DOCUMENT_PROCESSING_WEBHOOK_URL" = None ->
  method (request wB) <> "OPTIONS" ->
  env wB !! "NOTEBOOK_CHAT_URL" = None ->
  (exists resp st,
      ProcessDocument.serve wA = (Returned resp, st)
      /\ res_status resp = 500%N
      /\ fetches (trace st) = []
      /\ (createClient_error wA (default "" (env wA !! "SUPABASE_URL"))
            (default "" (env wA !! "SUPABASE_SERVICE_ROLE_KEY")) = None ->
          updates (trace st) =
            [failed_update wA (get v "sourceId") ProcessDocument.not_configured_message])
      /\ includes ProcessDocument.not_configured_message
                  "DOCUMENT_PROCESSING_WEBHOOK_URL")
  /\ (exists resp st,
         SendChatMessage.serve wB = (Returned resp, st)
         /\ res_status resp = 500%N
         /\ fetches (trace st) = []).
Proof.
  intros Hm Hb Hj H1 H2 H3 He HmB HeB. split.
  - destruct (A_not_configured_run wA b v Hm Hb Hj H1 H2 H3) as (st & Hs & Hf & Hu).
    { rewrite He. reflexivity. }
    eexists. exists st. split; [exact Hs|].
    split.
    { destruct (createClient_error wA _ _); [reflexivity|].
      destruct (update_error wA _); reflexivity. }
    split; [exact Hf|]. split.
    { intros Hc. rewrite Hc in Hu. exact Hu. }
    exists "Document processing webhook URL not configured. Please set ",
           " in Supabase Edge Function secrets.".
    reflexivity.
  - destruct (B_relay_unset wB) as (e & st & Hr & Hf).
    { rewrite HeB. reflexivity. }
    unfold SendChatMessage.serve, SendChatMessage.handler.
    apply String.eqb_neq in HmB. rewrite HmB.
    unfold try_catch. rewrite Hr, B_on_error_run.
    eexists. eexists. split; [reflexivity|]. split; [reflexivity|].
    cbn [trace]. rewrite fetches_app, Hf. reflexivity.
Qed.

Lemma missing_webhook_url_is_reported_witness :
  createClient_error document_unconfigured
    (default "" (env document_unconfigured !! "SUPABASE_URL"))
    (default "" (env document_unconfigured !! "SUPABASE_SERVICE_ROLE_KEY")) = None
  /\ (exists resp st,
      ProcessDocument.serve document_unconfigured = (Returned resp, st)
      /\ res_status resp = 500%N
      /\ fetches (trace st) = []
      /\ (createClient_error document_unconfigured
            (default "" (env document_unconfigured !! "SUPABASE_URL"))
            (default "" (env document_unconfigured !! "SUPABASE_SERVICE_ROLE_KEY")) = None ->
          updates (trace st) =
            [failed_update document_unconfigured (VString "doc-1")
               ProcessDocument.not_configured_message])
      /\ includes ProcessDocument.not_configured_message
                  "DOCUMENT_PROCESSING_WEBHOOK_URL")
  /\ (exists resp st,
         SendChatMessage.serve chat_unconfigured = (Returned resp, st)
         /\ res_status resp = 500%N
         /\ fetches (trace st) = []).
Proof.
  split; [vm_compute; reflexivity|].
  eapply (missing_webhook_url_is_reported document_unconfigured chat_unconfigured
            _ document).
  - discriminate.
  - reflexivity.
  - reflexivity.
  - reflexivity.
  - reflexivity.
  - reflexivity.
  - vm_compute. reflexivity.
  - discriminate.
  - vm_compute. reflexivity.
Defined.

(** C8, as the code has it.  A request with method OPTIONS is answered
    at once with status 200 and the permissive CORS headers: Handler B
    sends no body, Handler A sends the two-character text [ok].  The run
    ends in the state it started in, [initial]: no body was read, no
    webhook called, no status record written, nothing logged. *)
Theorem preflight_is_answered_at_once (wA wB : World) :
  method (request wA) = "OPTIONS" ->
  method (request wB) = "OPTIONS" ->
  ProcessDocument.serve wA =
    (Returned
       (mkHttpResponse (BodyString "ok") 200%N
          [("Access-Control-Allow-Origin", "*");
           ("Access-Control-Allow-Headers",
            "authorization, x-client-info, apikey, content-type")]),
     initial)
  /\ SendChatMessage.serve wB =
       (Returned
          (mkHttpResponse BodyNull 200%N
             [("Access-Control-Allow-Origin", "*");
              ("Access-Control-Allow-Headers",
               "authorization, x-client-info, apikey, content-type")]),
        initial).
Proof.
  intros HA HB.
  unfold ProcessDocument.serve, ProcessDocument.handler,
    SendChatMessage.serve, SendChatMessage.handler.
  rewrite HA, HB. split; reflexivity.
Qed.

Lemma preflight_is_answered_at_once_witness :
  ProcessDocument.serve (world document_env preflight (Returned ok_true)) =
    (Returned
       (mkHttpResponse (BodyString "ok") 200%N
          [("Access-Control-Allow-Origin", "*");
           ("Access-Control-Allow-Headers",
            "authorization, x-client-info, apikey, content-type")]),
     initial)
  /\ SendChatMessage.serve (world chat_env preflight (Returned ok_true)) =
       (Returned
          (mkHttpResponse BodyNull 200%N
             [("Access-Control-Allow-Origin", "*");
              ("Access-Control-Allow-Headers",
               "authorization, x-client-info, apikey, content-type")]),
        initial).
Proof.
  apply (preflight_is_answered_at_once
           (world document_env preflight (Returned ok_true))
           (world chat_env preflight (Returned ok_true))); reflexivity.
Defined.

(** C8 as stated fails for Handler A: its answer to a preflight is not
    empty. *)
Lemma preflight_answer_of_process_document_is_not_empty :
  method (request (world document_env preflight (Returned ok_true))) = "OPTIONS"
  /\ ~ (exists resp st,
          ProcessDocument.serve (world document_env preflight (Returned ok_true))
            = (Returned resp, st)
          /\ body_is_empty (res_body resp) = true).
Proof.
  split; [reflexivity|].
  intros (resp & st & Hs & He).
  vm_compute in Hs. inversion Hs; subst resp. discriminate He.
Qed.

(** C4.  [isValidUrl], in either file, is pure and total: it returns a
    boolean, leaves the state as it was and lets no exception out.  It
    returns true exactly when [new URL] returns and false exactly when
    [new URL] throws.  Whatever the runtime, it is false on
    [not a url] and on [http//missing-colon] and true on
    [https://example.com/path]. *)
Theorem isValidUrl_decides_URL_parsing :
  (forall (w : World) (s : string) (st : State),
      ProcessDocument.isValidUrl w s st = (Returned (parses w s), st)
      /\ SendChatMessage.isValidUrl w s st = (Returned (parses w s), st))
  /\ (forall (w : World) (s : string) (st : State),
         (parses w s = true <-> exists scheme, new_URL w s st = (Returned scheme, st))
         /\ (parses w s = false <-> exists e, new_URL w s st = (Thrown e, st)))
  /\ (forall w : World,
         parses w "not a url" = false
         /\ parses w "http//missing-colon" = false
         /\ parses w "https://example.com/path" = true).
Proof.
  split; [|split].
  - intros w s st. split; [apply A_isValidUrl_run | apply B_isValidUrl_run].
  - intros w s st. unfold parses, new_URL.
    destruct (URL.basic_URL_parser _ s) as [scheme|]; split; split;
      try discriminate; eauto; intros [x Hx]; discriminate Hx.
  - intros w. repeat split; reflexivity.
Qed.

(** C10.  Every response of Handler B that is not a 200 is a 500 whose
    body holds an [error] message and a [details] object with three
    fields: [webhookUrl], the value [Deno.env.get('NOTEBOOK_CHAT_URL')]
    has (the URL string itself; [undefined], which [JSON.stringify]
    leaves out, when the variable is unset), [hasAuth], the truthiness of
    NOTEBOOK_GENERATION_AUTH, and [timestamp], a reading of the clock. *)
Theorem chat_error_has_details (w : World) (resp : HttpResponse) (st : State) :
  SendChatMessage.serve w = (Returned resp, st) ->
  res_status resp <> 200%N ->
  exists (msg : string) (n : nat),
    resp =
      mkHttpResponse
        (JSON_stringify
           (VObject
              [("error", VString msg);
               ("details",
                VObject
                  [("webhookUrl",
                    match env w !! "NOTEBOOK_CHAT_URL" with
                    | Some url => VString url
                    | None => VUndefined
                    end);
                   ("hasAuth", VBool (truthy_opt (env w !! "NOTEBOOK_GENERATION_AUTH")));
                   ("timestamp", VString (clock w n))])]))
        500%N SendChatMessage.json_headers.
Proof.
  intros Hs Hne.
  destruct (B_serve_cases w) as [(st' & H)|[(r & st' & H & H200)|(e & n & st' & H)]];
    rewrite H in Hs; inversion Hs; subst.
  - contradiction Hne. reflexivity.
  - contradiction.
  - exists (SendChatMessage.message_or_default e), n. reflexivity.
Qed.

Lemma chat_error_has_details_witness :
  exists (msg : string) (n : nat),
    mkHttpResponse
      (JSON_stringify
         (VObject
            [("error",
              VString
                "Webhook responded with status: 503 Service Unavailable. Response: unavailable");
             ("details",
              VObject
                [("webhookUrl", VString "https://example.com/path");
                 ("hasAuth", VBool true);
                 ("timestamp", VString "2024-05-01T12:00:00.000Z")])]))
      500%N SendChatMessage.json_headers
    =
      mkHttpResponse
        (JSON_stringify
           (VObject
              [("error", VString msg);
               ("details",
                VObject
                  [("webhookUrl",
                    match env (world chat_env post_chat (Returned unavailable))
                          !! "NOTEBOOK_CHAT_URL" with
                    | Some url => VString url
                    | None => VUndefined
                    end);
                   ("hasAuth",
                    VBool (truthy_opt
                             (env (world chat_env post_chat (Returned unavailable))
                              !! "NOTEBOOK_GENERATION_AUTH")));
                   ("timestamp",
                    VString (clock (world chat_env post_chat (Returned unavailable)) n))])]))
        500%N SendChatMessage.json_headers.
Proof.
  eapply (chat_error_has_details (world chat_env post_chat (Returned unavailable)) _
            (snd (SendChatMessage.serve (world chat_env post_chat (Returned unavailable))))).
  - vm_compute. reflexivity.
  - discriminate.
Defined.

(** X21.  Whenever the webhook was called and answered with a status
    outside 200-299, the caller gets a 500.  In Handler B its [error]
    embeds the upstream status code, status text and body text.  In
    Handler A, when the store accepts the status write, [details] embeds
    them, next to the same [status] and [statusText], and the status
    record has been set to [failed] with that very message. *)
Theorem upstream_failure_is_reported (wA wB : World)
  (urlA urlB : string) (initA initB : FetchInit) (rA rB : FetchResponse) :
  In (urlA, initA) (fetches (trace (snd (ProcessDocument.serve wA)))) ->
  fetch_result wA urlA initA = Returned rA ->
  ok rA = false ->
  In (urlB, initB) (fetches (trace (snd (SendChatMessage.serve wB)))) ->
  fetch_result wB urlB initB = Returned rB ->
  ok rB = false ->
  let msgA := ProcessDocument.webhook_returned_message rA (body_text_of rA) in
  let msgB := SendChatMessage.webhook_responded_message rB (body_text_of rB) in
  (exists resp st,
      ProcessDocument.serve wA = (Returned resp, st)
      /\ res_status resp = 500%N
      /\ (store_accepts wA (request_field wA "sourceId") msgA ->
          resp =
            mkHttpResponse
              (JSON_stringify
                 (VObject [("error", VString "Document processing failed");
                           ("details", VString msgA);
                           ("webhookUrl", VString urlA);
                           ("status", VNumber (number_of_N (status rA)));
                           ("statusText", VString (statusText rA))]))
              500%N ProcessDocument.json_headers
          /\ updates (trace st) = [failed_update wA (request_field wA "sourceId") msgA]))
  /\ (exists st n,
         SendChatMessage.serve wB =
           (Returned
              (mkHttpResponse
                 (JSON_stringify
                    (VObject
                       [("error", VString msgB);
                        ("details",
                         VObject
                           [("webhookUrl", of_opt (env wB !! "NOTEBOOK_CHAT_URL"));
                            ("hasAuth",
                             VBool (truthy_opt (env wB !! "NOTEBOOK_GENERATION_AUTH")));
                            ("timestamp", VString (clock wB n))])]))
                 500%N SendChatMessage.json_headers), st))
  /\ embeds msgA rA
  /\ embeds msgB rB.
Proof.
  intros HinA HfA HokA HinB HfB HokB msgA msgB.
  split; [|split; [|split]].
  - destruct (A_fetch_inversion wA urlA initA HinA) as (st0 & Hs & Hr & Hu & _ & Hup).
    rewrite HfA in Hs.
    destruct (A_answer_not_ok_any wA (request_field wA "sourceId") urlA rA st0
                HokA Hu Hr) as (resp & st1 & Ha & H500).
    exists resp, st1. rewrite Hs. split; [exact Ha|]. split; [exact H500|].
    intros Hstore.
    destruct (A_answer_not_ok wA _ urlA rA st0 HokA Hu Hstore) as (st2 & Ha' & Hw & _).
    rewrite Ha in Ha'. inversion Ha'; subst st2.
    rewrite Hw, Hup. split; reflexivity.
  - destruct (B_fetch_inversion wB urlB initB HinB) as (st0 & Hs & Hu & _).
    rewrite HfB in Hs.
    destruct (B_answer_not_ok wB urlB rB st0 HokB Hu) as (st1 & Ha & _).
    exists st1, (clock_reads st0). rewrite Hs, Ha. reflexivity.
  - unfold embeds, msgA, ProcessDocument.webhook_returned_message. repeat split.
    + apply includes_middle.
    + exists ("Webhook returned " +:+ string_of_N (status rA) +:+ " "),
             (": " +:+ body_text_of rA).
      rewrite !append_assoc. reflexivity.
    + exists ("Webhook returned " +:+ string_of_N (status rA) +:+ " "
              +:+ statusText rA +:+ ": "), "".
      rewrite !append_assoc, append_empty. reflexivity.
  - unfold embeds, msgB, SendChatMessage.webhook_responded_message. repeat split.
    + apply includes_middle.
    + exists ("Webhook responded with status: " +:+ string_of_N (status rB) +:+ " "),
             (". Response: " +:+ body_text_of rB).
      rewrite !append_assoc. reflexivity.
    + exists ("Webhook responded with status: " +:+ string_of_N (status rB) +:+ " "
              +:+ statusText rB +:+ ". Response: "), "".
      rewrite !append_assoc, append_empty. reflexivity.
Qed.

Lemma upstream_failure_is_reported_witness :
  let wA := world document_env post_document (Returned unavailable) in
  let wB := world chat_env post_chat (Returned unavailable) in
  let msgA := "Webhook returned 503 Service Unavailable: unavailable" in
  let msgB :=
    "Webhook responded with status: 503 Service Unavailable. Response: unavailable" in
  store_accepts wA (VString "doc-1") msgA
  /\ (exists resp st,
      ProcessDocument.serve wA = (Returned resp, st)
      /\ res_status resp = 500%N
      /\ (store_accepts wA (VString "doc-1") msgA ->
          resp =
            mkHttpResponse
              (JSON_stringify
                 (VObject [("error", VString "Document processing failed");
                           ("details", VString msgA);
                           ("webhookUrl", VString "https://example.com/path");
                           ("status", VNumber (number_of_N 503));
                           ("statusText", VString "Service Unavailable")]))
              500%N ProcessDocument.json_headers
          /\ updates (trace st) = [failed_update wA (VString "doc-1") msgA]))
  /\ (exists st n,
         SendChatMessage.serve wB =
           (Returned
              (mkHttpResponse
                 (JSON_stringify
                    (VObject
                       [("error", VString msgB);
                        ("details",
                         VObject
                           [("webhookUrl", of_opt (env wB !! "NOTEBOOK_CHAT_URL"));
                            ("hasAuth",
                             VBool (truthy_opt (env wB !! "NOTEBOOK_GENERATION_AUTH")));
                            ("timestamp", VString (clock wB n))])]))
                 500%N SendChatMessage.json_headers), st))
  /\ (includes msgA "503" /\ includes msgA "Service Unavailable"
      /\ includes msgA "unavailable")
  /\ (includes msgB "503" /\ includes msgB "Service Unavailable"
      /\ includes msgB "unavailable").
Proof.
  split; [split; vm_compute; reflexivity|].
  apply (upstream_failure_is_reported
           (world document_env post_document (Returned unavailable))
           (world chat_env post_chat (Returned unavailable))
           "https://example.com/path" "https://example.com/path"
           document_call chat_call unavailable unavailable).
  - vm_compute. left. reflexivity.
  - reflexivity.
  - reflexivity.
  - vm_compute. left. reflexivity.
  - reflexivity.
  - reflexivity.
Defined.

(** C7.  Whenever the webhook was called and answered with a status in
    200-299 and a body that is JSON, Handler A answers 200 with
    [{success: true, message: "Document processing initiated", result}]
    and its run writes no status record, and Handler B answers 200 with
    [{success: true, data}], [result] and [data] being the parsed body. *)
Theorem upstream_success_is_relayed (wA wB : World)
  (urlA urlB : string) (initA initB : FetchInit) (rA rB : FetchResponse)
  (bA bB : Body) (vA vB : value) :
  In (urlA, initA) (fetches (trace (snd (ProcessDocument.serve wA)))) ->
  fetch_result wA urlA initA = Returned rA ->
  ok rA = true ->
  response_body rA = Some bA ->
  body_json bA = Returned vA ->
  In (urlB, initB) (fetches (trace (snd (SendChatMessage.serve wB)))) ->
  fetch_result wB urlB initB = Returned rB ->
  ok rB = true ->
  response_body rB = Some bB ->
  body_json bB = Returned vB ->
  (exists st,
      ProcessDocument.serve wA =
        (Returned
           (mkHttpResponse
              (JSON_stringify
                 (VObject [("success", VBool true);
                           ("message", VString "Document processing initiated");
                           ("result", vA)]))
              200%N ProcessDocument.json_headers), st)
      /\ updates (trace st) = [])
  /\ (exists st,
         SendChatMessage.serve wB =
           (Returned
              (mkHttpResponse
                 (JSON_stringify (VObject [("success", VBool true); ("data", vB)]))
                 200%N SendChatMessage.json_headers), st)).
Proof.
  intros HinA HfA HokA HbA HjA HinB HfB HokB HbB HjB. split.
  - destruct (A_fetch_inversion wA urlA initA HinA) as (st0 & Hs & _ & Hu & _ & Hup).
    rewrite HfA in Hs.
    destruct (A_answer_json wA (request_field wA "sourceId") urlA rA bA vA st0
                HokA Hu HbA HjA) as (st1 & Ha & Hw & _).
    exists st1. rewrite Hs, Ha, Hw, Hup. split; reflexivity.
  - destruct (B_fetch_inversion wB urlB initB HinB) as (st0 & Hs & Hu & _).
    rewrite HfB in Hs.
    destruct (B_answer_json wB urlB rB bB vB st0 HokB Hu HbB HjB) as (st1 & Ha & _).
    exists st1. rewrite Hs, Ha. reflexivity.
Qed.

Lemma upstream_success_is_relayed_witness :
  (exists st,
      ProcessDocument.serve (world document_env post_document (Returned ok_true)) =
        (Returned
           (mkHttpResponse
              (JSON_stringify
                 (VObject [("success", VBool true);
                           ("message", VString "Document processing initiated");
                           ("result", VObject [("ok", VBool true)])]))
              200%N ProcessDocument.json_headers), st)
      /\ updates (trace st) = [])
  /\ (exists st,
         SendChatMessage.serve (world chat_env post_chat (Returned ok_true)) =
           (Returned
              (mkHttpResponse
                 (JSON_stringify
                    (VObject [("success", VBool true);
                              ("data", VObject [("ok", VBool true)])]))
                 200%N SendChatMessage.json_headers), st)).
Proof.
  eapply (upstream_success_is_relayed
            (world document_env post_document (Returned ok_true))
            (world chat_env post_chat (Returned ok_true))
            "https://example.com/path" "https://example.com/path"
            document_call chat_call ok_true ok_true).
  - vm_compute. left. reflexivity.
  - reflexivity.
  - reflexivity.
  - reflexivity.
  - reflexivity.
  - vm_compute. left. reflexivity.
  - reflexivity.
  - reflexivity.
  - reflexivity.
  - reflexivity.
Defined.

(** X18.  The fallback of Handler B is out of reach of any body that
    was sent: whenever the webhook was called and answered with a status
    in 200-299 and a body that is not JSON, the caller gets the 500 of
    the top-level [catch], with the TypeError of the second read as its
    message. *)
Lemma chat_body_that_is_not_JSON (w : World) (url : string) (init : FetchInit)
  (r : FetchResponse) (b : Body) (e : Error) :
  In (url, init) (fetches (trace (snd (SendChatMessage.serve w)))) ->
  fetch_result w url init = Returned r ->
  ok r = true ->
  response_body r = Some b ->
  body_json b = Thrown e ->
  exists st n,
    SendChatMessage.serve w =
      (Returned (chat_error_response w body_unusable (clock w n)), st).
Proof.
  intros Hin Hf Hok Hb Hj.
  destruct (B_fetch_inversion w url init Hin) as (st0 & Hs & Hu & _).
  rewrite Hf in Hs.
  destruct (B_answer_not_json w url r b e st0 Hok Hu Hb Hj) as (st1 & Ha & _).
  exists st1, (clock_reads st0). rewrite Hs, Ha. reflexivity.
Qed.

(** X19.  A response without a body is what reaches the fallback of
    Handler B: whenever the webhook was called and answered with a
    status in 200-299 and no body, the caller gets a 200 with the
    fallback object, which carries the empty text. *)
Lemma chat_response_without_body (w : World) (url : string) (init : FetchInit)
  (r : FetchResponse) :
  In (url, init) (fetches (trace (snd (SendChatMessage.serve w)))) ->
  fetch_result w url init = Returned r ->
  ok r = true ->
  response_body r = None ->
  exists st,
    SendChatMessage.serve w =
      (Returned
         (mkHttpResponse
            (JSON_stringify
               (VObject
                  [("success", VBool true);
                   ("data",
                    VObject [("message", VString "Webhook processed successfully");
                             ("response", VString "")])]))
            200%N SendChatMessage.json_headers), st).
Proof.
  intros Hin Hf Hok Hb.
  destruct (B_fetch_inversion w url init Hin) as (st0 & Hs & _).
  rewrite Hf in Hs.
  destruct (B_answer_no_body w url r st0 Hok Hb) as (st1 & Ha).
  exists st1. rewrite Hs, Ha. reflexivity.
Qed.

(** C1, at the input of the spec: the webhook answers 200 with the text
    [done].  Handler B does not answer with success and a fallback
    object: [json()] has consumed the body when it fails, [text()] then
    rejects, and the caller gets status 500 with the message of that
    TypeError. *)
Theorem chat_done_is_answered_with_an_error :
  exists st,
    SendChatMessage.serve (world chat_env post_chat (Returned done_text)) =
      (Returned
         (mkHttpResponse
            (JSON_stringify
               (VObject
                  [("error", VString "Body already consumed.");
                   ("details",
                    VObject
                      [("webhookUrl", VString "https://example.com/path");
                       ("hasAuth", VBool true);
                       ("timestamp", VString "2024-05-01T12:00:00.000Z")])]))
            500%N SendChatMessage.json_headers), st)
    /\ fetches (trace st) = [("https://example.com/path", chat_call)]
    /\ response_body done_text
       = Some (mkBody "done"
                 (Thrown (SyntaxError "Unexpected token 'd', done is not valid JSON"))).
Proof.
  eexists. split; [vm_compute; reflexivity|]. split; reflexivity.
Qed.

(** C5, at a failing input: the webhook URL is not set and the status
    write throws (no SUPABASE_URL, so [createClient] refuses).  The
    caller does not get the response it gets when the write succeeds,
    the configuration error, but the generic response of the top-level
    [catch] with the store's error as [details]. *)
Theorem throwing_status_write_replaces_the_error :
  exists st_written st_thrown,
    ProcessDocument.serve document_unconfigured
      = (Returned not_configured_response, st_written)
    /\ updates (trace st_written) =
         [failed_update document_unconfigured (VString "doc-1")
            ProcessDocument.not_configured_message]
    /\ ProcessDocument.serve document_nothing_configured
       = (Returned (internal_error_response (new_Error "supabaseUrl is required.")),
          st_thrown)
    /\ updates (trace st_thrown) = []
    /\ internal_error_response (new_Error "supabaseUrl is required.")
       <> not_configured_response.
Proof.
  eexists. eexists.
  split; [vm_compute; reflexivity|].
  split; [vm_compute; reflexivity|].
  split; [vm_compute; reflexivity|].
  split; [reflexivity|].
  discriminate.
Qed.

(** C6, at a failing input: Handler A has its webhook URL, the webhook
    answers 503 with the body [unavailable], and the status write of
    line 136 throws (no SUPABASE_URL, so [createClient] refuses).  The
    caller gets a 500, but not one that embeds the upstream status and
    body: it is the generic response of the top-level [catch] with the
    store's error as [details], and no status record is set to
    [failed]. *)
Theorem upstream_failure_is_masked_by_the_status_write :
  let w := Scenarios.document_without_store in
  exists st,
    ProcessDocument.serve w =
      (Returned
         (mkHttpResponse
            (JSON_stringify
               (VObject [("error", VString "Internal server error");
                         ("details", VString "supabaseUrl is required.")]))
            500%N ProcessDocument.json_headers), st)
    /\ (exists init,
          fetches (trace st) = [("https://example.com/path", init)]
          /\ fetch_result w "https://example.com/path" init = Returned unavailable)
    /\ ok unavailable = false
    /\ status unavailable = 503%N
    /\ body_text_of unavailable = "unavailable"
    /\ updates (trace st) = []
    /\ ~ includes "Internal server error" "503"
    /\ ~ includes "supabaseUrl is required." "503"
    /\ ~ includes "Internal server error" "unavailable"
    /\ ~ includes "supabaseUrl is required." "unavailable".
Proof.
  eexists. split; [vm_compute; reflexivity|].
  split; [eexists; split; reflexivity|].
  split; [reflexivity|]. split; [reflexivity|]. split; [reflexivity|].
  split; [reflexivity|].
  repeat split; intros H; apply includes_includesb in H; discriminate H.
Qed.

(** X10.  When DOCUMENT_PROCESSING_WEBHOOK_URL is not set and the store
    client cannot be made, the error of [createClient] escapes
    [updateSourceStatus] into the top-level [catch]: the caller gets the
    generic 500 with that error as [details], not the configuration
    error, and no status record is written. *)
Lemma status_write_error_reaches_the_caller (w : World) (b : Body) (v : value)
  (e : Error) :
  method (request w) <> "OPTIONS" ->
  request_body (request w) = Some b ->
  body_json b = Returned v ->
  truthy (get v "sourceId") = true ->
  truthy (get v "filePath") = true ->
  truthy (get v "sourceType") = true ->
  truthy_opt (env w !! "DOCUMENT_PROCESSING_WEBHOOK_URL") = false ->
  createClient_error w (default "" (env w !! "SUPABASE_URL"))
    (default "" (env w !! "SUPABASE_SERVICE_ROLE_KEY")) = Some e ->
  exists st,
    ProcessDocument.serve w = (Returned (internal_error_response e), st)
    /\ updates (trace st) = [].
Proof.
  intros Hm Hb Hj H1 H2 H3 He Hc.
  destruct (A_not_configured_run w b v Hm Hb Hj H1 H2 H3 He) as (st & Hs & _ & Hu).
  rewrite Hc in Hs, Hu. eauto.
Qed.

(** Neither handler lets an exception out: every run ends in a response. *)
Lemma every_run_ends_in_a_response (w : World) :
  (exists resp st, ProcessDocument.serve w = (Returned resp, st))
  /\ (exists resp st, SendChatMessage.serve w = (Returned resp, st)).
Proof.
  split; [apply A_total|].
  destruct (B_serve_cases w) as [(st & H)|[(r & st & H & _)|(e & n & st & H)]];
    rewrite H; eauto.
Qed.

(** The second read of the request in Handler A's [catch] never
    succeeds, so the write it guards is never made: a run writes the
    status record at most once. *)
Lemma A_process_writes_at_most_once (w : World) :
  length (updates (trace (snd (ProcessDocument.process w initial)))) <= 1
  /\ (request_body (request w) = None
      \/ request_body_used (snd (ProcessDocument.process w initial)) = true).
Proof.
  cbv beta iota zeta delta
    [ProcessDocument.process ProcessDocument.call_webhook ProcessDocument.answer
     ProcessDocument.updateSourceStatus createClient from_update_eq
     response_text response_json response_used mark_response_used
     bind req_json request_used mark_request_used lift initial
     ret throw console_log console_error emit attempt fetch template Deno_env_get
     request_body_used response_body_used].
  rewrite ?A_isValidUrl_run.
  destruct (request_body (request w)) as [b|]; [|cbn; auto].
  destruct (body_json b) as [v|e]; [|cbn; auto].
  destruct (destructure v "sourceId") as [v'|e]; [|cbn; auto].
  destruct (negb (truthy (get v' "sourceId")) || _ || _); [cbn; auto|].
  destruct (negb (truthy_opt (env w !! "DOCUMENT_PROCESSING_WEBHOOK_URL"))).
  { destruct (createClient_error w _ _); [cbn; auto|].
    destruct (update_error w _); cbn; auto. }
  rewrite ?A_isValidUrl_run.
  destruct (negb (parses w _)).
  { destruct (createClient_error w _ _); [cbn; auto|].
    destruct (update_error w _); cbn; auto. }
  destruct (ToString (Number_toString w) (get v' "filePath")) as [path|]; [|cbn; auto].
  destruct (fetch_result w _ _) as [r|e].
  - destruct (negb (ok r)).
    + destruct (response_body r); cbn [record response_body_used];
        (destruct (createClient_error w _ _); [cbn; auto|]);
        destruct (update_error w _); cbn; auto.
    + destruct (response_body r) as [rb|]; [|cbn; auto].
      cbn [record response_body_used].
      destruct (body_json rb); cbn; auto.
  - destruct (createClient_error w _ _); [cbn; auto|].
    destruct (update_error w _); cbn; auto.
Qed.

Lemma at_most_one_status_write (w : World) :
  length (updates (trace (snd (ProcessDocument.serve w)))) <= 1.
Proof.
  unfold ProcessDocument.serve, ProcessDocument.handler.
  destruct (String.eqb (method (request w)) "OPTIONS"); [cbn; lia|].
  destruct (A_process_writes_at_most_once w) as [Hn Hu].
  unfold try_catch.
  destruct (ProcessDocument.process w initial) as [[resp|e] st]; [exact Hn|].
  rewrite A_on_error_run by exact Hu.
  cbn [snd record trace]. rewrite !updates_app. cbn. rewrite !app_nil_r. exact Hn.
Qed.

(* ================================================================== *)
(** * Handler A: the call, the failure branches and the envelope *)
(* ================================================================== *)

Import Scenarios.

Section HandlerAPaths.
Variable w : World.
Import ProcessDocument.

Lemma A_call_headers :
  ("Content-Type", "application/json")
  :: (if truthy_opt (env w !! "NOTEBOOK_GENERATION_AUTH")
      then [("Authorization", default "" (env w !! "NOTEBOOK_GENERATION_AUTH"))]
      else [])
  = document_call_headers w.
Proof.
  unfold document_call_headers.
  destruct (env w !! "NOTEBOOK_GENERATION_AUTH") as [[|c rest]|]; reflexivity.
Qed.

Lemma A_invalid_url b v url :
  method (request w) <> "OPTIONS" ->
  request_body (request w) = Some b ->
  body_json b = Returned v ->
  truthy (get v "sourceId") = true ->
  truthy (get v "filePath") = true ->
  truthy (get v "sourceType") = true ->
  env w !! "DOCUMENT_PROCESSING_WEBHOOK_URL" = Some url ->
  url <> "" ->
  parses w url = false ->
  serve w =
    try_catch
      (updateSourceStatus w (get v "sourceId") "failed" (Some (invalid_format_message url)) ;;
       ret (mkHttpResponse
              (JSON_stringify (VObject [("error", VString (invalid_format_message url))]))
              500%N json_headers))
      (on_error w)
      (record (Console Err "Invalid DOCUMENT_PROCESSING_WEBHOOK_URL format:" [VString url])
         (accepted v)).
Proof.
  intros Hm Hb Hj H1 H2 H3 He Hne Hp.
  unfold serve, handler.
  apply String.eqb_neq in Hm. rewrite Hm.
  unfold process. rewrite try_catch_bind, req_json_initial, Hb, Hj.
  rewrite try_catch_bind. unfold lift.
  destruct (truthy_is_object _ _ H1) as [props ->].
  cbn [destructure]. rewrite H1, H2, H3. cbn [negb orb].
  rewrite try_catch_bind. unfold console_log at 1. unfold emit at 1. cbv beta iota.
  unfold Deno_env_get. rewrite He. change (default "" (Some url)) with url.
  cbn [truthy_opt].
  apply String.eqb_neq in Hne. rewrite Hne. cbn [negb].
  rewrite try_catch_bind, A_isValidUrl_run, Hp. cbn [negb]. cbv beta iota.
  rewrite try_catch_bind. unfold console_error at 1. unfold emit at 1. cbv beta iota.
  reflexivity.
Qed.

Lemma A_reaches_call b v url :
  method (request w) <> "OPTIONS" ->
  request_body (request w) = Some b ->
  body_json b = Returned v ->
  truthy (get v "sourceId") = true ->
  truthy (get v "filePath") = true ->
  truthy (get v "sourceType") = true ->
  env w !! "DOCUMENT_PROCESSING_WEBHOOK_URL" = Some url ->
  url <> "" ->
  parses w url = true ->
  serve w =
    try_catch
      (call_webhook w (get v "sourceId") (get v "filePath") (get v "sourceType") url
         (env w !! "NOTEBOOK_GENERATION_AUTH"))
      (on_error w) (accepted v).
Proof.
  intros Hm Hb Hj H1 H2 H3 He Hne Hp.
  unfold serve, handler.
  apply String.eqb_neq in Hm. rewrite Hm.
  unfold process. rewrite try_catch_bind, req_json_initial, Hb, Hj.
  rewrite try_catch_bind. unfold lift.
  destruct (truthy_is_object _ _ H1) as [props ->].
  cbn [destructure]. rewrite H1, H2, H3. cbn [negb orb].
  rewrite try_catch_bind. unfold console_log at 1. unfold emit at 1. cbv beta iota.
  unfold Deno_env_get. rewrite He. change (default "" (Some url)) with url.
  cbn [truthy_opt].
  apply String.eqb_neq in Hne. rewrite Hne. cbn [negb].
  rewrite try_catch_bind, A_isValidUrl_run, Hp. cbn [negb]. cbv beta iota.
  reflexivity.
Qed.

Lemma A_calls b v url path :
  method (request w) <> "OPTIONS" ->
  request_body (request w) = Some b ->
  body_json b = Returned v ->
  truthy (get v "sourceId") = true ->
  truthy (get v "filePath") = true ->
  truthy (get v "sourceType") = true ->
  env w !! "DOCUMENT_PROCESSING_WEBHOOK_URL" = Some url ->
  url <> "" ->
  parses w url = true ->
  ToString (Number_toString w) (get v "filePath") = Some path ->
  serve w =
    try_catch
      (answer w (get v "sourceId") url
         (fetch_result w url
            (mkFetchInit "POST" (document_call_headers w)
               (JSON_stringify (document_payload w v path)))))
      (on_error w) (called w v url path).
Proof.
  intros Hm Hb Hj H1 H2 H3 He Hne Hp Ht.
  rewrite (A_reaches_call b v url) by assumption.
  unfold call_webhook.
  rewrite try_catch_bind. unfold console_log at 1. unfold emit at 1. cbv beta iota.
  rewrite try_catch_bind. unfold template. rewrite Ht. unfold ret at 1. cbv beta iota.
  rewrite try_catch_bind. unfold console_log at 1. unfold emit at 1. cbv beta iota.
  rewrite try_catch_bind.
  unfold attempt, fetch. unfold bind at 1. unfold emit at 1. unfold lift at 1.
  cbv beta iota zeta.
  unfold Deno_env_get. rewrite A_call_headers.
  reflexivity.
Qed.

Lemma A_path_fails b v url :
  method (request w) <> "OPTIONS" ->
  request_body (request w) = Some b ->
  body_json b = Returned v ->
  truthy (get v "sourceId") = true ->
  truthy (get v "filePath") = true ->
  truthy (get v "sourceType") = true ->
  env w !! "DOCUMENT_PROCESSING_WEBHOOK_URL" = Some url ->
  url <> "" ->
  parses w url = true ->
  ToString (Number_toString w) (get v "filePath") = None ->
  serve w =
    on_error w (TypeError "Cannot convert object to primitive value")
      (record (Console Log "Calling external webhook:" [VString url]) (accepted v)).
Proof.
  intros Hm Hb Hj H1 H2 H3 He Hne Hp Ht.
  rewrite (A_reaches_call b v url) by assumption.
  unfold call_webhook.
  rewrite try_catch_bind. unfold console_log at 1. unfold emit at 1. cbv beta iota.
  rewrite try_catch_bind. unfold template. rewrite Ht. reflexivity.
Qed.
End HandlerAPaths.

Section HandlerACall.
Variable w : World.
Import ProcessDocument.

Lemma A_call_conditions url init :
  In (url, init) (fetches (trace (snd (serve w)))) ->
  method (request w) <> "OPTIONS"
  /\ exists b v path,
       request_body (request w) = Some b
       /\ body_json b = Returned v
       /\ truthy (get v "sourceId") = true
       /\ truthy (get v "filePath") = true
       /\ truthy (get v "sourceType") = true
       /\ env w !! "DOCUMENT_PROCESSING_WEBHOOK_URL" = Some url
       /\ url <> ""
       /\ parses w url = true
       /\ ToString (Number_toString w) (get v "filePath") = Some path
       /\ init = mkFetchInit "POST" (document_call_headers w)
                   (JSON_stringify (document_payload w v path)).
Proof.
  unfold serve, handler.
  destruct (String.eqb (method (request w)) "OPTIONS") eqn:Hm; [intros []|].
  apply String.eqb_neq in Hm.
  rewrite (try_catch_observed fetches) by apply A_on_error_no_fetch.
  cbv beta iota zeta delta
    [process call_webhook bind req_json request_used mark_request_used lift initial
     ret throw console_log console_error emit attempt fetch template Deno_env_get
     request_body_used].
  destruct (request_body (request w)) as [b|] eqn:Hb; [|intros []].
  destruct (body_json b) as [v|e] eqn:Hj; [|intros []].
  destruct (destructure v "sourceId") as [v'|e] eqn:Hd; [|intros []].
  apply destructure_returned in Hd. subst v'.
  destruct (truthy (get v "sourceId")) eqn:H1; [|intros []].
  destruct (truthy (get v "filePath")) eqn:H2; [|intros []].
  destruct (truthy (get v "sourceType")) eqn:H3; [|intros []].
  cbn [negb orb].
  destruct (env w !! "DOCUMENT_PROCESSING_WEBHOOK_URL") as [url0|] eqn:He.
  2:{ cbn [truthy_opt negb].
      rewrite A_updateSourceStatus_run by discriminate.
      destruct (createClient_error w _ _); [intros []|].
      destruct (update_error w _); intros []. }
  change (default "" (Some url0)) with url0. cbn [truthy_opt].
  destruct (String.eqb url0 "") eqn:Hne; cbn [negb].
  { rewrite A_updateSourceStatus_run by discriminate.
    destruct (createClient_error w _ _); [intros []|].
    destruct (update_error w _); intros []. }
  apply String.eqb_neq in Hne.
  rewrite A_isValidUrl_run.
  destruct (parses w url0) eqn:Hp; cbn [negb].
  2:{ rewrite A_updateSourceStatus_run by discriminate.
      destruct (createClient_error w _ _); [intros []|].
      destruct (update_error w _); intros []. }
  destruct (ToString (Number_toString w) (get v "filePath")) as [path|] eqn:Ht;
    [|intros []].
  rewrite A_call_headers.
  match goal with |- context [answer w ?i ?u ?f ?st] =>
    rewrite (A_answer_no_fetch w i u f st)
  end.
  intros [Heq|[]]. inversion Heq; subst url init.
  split; [exact Hm|]. exists b, v, path. repeat split; assumption.
Qed.
End HandlerACall.

Lemma failure_message_not_recovery msg : failure_message msg -> msg <> recovery_message.
Proof.
  intros [->|[[url ->]|[[url ->]|(r & text & ->)]]]; discriminate.
Qed.

Lemma failure_message_not_empty msg : failure_message msg -> msg <> "".
Proof.
  intros [->|[[url ->]|[[url ->]|(r & text & ->)]]]; discriminate.
Qed.

Ltac outcome_leaf :=
  unfold A_outcome, request_field;
  repeat match goal with
         | H : request_body _ = _ |- _ => rewrite H
         | H : body_json _ = Returned _ |- _ => rewrite H
         end;
  cbn [fst snd record trace request_body_used app updates fetches length negb orb];
  split;
    [ first [ left; reflexivity
            | right; eexists; (split; [ | split; [assumption | reflexivity] ]);
              first [ left; reflexivity
                    | right; left; eexists; reflexivity
                    | right; right; left; eexists; reflexivity
                    | right; right; right; eexists; eexists; reflexivity ] ]
    | split; [ lia
             | split; [ auto
                      | intros resp Heq;
                        first
                          [ discriminate Heq
                          | inversion Heq; subst resp; cbn;
                            split;
                              [ first [ left; reflexivity
                                      | right; left; reflexivity
                                      | right; right; reflexivity ]
                              | split; [reflexivity | eexists; reflexivity] ] ] ] ] ].

Section HandlerAOutcomes.
Variable w : World.
Import ProcessDocument.

Lemma A_process_outcome : A_outcome w (process w initial).
Proof.
  unfold request_field, A_outcome.
  cbv beta iota zeta delta
    [process call_webhook answer bind req_json request_used mark_request_used lift initial
     response_text response_json response_used mark_response_used
     ret throw console_log console_error emit attempt fetch template Deno_env_get
     request_body_used response_body_used].
  destruct (request_body (request w)) as [b|] eqn:Hb; [|outcome_leaf].
  destruct (body_json b) as [v|e] eqn:Hj; [|outcome_leaf].
  destruct (destructure v "sourceId") as [v'|e] eqn:Hd; [|outcome_leaf].
  apply destructure_returned in Hd. subst v'.
  destruct (truthy (get v "sourceId")) eqn:H1; [|outcome_leaf].
  destruct (truthy (get v "filePath")) eqn:H2; [|outcome_leaf].
  destruct (truthy (get v "sourceType")) eqn:H3; [|outcome_leaf].
  cbn [negb orb].
  destruct (negb (truthy_opt (env w !! "DOCUMENT_PROCESSING_WEBHOOK_URL"))).
  { rewrite A_updateSourceStatus_run by discriminate.
    destruct (createClient_error w _ _); [outcome_leaf|].
    destruct (update_error w _); outcome_leaf. }
  rewrite A_isValidUrl_run.
  destruct (negb (parses w _)).
  { rewrite A_updateSourceStatus_run by discriminate.
    destruct (createClient_error w _ _); [outcome_leaf|].
    destruct (update_error w _); outcome_leaf. }
  destruct (ToString (Number_toString w) (get v "filePath")) as [path|]; [|outcome_leaf].
  destruct (fetch_result w _ _) as [r|e].
  - destruct (negb (ok r)).
    + destruct (response_body r); cbn [record response_body_used];
        rewrite A_updateSourceStatus_run by discriminate;
        (destruct (createClient_error w _ _); [outcome_leaf|]);
        destruct (update_error w _); outcome_leaf.
    + destruct (response_body r) as [rb|]; [|outcome_leaf].
      cbn [record response_body_used].
      destruct (body_json rb); outcome_leaf.
  - rewrite A_updateSourceStatus_run by discriminate.
    destruct (createClient_error w _ _); [outcome_leaf|].
    destruct (update_error w _); outcome_leaf.
Qed.
End HandlerAOutcomes.

Section HandlerAWrites.
Variable w : World.
Import ProcessDocument.

(** A failure branch: the status write, then the response.  The caller
    gets a 500 in any case, and the response of the branch when the
    store accepts the write. *)
Lemma A_write_then_respond id msg resp st :
  msg <> "" ->
  request_body_used st = true ->
  res_status resp = 500%N ->
  exists resp' st',
    try_catch (updateSourceStatus w id "failed" (Some msg) ;; ret resp) (on_error w) st
      = (Returned resp', st')
    /\ res_status resp' = 500%N
    /\ fetches (trace st') = fetches (trace st)
    /\ (store_accepts w id msg ->
        resp' = resp /\ updates (trace st') = updates (trace st) ++ [failed_update w id msg]).
Proof.
  intros Hmsg Hu H500.
  rewrite try_catch_bind, A_updateSourceStatus_run by exact Hmsg.
  destruct (createClient_error w _ _) as [e|] eqn:Hc.
  - rewrite A_on_error_run by (right; exact Hu).
    eexists. eexists. split; [reflexivity|]. split; [reflexivity|]. split.
    + cbn [record trace]. rewrite !fetches_app. cbn. rewrite !app_nil_r. reflexivity.
    + intros [Hc' _]. rewrite Hc in Hc'. discriminate.
  - destruct (update_error w _) as [e|] eqn:He.
    + rewrite A_on_error_run by (right; exact Hu).
      eexists. eexists. split; [reflexivity|]. split; [reflexivity|]. split.
      * cbn [record trace]. rewrite !fetches_app. cbn. rewrite !app_nil_r. reflexivity.
      * intros [_ He']. rewrite He in He'. discriminate.
    + rewrite try_catch_ret.
      eexists. eexists. split; [reflexivity|]. split; [exact H500|]. split.
      * cbn [record trace]. rewrite !fetches_app. cbn. rewrite !app_nil_r. reflexivity.
      * intros _. split; [reflexivity|].
        cbn [record trace]. rewrite !updates_app. reflexivity.
Qed.

(** The top-level [catch], entered from any state the body of the [try]
    can throw in: nothing more is called or written. *)
Lemma A_on_error_quiet e st :
  (request_body (request w) = None \/ request_body_used st = true) ->
  exists st',
    on_error w e st = (Returned (internal_error_response e), st')
    /\ fetches (trace st') = fetches (trace st)
    /\ updates (trace st') = updates (trace st).
Proof.
  intros H. rewrite A_on_error_run by exact H.
  eexists. split; [reflexivity|].
  cbn [record trace]. rewrite !fetches_app, !updates_app. cbn.
  rewrite !app_nil_r. split; reflexivity.
Qed.

End HandlerAWrites.

(** X7.  Whatever the request and the world, Handler A writes at most
    one status record in a run, and what it writes is always a failure:
    the row of [sources] whose [id] is the request's [sourceId], which
    is truthy, set to [processing_status: 'failed'] with one of its four
    failure messages as [metadata.error].  It never writes the message
    of its top-level [catch]: that write cannot be reached. *)
Theorem process_document_writes_failures_only (w : World) :
  length (updates (trace (snd (ProcessDocument.serve w)))) <= 1
  /\ forall u, In u (updates (trace (snd (ProcessDocument.serve w)))) ->
       exists msg,
         u = failed_update w (request_field w "sourceId") msg
         /\ failure_message msg
         /\ msg <> recovery_message
         /\ truthy (request_field w "sourceId") = true.
Proof.
  assert (H : updates (trace (snd (ProcessDocument.serve w))) = []
              \/ exists msg, failure_message msg
                   /\ truthy (request_field w "sourceId") = true
                   /\ updates (trace (snd (ProcessDocument.serve w)))
                      = [failed_update w (request_field w "sourceId") msg]).
  { unfold ProcessDocument.serve, ProcessDocument.handler.
    destruct (String.eqb (method (request w)) "OPTIONS"); [left; reflexivity|].
    destruct (A_process_outcome w) as (Hup & _ & Hu & _).
    unfold try_catch.
    destruct (ProcessDocument.process w initial) as [[resp|e] st]; [exact Hup|].
    destruct (A_on_error_quiet w e st Hu) as (st' & Hs & _ & Hup').
    rewrite Hs. cbn [snd] in *. rewrite Hup'. exact Hup. }
  destruct H as [->|(msg & Hmsg & Hid & ->)].
  - split; [cbn; lia|]. intros u [].
  - split; [cbn; lia|]. intros u [<-|[]].
    exists msg. repeat split; try assumption.
    apply failure_message_not_recovery. exact Hmsg.
Qed.

(** X8.  Handler A lets no exception out: every run ends in a response.
    Its status is 200, 400 or 500, it carries the CORS headers, and,
    unless the request is a preflight, it is a JSON document with
    [Content-Type: application/json].  No run calls the webhook more
    than once. *)
Theorem process_document_always_answers (w : World) :
  exists resp st,
    ProcessDocument.serve w = (Returned resp, st)
    /\ (res_status resp = 200%N \/ res_status resp = 400%N \/ res_status resp = 500%N)
    /\ (forall h, In h ProcessDocument.corsHeaders -> In h (res_headers resp))
    /\ (method (request w) <> "OPTIONS" ->
        In ("Content-Type", "application/json") (res_headers resp)
        /\ exists v, res_body resp = JSON_stringify v)
    /\ length (fetches (trace st)) <= 1.
Proof.
  unfold ProcessDocument.serve, ProcessDocument.handler.
  destruct (String.eqb (method (request w)) "OPTIONS") eqn:Hm.
  - apply String.eqb_eq in Hm.
    eexists. eexists. split; [reflexivity|]. cbn.
    split; [left; reflexivity|]. split; [auto|]. split; [congruence|lia].
  - destruct (A_process_outcome w) as (_ & Hf & Hu & Hr).
    unfold try_catch.
    destruct (ProcessDocument.process w initial) as [[resp|e] st].
    + destruct (Hr resp eq_refl) as (Hs & Hh & v & Hv).
      exists resp, st. split; [reflexivity|]. split; [exact Hs|].
      rewrite Hh. split.
      { intros h Hin. apply in_or_app. left. exact Hin. }
      split; [|exact Hf].
      intros _. split; [|eauto]. right. right. left. reflexivity.
    + destruct (A_on_error_quiet w e st Hu) as (st' & Hs & Hf' & _).
      rewrite Hs. cbn [snd] in *.
      eexists. eexists. split; [reflexivity|]. cbn [internal_error_response res_status res_headers res_body].
      split; [right; right; reflexivity|]. split.
      { intros h Hin. apply in_or_app. left. exact Hin. }
      split; [|rewrite Hf'; exact Hf].
      intros _. split; [|eauto]. right. right. left. reflexivity.
Qed.

(** X1.  Handler A calls the webhook exactly when the request is not a
    preflight, its JSON body has truthy [sourceId], [filePath] and
    [sourceType], DOCUMENT_PROCESSING_WEBHOOK_URL is a non-empty string
    that parses as a URL, and [filePath] can be printed.  The call is
    then a POST to that URL with [Content-Type: application/json], with
    [Authorization] exactly when NOTEBOOK_GENERATION_AUTH is non-empty,
    and with the payload of lines 89-95 as its JSON body. *)
Theorem document_webhook_call (w : World) (url : string) (init : FetchInit) :
  In (url, init) (fetches (trace (snd (ProcessDocument.serve w))))
  <-> (method (request w) <> "OPTIONS"
       /\ exists b v path,
            request_body (request w) = Some b
            /\ body_json b = Returned v
            /\ truthy (get v "sourceId") = true
            /\ truthy (get v "filePath") = true
            /\ truthy (get v "sourceType") = true
            /\ env w !! "DOCUMENT_PROCESSING_WEBHOOK_URL" = Some url
            /\ url <> ""
            /\ parses w url = true
            /\ ToString (Number_toString w) (get v "filePath") = Some path
            /\ init = mkFetchInit "POST" (document_call_headers w)
                        (JSON_stringify (document_payload w v path))).
Proof.
  split; [apply A_call_conditions|].
  intros (Hm & b & v & path & Hb & Hj & H1 & H2 & H3 & He & Hne & Hp & Ht & ->).
  rewrite (A_calls w b v url path) by assumption.
  rewrite (silent_try_catch fetches _ _
             (A_answer_no_fetch w _ _ _) (A_on_error_no_fetch w)).
  left. reflexivity.
Qed.

Lemma document_webhook_call_witness :
  In ("https://example.com/path", document_call)
     (fetches (trace (snd (ProcessDocument.serve
                             (world document_env post_document (Returned ok_true)))))).
Proof.
  apply (proj2 (document_webhook_call
                  (world document_env post_document (Returned ok_true))
                  "https://example.com/path" document_call)).
  split; [discriminate|].
  eexists. exists document, "user/report.pdf".
  split; [reflexivity|]. split; [reflexivity|].
  split; [reflexivity|]. split; [reflexivity|]. split; [reflexivity|].
  split; [vm_compute; reflexivity|]. split; [discriminate|].
  split; [vm_compute; reflexivity|]. split; [reflexivity|].
  vm_compute. reflexivity.
Defined.

(** X2.  When DOCUMENT_PROCESSING_WEBHOOK_URL is set but does not parse
    as a URL, Handler A answers a complete request with a 500 and calls
    no webhook; the store accepting the write, the error message quotes
    the configured value and the status record is set to [failed] with
    the same message. *)
Theorem invalid_document_webhook_url (w : World) (b : Body) (v : value) (url : string) :
  method (request w) <> "OPTIONS" ->
  request_body (request w) = Some b ->
  body_json b = Returned v ->
  truthy (get v "sourceId") = true ->
  truthy (get v "filePath") = true ->
  truthy (get v "sourceType") = true ->
  env w !! "DOCUMENT_PROCESSING_WEBHOOK_URL" = Some url ->
  url <> "" ->
  parses w url = false ->
  let msg := ProcessDocument.invalid_format_message url in
  exists resp st,
    ProcessDocument.serve w = (Returned resp, st)
    /\ res_status resp = 500%N
    /\ fetches (trace st) = []
    /\ includes msg url
    /\ (store_accepts w (get v "sourceId") msg ->
        resp = mkHttpResponse (JSON_stringify (VObject [("error", VString msg)]))
                 500%N ProcessDocument.json_headers
        /\ updates (trace st) = [failed_update w (get v "sourceId") msg]).
Proof.
  intros Hm Hb Hj H1 H2 H3 He Hne Hp msg.
  rewrite (A_invalid_url w b v url) by assumption.
  edestruct (A_write_then_respond w (get v "sourceId") msg) as (resp & st & Hs & H500 & Hf & Hw);
    [discriminate | | | ].
  3:{ exists resp, st. split; [exact Hs|]. split; [exact H500|].
      split; [rewrite Hf; reflexivity|]. split; [apply includes_middle|].
      intros Hstore. destruct (Hw Hstore) as [-> ->]. split; reflexivity. }
  - reflexivity.
  - reflexivity.
Qed.

Lemma invalid_document_webhook_url_witness :
  let msg := ProcessDocument.invalid_format_message "example.com/hook" in
  store_accepts document_bad_url (VString "doc-1") msg
  /\ exists resp st,
       ProcessDocument.serve document_bad_url = (Returned resp, st)
       /\ res_status resp = 500%N
       /\ fetches (trace st) = []
       /\ includes msg "example.com/hook"
       /\ (store_accepts document_bad_url (VString "doc-1") msg ->
           resp = mkHttpResponse (JSON_stringify (VObject [("error", VString msg)]))
                    500%N ProcessDocument.json_headers
           /\ updates (trace st) = [failed_update document_bad_url (VString "doc-1") msg]).
Proof.
  split; [split; vm_compute; reflexivity|].
  eapply (invalid_document_webhook_url document_bad_url _ document "example.com/hook").
  - discriminate.
  - reflexivity.
  - reflexivity.
  - reflexivity.
  - reflexivity.
  - reflexivity.
  - vm_compute. reflexivity.
  - discriminate.
  - vm_compute. reflexivity.
Defined.

(** X3.  Whenever Handler A's call of the webhook throws (the
    connection cannot be made), the caller gets a 500; the store
    accepting the write, the response is
    [{error: 'Document processing failed', details, webhookUrl}] with a
    [details] message that quotes the webhook URL, and the status record
    is set to [failed] with that message. *)
Theorem document_webhook_unreachable (w : World) (url : string) (init : FetchInit)
  (fetchError : Error) :
  In (url, init) (fetches (trace (snd (ProcessDocument.serve w)))) ->
  fetch_result w url init = Thrown fetchError ->
  let msg := ProcessDocument.connect_failed_message url in
  exists resp st,
    ProcessDocument.serve w = (Returned resp, st)
    /\ res_status resp = 500%N
    /\ includes msg url
    /\ (store_accepts w (request_field w "sourceId") msg ->
        resp =
          mkHttpResponse
            (JSON_stringify
               (VObject [("error", VString "Document processing failed");
                         ("details", VString msg);
                         ("webhookUrl", VString url)]))
            500%N ProcessDocument.json_headers
        /\ updates (trace st) = [failed_update w (request_field w "sourceId") msg]).
Proof.
  intros Hin Hf msg.
  destruct (A_fetch_inversion w url init Hin) as (st0 & Hs & Hr & _ & _ & Hup).
  rewrite Hf in Hs. rewrite Hs.
  unfold ProcessDocument.answer.
  rewrite try_catch_bind. unfold console_error at 1. unfold emit at 1. cbv beta iota.
  edestruct (A_write_then_respond w (request_field w "sourceId") msg)
    as (resp & st & Hs' & H500 & _ & Hw); [discriminate | | | ].
  3:{ exists resp, st. split; [exact Hs'|]. split; [exact H500|].
      split; [apply includes_middle|].
      intros Hstore. destruct (Hw Hstore) as [-> ->].
      cbn [record trace]. rewrite updates_app, Hup. split; reflexivity. }
  - exact Hr.
  - reflexivity.
Qed.

Lemma document_webhook_unreachable_witness :
  let msg := ProcessDocument.connect_failed_message "https://example.com/path" in
  store_accepts document_refused (VString "doc-1") msg
  /\ exists resp st,
       ProcessDocument.serve document_refused = (Returned resp, st)
       /\ res_status resp = 500%N
       /\ includes msg "https://example.com/path"
       /\ (store_accepts document_refused (VString "doc-1") msg ->
           resp =
             mkHttpResponse
               (JSON_stringify
                  (VObject [("error", VString "Document processing failed");
                            ("details", VString msg);
                            ("webhookUrl", VString "https://example.com/path")]))
               500%N ProcessDocument.json_headers
           /\ updates (trace st) = [failed_update document_refused (VString "doc-1") msg]).
Proof.
  split; [split; vm_compute; reflexivity|].
  apply (document_webhook_unreachable document_refused
           "https://example.com/path" document_call refused).
  - vm_compute. left. reflexivity.
  - reflexivity.
Defined.

(** X4.  Handler A treats DOCUMENT_PROCESSING_WEBHOOK_URL set to the
    empty string as not set: a complete request gets a 500 and no
    webhook is called; the store accepting the write, the response is
    the "not configured" error and the status record is set to [failed]
    with it. *)
Theorem empty_document_webhook_url (w : World) (b : Body) (v : value) :
  method (request w) <> "OPTIONS" ->
  request_body (request w) = Some b ->
  body_json b = Returned v ->
  truthy (get v "sourceId") = true ->
  truthy (get v "filePath") = true ->
  truthy (get v "sourceType") = true ->
  env w !! "DOCUMENT_PROCESSING_WEBHOOK_URL" = Some "" ->
  exists resp st,
    ProcessDocument.serve w = (Returned resp, st)
    /\ res_status resp = 500%N
    /\ fetches (trace st) = []
    /\ (store_accepts w (get v "sourceId") ProcessDocument.not_configured_message ->
        resp = not_configured_response
        /\ updates (trace st) =
             [failed_update w (get v "sourceId") ProcessDocument.not_configured_message]).
Proof.
  intros Hm Hb Hj H1 H2 H3 He.
  rewrite (A_not_configured w b v) by (try assumption; rewrite He; reflexivity).
  edestruct (A_write_then_respond w (get v "sourceId")
               ProcessDocument.not_configured_message)
    as (resp & st & Hs & H500 & Hf & Hw); [discriminate | | | ].
  3:{ exists resp, st. split; [exact Hs|]. split; [exact H500|].
      split; [rewrite Hf; reflexivity|].
      intros Hstore. destruct (Hw Hstore) as [-> ->]. split; reflexivity. }
  - reflexivity.
  - reflexivity.
Qed.

Lemma empty_document_webhook_url_witness :
  store_accepts document_empty_url (VString "doc-1")
    ProcessDocument.not_configured_message
  /\ exists resp st,
       ProcessDocument.serve document_empty_url = (Returned resp, st)
       /\ res_status resp = 500%N
       /\ fetches (trace st) = []
       /\ (store_accepts document_empty_url (VString "doc-1")
             ProcessDocument.not_configured_message ->
           resp = not_configured_response
           /\ updates (trace st) =
                [failed_update document_empty_url (VString "doc-1")
                   ProcessDocument.not_configured_message]).
Proof.
  split; [split; vm_compute; reflexivity|].
  eapply (empty_document_webhook_url document_empty_url _ document).
  - discriminate.
  - reflexivity.
  - reflexivity.
  - reflexivity.
  - reflexivity.
  - reflexivity.
  - vm_compute. reflexivity.
Defined.

(** X5.  A request to Handler A that cannot be read as an object (no
    body, a body that is not JSON, or the JSON [null]) is answered with
    the 500 of the top-level [catch],
    [{error: 'Internal server error', details}] with the message of the
    error as [details]; no webhook is called and, the request being
    unreadable a second time too, no status record is written. *)
Theorem unreadable_document_request (w : World) (e : Error) :
  method (request w) <> "OPTIONS" ->
  unreadable (request w) "sourceId" e ->
  exists st,
    ProcessDocument.serve w = (Returned (internal_error_response e), st)
    /\ fetches (trace st) = []
    /\ updates (trace st) = [].
Proof.
  intros Hm Hun.
  unfold ProcessDocument.serve, ProcessDocument.handler.
  apply String.eqb_neq in Hm. rewrite Hm.
  unfold ProcessDocument.process. rewrite try_catch_bind, req_json_initial.
  unfold unreadable in Hun.
  destruct (request_body (request w)) as [b|] eqn:Hb.
  - assert (Hread : request_body (request w) = None \/ request_body_used read = true)
      by (right; reflexivity).
    destruct Hun as [Hj|[Hj Hd]]; rewrite Hj.
    + destruct (A_on_error_quiet w e read Hread) as (st & Hs & Hf & Hu).
      exists st. split; [exact Hs|]. rewrite Hf, Hu. split; reflexivity.
    + rewrite try_catch_bind. unfold lift. rewrite Hd.
      destruct (A_on_error_quiet w e read Hread) as (st & Hs & Hf & Hu).
      exists st. split; [exact Hs|]. rewrite Hf, Hu. split; reflexivity.
  - subst e.
    destruct (A_on_error_quiet w end_of_input initial (or_introl Hb)) as (st & Hs & Hf & Hu).
    exists st. split; [exact Hs|]. rewrite Hf, Hu. split; reflexivity.
Qed.

Lemma unreadable_document_request_witness :
  exists st,
    ProcessDocument.serve (world document_env post_hello (Returned ok_true)) =
      (Returned
         (internal_error_response
            (SyntaxError "Unexpected token 'h', hello is not valid JSON")), st)
    /\ fetches (trace st) = []
    /\ updates (trace st) = [].
Proof.
  apply (unreadable_document_request (world document_env post_hello (Returned ok_true))).
  - discriminate.
  - left. reflexivity.
Defined.

(** X6.  Whenever Handler A's call of the webhook is answered with a
    status in 200-299 but [json()] fails on the response (no body, or a
    body that is not JSON), the caller gets the 500 of the top-level
    [catch] with the parser's message as [details], and no status record
    is written. *)
Theorem document_success_that_is_not_JSON (w : World) (url : string) (init : FetchInit)
  (r : FetchResponse) (e : Error) :
  In (url, init) (fetches (trace (snd (ProcessDocument.serve w)))) ->
  fetch_result w url init = Returned r ->
  ok r = true ->
  not_json r e ->
  exists st,
    ProcessDocument.serve w = (Returned (internal_error_response e), st)
    /\ updates (trace st) = [].
Proof.
  intros Hin Hf Hok Hnj.
  destruct (A_fetch_inversion w url init Hin) as (st0 & Hs & Hr & Hu & _ & Hup).
  rewrite Hf in Hs. rewrite Hs.
  unfold ProcessDocument.answer. rewrite Hok. cbn [negb].
  rewrite try_catch_bind.
  unfold not_json in Hnj.
  destruct (response_body r) as [b|] eqn:Hb.
  - rewrite (response_json_unused r b) by assumption. rewrite Hnj.
    destruct (A_on_error_quiet w e (snd (mark_response_used st0))) as (st & Hs' & _ & Hu').
    { right. exact Hr. }
    exists st. split; [exact Hs'|]. rewrite Hu'. exact Hup.
  - unfold response_json. rewrite Hb. subst e. unfold throw.
    destruct (A_on_error_quiet w end_of_input st0) as (st & Hs' & _ & Hu').
    { right. exact Hr. }
    exists st. split; [exact Hs'|]. rewrite Hu'. exact Hup.
Qed.

Lemma document_success_that_is_not_JSON_witness :
  exists st,
    ProcessDocument.serve (world document_env post_document (Returned done_text)) =
      (Returned
         (internal_error_response
            (SyntaxError "Unexpected token 'd', done is not valid JSON")), st)
    /\ updates (trace st) = [].
Proof.
  apply (document_success_that_is_not_JSON
           (world document_env post_document (Returned done_text))
           "https://example.com/path" document_call done_text).
  - vm_compute. left. reflexivity.
  - reflexivity.
  - reflexivity.
  - reflexivity.
Defined.

(** X9.  A [filePath] that cannot be printed into the file URL (an
    object with a [toString] entry, which is not a function) makes the
    template literal of line 86 throw: the caller gets the 500 of the
    top-level [catch], no webhook is called and no status record is
    written, although the request was complete. *)
Theorem unprintable_filePath (w : World) (b : Body) (v : value) (url : string) :
  method (request w) <> "OPTIONS" ->
  request_body (request w) = Some b ->
  body_json b = Returned v ->
  truthy (get v "sourceId") = true ->
  truthy (get v "filePath") = true ->
  truthy (get v "sourceType") = true ->
  env w !! "DOCUMENT_PROCESSING_WEBHOOK_URL" = Some url ->
  url <> "" ->
  parses w url = true ->
  ToString (Number_toString w) (get v "filePath") = None ->
  exists st,
    ProcessDocument.serve w =
      (Returned
         (internal_error_response (TypeError "Cannot convert object to primitive value")),
       st)
    /\ fetches (trace st) = []
    /\ updates (trace st) = [].
Proof.
  intros Hm Hb Hj H1 H2 H3 He Hne Hp Ht.
  rewrite (A_path_fails w b v url) by assumption.
  destruct (A_on_error_quiet w (TypeError "Cannot convert object to primitive value")
              (record (Console Log "Calling external webhook:" [VString url]) (accepted v)))
    as (st & Hs & Hf & Hu); [right; reflexivity|].
  exists st. split; [exact Hs|]. rewrite Hf, Hu. split; reflexivity.
Qed.

Lemma unprintable_filePath_witness :
  exists st,
    ProcessDocument.serve (world document_env post_odd_filePath (Returned ok_true)) =
      (Returned
         (internal_error_response (TypeError "Cannot convert object to primitive value")),
       st)
    /\ fetches (trace st) = []
    /\ updates (trace st) = [].
Proof.
  eapply (unprintable_filePath (world document_env post_odd_filePath (Returned ok_true))
            _ _ "https://example.com/path").
  - discriminate.
  - reflexivity.
  - reflexivity.
  - reflexivity.
  - reflexivity.
  - reflexivity.
  - vm_compute. reflexivity.
  - discriminate.
  - vm_compute. reflexivity.
  - reflexivity.
Defined.

Ltac no_client_leaf :=
  cbn [fst snd record trace request_body_used app updates];
  split; [reflexivity|];
  split; [auto|];
  intros resp Heq; first [discriminate Heq | inversion Heq; subst resp; cbn; discriminate].

Section HandlerANoClient.
Variable w : World.
Variable e : Error.
Hypothesis no_client :
  createClient_error w (default "" (env w !! "SUPABASE_URL"))
    (default "" (env w !! "SUPABASE_SERVICE_ROLE_KEY")) = Some e.
Import ProcessDocument.

(** Without a store client the body of the [try] writes nothing and
    returns no 500 of its own. *)
Lemma A_process_without_client :
  updates (trace (snd (process w initial))) = []
  /\ (request_body (request w) = None \/ request_body_used (snd (process w initial)) = true)
  /\ forall resp, fst (process w initial) = Returned resp -> res_status resp <> 500%N.
Proof.
  cbv beta iota zeta delta
    [process call_webhook answer bind req_json request_used mark_request_used lift initial
     response_text response_json response_used mark_response_used
     ret throw console_log console_error emit attempt fetch template Deno_env_get
     request_body_used response_body_used].
  destruct (request_body (request w)) as [b|] eqn:Hb; [|no_client_leaf].
  destruct (body_json b) as [v|e0] eqn:Hj; [|no_client_leaf].
  destruct (destructure v "sourceId") as [v'|e0] eqn:Hd; [|no_client_leaf].
  destruct (negb (truthy (get v' "sourceId")) || _ || _); [no_client_leaf|].
  destruct (negb (truthy_opt (env w !! "DOCUMENT_PROCESSING_WEBHOOK_URL"))).
  { rewrite A_updateSourceStatus_run by discriminate. rewrite no_client. no_client_leaf. }
  rewrite A_isValidUrl_run.
  destruct (negb (parses w _)).
  { rewrite A_updateSourceStatus_run by discriminate. rewrite no_client. no_client_leaf. }
  destruct (ToString (Number_toString w) (get v' "filePath")) as [path|]; [|no_client_leaf].
  destruct (fetch_result w _ _) as [r|e0].
  - destruct (negb (ok r)).
    + destruct (response_body r); cbn [record response_body_used];
        rewrite A_updateSourceStatus_run by discriminate; rewrite no_client; no_client_leaf.
    + destruct (response_body r) as [rb|]; [|no_client_leaf].
      cbn [record response_body_used].
      destruct (body_json rb); no_client_leaf.
  - rewrite A_updateSourceStatus_run by discriminate. rewrite no_client. no_client_leaf.
Qed.

End HandlerANoClient.

Lemma status_write_error_reaches_the_caller_witness :
  exists st,
    ProcessDocument.serve document_nothing_configured =
      (Returned (internal_error_response (new_Error "supabaseUrl is required.")), st)
    /\ updates (trace st) = [].
Proof.
  eapply (status_write_error_reaches_the_caller document_nothing_configured _ document).
  - discriminate.
  - reflexivity.
  - reflexivity.
  - reflexivity.
  - reflexivity.
  - reflexivity.
  - vm_compute. reflexivity.
  - vm_compute. reflexivity.
Defined.

(** X11.  When the store client cannot be made, no run of Handler A
    writes a status record, and every 500 it answers is the generic
    one of the top-level [catch]: none of the four failure branches
    gets its own response to the caller. *)
Theorem no_store_client_no_failure_report (w : World) (e : Error) :
  createClient_error w (default "" (env w !! "SUPABASE_URL"))
    (default "" (env w !! "SUPABASE_SERVICE_ROLE_KEY")) = Some e ->
  updates (trace (snd (ProcessDocument.serve w))) = []
  /\ forall resp st,
       ProcessDocument.serve w = (Returned resp, st) ->
       res_status resp = 500%N ->
       exists error, resp = internal_error_response error.
Proof.
  intros Hc.
  unfold ProcessDocument.serve, ProcessDocument.handler.
  destruct (String.eqb (method (request w)) "OPTIONS").
  - split; [reflexivity|]. intros resp st H. inversion H; subst resp. discriminate.
  - destruct (A_process_without_client w e Hc) as (Hup & Hu & Hr).
    unfold try_catch.
    destruct (ProcessDocument.process w initial) as [[resp|e0] st0]; cbn [fst snd] in *.
    + split; [exact Hup|]. intros resp' st H H500. inversion H; subst resp'.
      contradiction (Hr resp eq_refl).
    + destruct (A_on_error_quiet w e0 st0 Hu) as (st' & Hs & _ & Hup').
      rewrite Hs. cbn [snd]. split; [rewrite Hup'; exact Hup|].
      intros resp st H _. inversion H; subst resp. eauto.
Qed.

Lemma no_store_client_no_failure_report_witness :
  updates (trace (snd (ProcessDocument.serve document_nothing_configured))) = []
  /\ forall resp st,
       ProcessDocument.serve document_nothing_configured = (Returned resp, st) ->
       res_status resp = 500%N ->
       exists error, resp = internal_error_response error.
Proof.
  apply (no_store_client_no_failure_report document_nothing_configured
           (new_Error "supabaseUrl is required.")).
  vm_compute. reflexivity.
Defined.

(* ================================================================== *)
(** * Handler B: the call, the failure branches and the envelope *)
(* ================================================================== *)

Lemma destructure_other v k : v <> VNull -> v <> VUndefined -> destructure v k = Returned v.
Proof. destruct v; intros H1 H2; try reflexivity; contradiction. Qed.

Lemma truthy_opt_some (o : option string) :
  truthy_opt o = true -> exists s, o = Some s /\ s <> "".
Proof.
  destruct o as [s|]; [|discriminate]. cbn [truthy_opt].
  destruct (String.eqb s "") eqn:E; [discriminate|].
  intros _. exists s. split; [reflexivity|]. apply String.eqb_neq. exact E.
Qed.

Lemma truthy_opt_of_some (s : string) : s <> "" -> truthy_opt (Some s) = true.
Proof. intros H. cbn [truthy_opt]. apply String.eqb_neq in H. rewrite H. reflexivity. Qed.

Lemma message_or_default_not_empty e : SendChatMessage.message_or_default e <> "".
Proof.
  unfold SendChatMessage.message_or_default.
  destruct (String.eqb (message e) "") eqn:E; [discriminate|].
  apply String.eqb_neq. exact E.
Qed.

Lemma chat_error_response_failure w e t :
  chat_error_response w e t = chat_failure w (SendChatMessage.message_or_default e) t.
Proof. reflexivity. Qed.

Lemma message_or_default_message e :
  message e <> "" -> SendChatMessage.message_or_default e = message e.
Proof.
  intros H. unfold SendChatMessage.message_or_default.
  apply String.eqb_neq in H. rewrite H. reflexivity.
Qed.

Section HandlerBPaths.
Variable w : World.
Import SendChatMessage.

Ltac B_enter Hm Hb Hj Hn Hu :=
  unfold serve, handler; apply String.eqb_neq in Hm; rewrite Hm;
  unfold relay; rewrite try_catch_bind, req_json_initial, Hb, Hj;
  rewrite try_catch_bind; unfold lift; rewrite (destructure_other _ _ Hn Hu);
  rewrite try_catch_bind; unfold console_log at 1; unfold emit at 1; cbv beta iota;
  unfold Deno_env_get.

(** [fail] inside the [try]: the message is logged and reaches the
    top-level [catch]. *)
Lemma B_fail_caught msg st :
  try_catch (fail msg) (on_error w) st =
    on_error w (new_Error msg) (record (Console Err msg []) st).
Proof. reflexivity. Qed.

(** The top-level [catch] with an error that has a message. *)
Lemma B_on_error_message msg st :
  msg <> "" ->
  exists st',
    on_error w (new_Error msg) st = (Returned (chat_failure w msg (clock w (clock_reads st))), st')
    /\ fetches (trace st') = fetches (trace st).
Proof.
  intros Hmsg. rewrite B_on_error_run, chat_error_response_failure.
  rewrite message_or_default_message by exact Hmsg.
  eexists. split; [reflexivity|].
  cbn [trace]. rewrite fetches_app. cbn. apply app_nil_r.
Qed.

Lemma B_url_not_set b v :
  method (request w) <> "OPTIONS" ->
  request_body (request w) = Some b ->
  body_json b = Returned v ->
  v <> VNull -> v <> VUndefined ->
  truthy_opt (env w !! "NOTEBOOK_CHAT_URL") = false ->
  serve w =
    on_error w (new_Error url_not_set_message)
      (record (Console Err url_not_set_message []) (received v)).
Proof.
  intros Hm Hb Hj Hn Hu He.
  B_enter Hm Hb Hj Hn Hu.
  rewrite He. cbn [negb]. apply B_fail_caught.
Qed.

Lemma B_auth_not_set b v :
  method (request w) <> "OPTIONS" ->
  request_body (request w) = Some b ->
  body_json b = Returned v ->
  v <> VNull -> v <> VUndefined ->
  truthy_opt (env w !! "NOTEBOOK_CHAT_URL") = true ->
  truthy_opt (env w !! "NOTEBOOK_GENERATION_AUTH") = false ->
  serve w =
    on_error w (new_Error auth_not_set_message)
      (record (Console Err auth_not_set_message []) (received v)).
Proof.
  intros Hm Hb Hj Hn Hu He Ha.
  B_enter Hm Hb Hj Hn Hu.
  rewrite He, Ha. cbn [negb]. apply B_fail_caught.
Qed.

Lemma B_invalid_url b v url auth :
  method (request w) <> "OPTIONS" ->
  request_body (request w) = Some b ->
  body_json b = Returned v ->
  v <> VNull -> v <> VUndefined ->
  env w !! "NOTEBOOK_CHAT_URL" = Some url -> url <> "" ->
  env w !! "NOTEBOOK_GENERATION_AUTH" = Some auth -> auth <> "" ->
  parses w url = false ->
  serve w =
    on_error w (new_Error (invalid_format_message url))
      (record (Console Err (invalid_format_message url) []) (received v)).
Proof.
  intros Hm Hb Hj Hn Hu He Hne Ha Hna Hp.
  B_enter Hm Hb Hj Hn Hu.
  rewrite He, Ha, !truthy_opt_of_some by assumption. cbn [negb].
  change (default "" (Some url)) with url.
  rewrite try_catch_bind, B_isValidUrl_run, Hp. cbn [negb]. cbv beta iota.
  apply B_fail_caught.
Qed.

Lemma B_calls b v url auth :
  method (request w) <> "OPTIONS" ->
  request_body (request w) = Some b ->
  body_json b = Returned v ->
  v <> VNull -> v <> VUndefined ->
  env w !! "NOTEBOOK_CHAT_URL" = Some url -> url <> "" ->
  env w !! "NOTEBOOK_GENERATION_AUTH" = Some auth -> auth <> "" ->
  parses w url = true ->
  exists st0,
    serve w =
      try_catch (answer url (fetch_result w url (chat_call_init w v auth))) (on_error w) st0
    /\ fetches (trace st0) = [(url, chat_call_init w v auth)]
    /\ response_body_used st0 = false
    /\ clock_reads st0 = 1.
Proof.
  intros Hm Hb Hj Hn Hu He Hne Ha Hna Hp.
  B_enter Hm Hb Hj Hn Hu.
  rewrite He, Ha, !truthy_opt_of_some by assumption. cbn [negb].
  change (default "" (Some url)) with url.
  change (default "" (Some auth)) with auth.
  rewrite try_catch_bind, B_isValidUrl_run, Hp. cbn [negb]. cbv beta iota.
  rewrite try_catch_bind. unfold console_log at 1. unfold emit at 1. cbv beta iota.
  rewrite try_catch_bind. unfold console_log at 1. unfold emit at 1. cbv beta iota.
  rewrite try_catch_bind. unfold Date_toISOString at 1. cbv beta iota.
  rewrite try_catch_bind. unfold console_log at 1. unfold emit at 1. cbv beta iota.
  rewrite try_catch_bind.
  unfold attempt, fetch. unfold bind at 1. unfold emit at 1. unfold lift at 1.
  cbv beta iota zeta.
  eexists. split; [reflexivity|]. split; [|split]; reflexivity.
Qed.

Lemma B_call_conditions url init :
  In (url, init) (fetches (trace (snd (serve w)))) ->
  method (request w) <> "OPTIONS"
  /\ exists b v auth,
       request_body (request w) = Some b
       /\ body_json b = Returned v
       /\ v <> VNull /\ v <> VUndefined
       /\ env w !! "NOTEBOOK_CHAT_URL" = Some url /\ url <> ""
       /\ env w !! "NOTEBOOK_GENERATION_AUTH" = Some auth /\ auth <> ""
       /\ parses w url = true
       /\ init = chat_call_init w v auth.
Proof.
  unfold serve, handler.
  destruct (String.eqb (method (request w)) "OPTIONS") eqn:Hm; [intros []|].
  apply String.eqb_neq in Hm.
  rewrite (try_catch_observed fetches) by apply B_on_error_no_fetch.
  cbv beta iota zeta delta
    [relay fail bind req_json request_used mark_request_used lift initial
     ret throw console_log console_error emit attempt fetch Deno_env_get
     Date_toISOString request_body_used].
  destruct (request_body (request w)) as [b|] eqn:Hb; [|intros []].
  destruct (body_json b) as [v|e] eqn:Hj; [|intros []].
  destruct (destructure v "session_id") as [v'|e] eqn:Hd; [|intros []].
  assert (Hn : v <> VNull) by (intros ->; discriminate Hd).
  assert (Hu : v <> VUndefined) by (intros ->; discriminate Hd).
  apply destructure_returned in Hd. subst v'.
  destruct (truthy_opt (env w !! "NOTEBOOK_CHAT_URL")) eqn:He; [|intros []].
  destruct (truthy_opt (env w !! "NOTEBOOK_GENERATION_AUTH")) eqn:Ha; [|intros []].
  cbn [negb].
  apply truthy_opt_some in He. destruct He as (url0 & He & Hne).
  apply truthy_opt_some in Ha. destruct Ha as (auth & Ha & Hna).
  rewrite He, Ha.
  change (default "" (Some url0)) with url0.
  change (default "" (Some auth)) with auth.
  rewrite B_isValidUrl_run.
  destruct (parses w url0) eqn:Hp; [|intros []]. cbn [negb].
  match goal with |- context [answer ?u ?f ?st] =>
    rewrite (B_answer_no_fetch u f st)
  end.
  intros [Heq|[]]. inversion Heq; subst url init.
  split; [exact Hm|]. exists b, v, auth. repeat split; assumption.
Qed.

(** What the body of the [try] leaves behind and returns. *)
Lemma B_relay_outcome :
  length (fetches (trace (snd (relay w initial)))) <= 1
  /\ clock_reads (snd (relay w initial)) <= 1
  /\ forall resp, fst (relay w initial) = Returned resp ->
       res_status resp = 200%N
       /\ res_headers resp = json_headers
       /\ exists v, res_body resp = JSON_stringify v.
Proof.
  cbv beta iota zeta delta
    [relay answer fail read_webhook_data bind try_catch req_json request_used
     mark_request_used lift initial
     response_text response_json response_used mark_response_used
     ret throw console_log console_error emit attempt fetch Deno_env_get
     Date_toISOString request_body_used response_body_used].
  destruct (request_body (request w)) as [b|]; [|cbn; split; [lia|split; [lia|discriminate]]].
  destruct (body_json b) as [v|e]; [|cbn; split; [lia|split; [lia|discriminate]]].
  destruct (destructure v "session_id") as [v'|e];
    [|cbn; split; [lia|split; [lia|discriminate]]].
  destruct (negb (truthy_opt (env w !! "NOTEBOOK_CHAT_URL")));
    [cbn; split; [lia|split; [lia|discriminate]]|].
  destruct (negb (truthy_opt (env w !! "NOTEBOOK_GENERATION_AUTH")));
    [cbn; split; [lia|split; [lia|discriminate]]|].
  rewrite B_isValidUrl_run.
  destruct (negb (parses w _)); [cbn; split; [lia|split; [lia|discriminate]]|].
  destruct (fetch_result w _ _) as [r|e];
    [|cbn; split; [lia|split; [lia|discriminate]]].
  destruct (negb (ok r)).
  - destruct (response_body r); cbn; (split; [lia|split; [lia|discriminate]]).
  - destruct (response_body r) as [rb|].
    + cbn [record response_body_used]. destruct (body_json rb); cbn.
      * split; [lia|]. split; [lia|]. intros resp H. inversion H; subst resp. cbn.
        split; [reflexivity|]. split; [reflexivity|]. eexists; reflexivity.
      * split; [lia|]. split; [lia|]. discriminate.
    + cbn. split; [lia|]. split; [lia|]. intros resp H. inversion H; subst resp. cbn.
      split; [reflexivity|]. split; [reflexivity|]. eexists; reflexivity.
Qed.

End HandlerBPaths.

(** X12.  Handler B calls the webhook exactly when the request is not a
    preflight, its body is JSON other than [null], and NOTEBOOK_CHAT_URL
    and NOTEBOOK_GENERATION_AUTH are both non-empty, the first parsing
    as a URL.  No field of the request is required.  The call is a POST
    to that URL with [Content-Type: application/json], the token as
    [Authorization], and as its JSON body the three fields of the
    request as they came, with the first reading of the clock as
    [timestamp]. *)
Theorem chat_webhook_call (w : World) (url : string) (init : FetchInit) :
  In (url, init) (fetches (trace (snd (SendChatMessage.serve w))))
  <-> (method (request w) <> "OPTIONS"
       /\ exists b v auth,
            request_body (request w) = Some b
            /\ body_json b = Returned v
            /\ v <> VNull /\ v <> VUndefined
            /\ env w !! "NOTEBOOK_CHAT_URL" = Some url /\ url <> ""
            /\ env w !! "NOTEBOOK_GENERATION_AUTH" = Some auth /\ auth <> ""
            /\ parses w url = true
            /\ init =
                 mkFetchInit "POST"
                   [("Content-Type", "application/json"); ("Authorization", auth)]
                   (JSON_stringify
                      (VObject [("session_id", get v "session_id");
                                ("message", get v "message");
                                ("user_id", get v "user_id");
                                ("timestamp", VString (clock w 0))]))).
Proof.
  split; [apply B_call_conditions|].
  intros (Hm & b & v & auth & Hb & Hj & Hn & Hu & He & Hne & Ha & Hna & Hp & ->).
  destruct (B_calls w b v url auth) as (st0 & Hs & Hf & _); try assumption.
  rewrite Hs.
  rewrite (silent_try_catch fetches _ _
             (B_answer_no_fetch _ _) (B_on_error_no_fetch w)).
  rewrite Hf. left. reflexivity.
Qed.

Lemma chat_webhook_call_witness :
  In ("https://example.com/path",
      mkFetchInit "POST"
        [("Content-Type", "application/json");
         ("Authorization", "Bearer 0123456789abcdef")]
        (JSON_stringify
           (VObject [("session_id", VUndefined);
                     ("message", VUndefined);
                     ("user_id", VUndefined);
                     ("timestamp", VString "2024-05-01T12:00:00.000Z")])))
     (fetches (trace (snd (SendChatMessage.serve
                             (world chat_env post_empty_object (Returned ok_true)))))).
Proof.
  apply (proj2 (chat_webhook_call
                  (world chat_env post_empty_object (Returned ok_true))
                  "https://example.com/path" _)).
  split; [discriminate|].
  eexists. exists (VObject []), "Bearer 0123456789abcdef".
  split; [reflexivity|]. split; [reflexivity|].
  split; [discriminate|]. split; [discriminate|].
  split; [vm_compute; reflexivity|]. split; [discriminate|].
  split; [vm_compute; reflexivity|]. split; [discriminate|].
  split; [vm_compute; reflexivity|]. reflexivity.
Defined.

(** X13.  Handler B treats NOTEBOOK_CHAT_URL unset and set to the empty
    string alike: a request it can read is answered with the 500 whose
    [error] is the message naming the variable, stamped with the first
    reading of the clock, and no webhook is called, whatever the
    token. *)
Theorem missing_chat_webhook_url (w : World) (b : Body) (v : value) :
  method (request w) <> "OPTIONS" ->
  request_body (request w) = Some b ->
  body_json b = Returned v ->
  v <> VNull -> v <> VUndefined ->
  env w !! "NOTEBOOK_CHAT_URL" = None \/ env w !! "NOTEBOOK_CHAT_URL" = Some "" ->
  exists st,
    SendChatMessage.serve w =
      (Returned (chat_failure w SendChatMessage.url_not_set_message (clock w 0)), st)
    /\ includes SendChatMessage.url_not_set_message "NOTEBOOK_CHAT_URL"
    /\ fetches (trace st) = [].
Proof.
  intros Hm Hb Hj Hn Hu He.
  rewrite (B_url_not_set w b v) by (try assumption; destruct He as [-> | ->]; reflexivity).
  destruct (B_on_error_message w SendChatMessage.url_not_set_message
              (record (Console Err SendChatMessage.url_not_set_message []) (received v)))
    as (st & Hs & Hf); [discriminate|].
  exists st. split; [exact Hs|]. split.
  - exists "", " environment variable not set. Please configure this secret in Supabase Edge Functions.".
    reflexivity.
  - rewrite Hf. reflexivity.
Qed.

Lemma missing_chat_webhook_url_witness :
  exists st,
    SendChatMessage.serve chat_empty_url =
      (Returned (chat_failure chat_empty_url SendChatMessage.url_not_set_message
                   (clock chat_empty_url 0)), st)
    /\ includes SendChatMessage.url_not_set_message "NOTEBOOK_CHAT_URL"
    /\ fetches (trace st) = [].
Proof.
  eapply (missing_chat_webhook_url chat_empty_url _ chat).
  - discriminate.
  - reflexivity.
  - reflexivity.
  - discriminate.
  - discriminate.
  - right. vm_compute. reflexivity.
Defined.

(** X14.  With NOTEBOOK_CHAT_URL set and NOTEBOOK_GENERATION_AUTH unset
    or empty, Handler B answers a request it can read with the 500
    whose [error] is the message naming the token variable, whose
    [details] hold the URL and [hasAuth: false]; no webhook is called,
    and the URL is not even validated. *)
Theorem missing_chat_token (w : World) (b : Body) (v : value) (url : string) :
  method (request w) <> "OPTIONS" ->
  request_body (request w) = Some b ->
  body_json b = Returned v ->
  v <> VNull -> v <> VUndefined ->
  env w !! "NOTEBOOK_CHAT_URL" = Some url -> url <> "" ->
  env w !! "NOTEBOOK_GENERATION_AUTH" = None
  \/ env w !! "NOTEBOOK_GENERATION_AUTH" = Some "" ->
  exists st,
    SendChatMessage.serve w =
      (Returned
         (mkHttpResponse
            (JSON_stringify
               (VObject
                  [("error", VString SendChatMessage.auth_not_set_message);
                   ("details",
                    VObject [("webhookUrl", VString url);
                             ("hasAuth", VBool false);
                             ("timestamp", VString (clock w 0))])]))
            500%N SendChatMessage.json_headers), st)
    /\ includes SendChatMessage.auth_not_set_message "NOTEBOOK_GENERATION_AUTH"
    /\ fetches (trace st) = [].
Proof.
  intros Hm Hb Hj Hn Hu He Hne Ha.
  assert (Ha' : truthy_opt (env w !! "NOTEBOOK_GENERATION_AUTH") = false)
    by (destruct Ha as [-> | ->]; reflexivity).
  rewrite (B_auth_not_set w b v)
    by (try assumption; rewrite He; apply truthy_opt_of_some; exact Hne).
  destruct (B_on_error_message w SendChatMessage.auth_not_set_message
              (record (Console Err SendChatMessage.auth_not_set_message []) (received v)))
    as (st & Hs & Hf); [discriminate|].
  exists st. split; [|split].
  - rewrite Hs. unfold chat_failure. rewrite He, Ha'. reflexivity.
  - exists "", " environment variable not set. Please configure this secret in Supabase Edge Functions.".
    reflexivity.
  - rewrite Hf. reflexivity.
Qed.

Lemma missing_chat_token_witness :
  exists st,
    SendChatMessage.serve chat_without_auth =
      (Returned
         (mkHttpResponse
            (JSON_stringify
               (VObject
                  [("error", VString SendChatMessage.auth_not_set_message);
                   ("details",
                    VObject [("webhookUrl", VString "https://example.com/path");
                             ("hasAuth", VBool false);
                             ("timestamp", VString (clock chat_without_auth 0))])]))
            500%N SendChatMessage.json_headers), st)
    /\ includes SendChatMessage.auth_not_set_message "NOTEBOOK_GENERATION_AUTH"
    /\ fetches (trace st) = [].
Proof.
  eapply (missing_chat_token chat_without_auth _ chat "https://example.com/path").
  - discriminate.
  - reflexivity.
  - reflexivity.
  - discriminate.
  - discriminate.
  - vm_compute. reflexivity.
  - discriminate.
  - left. vm_compute. reflexivity.
Defined.

(** X15.  With both variables set but a NOTEBOOK_CHAT_URL that does not
    parse as a URL, Handler B answers a request it can read with the
    500 whose [error] quotes the configured value, and calls no
    webhook. *)
Theorem invalid_chat_webhook_url (w : World) (b : Body) (v : value) (url auth : string) :
  method (request w) <> "OPTIONS" ->
  request_body (request w) = Some b ->
  body_json b = Returned v ->
  v <> VNull -> v <> VUndefined ->
  env w !! "NOTEBOOK_CHAT_URL" = Some url -> url <> "" ->
  env w !! "NOTEBOOK_GENERATION_AUTH" = Some auth -> auth <> "" ->
  parses w url = false ->
  let msg := SendChatMessage.invalid_format_message url in
  exists st,
    SendChatMessage.serve w = (Returned (chat_failure w msg (clock w 0)), st)
    /\ includes msg url
    /\ fetches (trace st) = [].
Proof.
  intros Hm Hb Hj Hn Hu He Hne Ha Hna Hp msg.
  rewrite (B_invalid_url w b v url auth) by assumption.
  destruct (B_on_error_message w msg (record (Console Err msg []) (received v)))
    as (st & Hs & Hf); [discriminate|].
  exists st. split; [exact Hs|]. split; [apply includes_middle|].
  rewrite Hf. reflexivity.
Qed.

Lemma invalid_chat_webhook_url_witness :
  let msg := SendChatMessage.invalid_format_message "example.com/hook" in
  exists st,
    SendChatMessage.serve chat_bad_url =
      (Returned (chat_failure chat_bad_url msg (clock chat_bad_url 0)), st)
    /\ includes msg "example.com/hook"
    /\ fetches (trace st) = [].
Proof.
  eapply (invalid_chat_webhook_url chat_bad_url _ chat "example.com/hook"
            "Bearer 0123456789abcdef").
  - discriminate.
  - reflexivity.
  - reflexivity.
  - discriminate.
  - discriminate.
  - vm_compute. reflexivity.
  - discriminate.
  - vm_compute. reflexivity.
  - discriminate.
  - vm_compute. reflexivity.
Defined.

(** X16.  Whenever Handler B's call of the webhook throws, the caller
    gets the 500 whose [error] quotes both the webhook URL and the
    message of the network error; its timestamp is the second reading
    of the clock, the first having gone into the payload. *)
Theorem chat_webhook_unreachable (w : World) (url : string) (init : FetchInit)
  (fetchError : Error) :
  In (url, init) (fetches (trace (snd (SendChatMessage.serve w)))) ->
  fetch_result w url init = Thrown fetchError ->
  let msg := SendChatMessage.connect_failed_message url fetchError in
  exists st,
    SendChatMessage.serve w = (Returned (chat_failure w msg (clock w 1)), st)
    /\ includes msg url
    /\ includes msg (message fetchError)
    /\ fetches (trace st) = [(url, init)].
Proof.
  intros Hin Hf msg.
  destruct (B_fetch_inversion w url init Hin) as (st0 & Hs & _ & Hc & Hfe).
  rewrite Hf in Hs. rewrite Hs.
  unfold SendChatMessage.answer. rewrite B_fail_caught. fold msg.
  destruct (B_on_error_message w msg (record (Console Err msg []) st0))
    as (st & Hs' & Hf'); [discriminate|].
  exists st. split; [|split; [|split]].
  - rewrite Hs'. cbn [record clock_reads]. rewrite Hc. reflexivity.
  - apply includes_middle.
  - exists ("Failed to connect to webhook URL: " +:+ url +:+ ". Network error: "), "".
    unfold msg, SendChatMessage.connect_failed_message.
    rewrite !append_assoc, append_empty. reflexivity.
  - rewrite Hf'. cbn [record trace]. rewrite fetches_app, Hfe. reflexivity.
Qed.

Lemma chat_webhook_unreachable_witness :
  let msg := SendChatMessage.connect_failed_message "https://example.com/path" refused in
  exists st,
    SendChatMessage.serve chat_refused =
      (Returned (chat_failure chat_refused msg (clock chat_refused 1)), st)
    /\ includes msg "https://example.com/path"
    /\ includes msg (message refused)
    /\ fetches (trace st) = [("https://example.com/path", chat_call)].
Proof.
  apply (chat_webhook_unreachable chat_refused "https://example.com/path" chat_call refused).
  - vm_compute. left. reflexivity.
  - reflexivity.
Defined.

(** X17.  Handler B reads the request before it looks at its
    configuration: a request that cannot be read as an object (no body,
    a body that is not JSON, or the JSON [null]) is answered with the
    500 of the top-level [catch] carrying the message of that error (or
    the default message if it has none), whatever the environment, and
    no webhook is called. *)
Theorem unreadable_chat_request (w : World) (e : Error) :
  method (request w) <> "OPTIONS" ->
  unreadable (request w) "session_id" e ->
  exists st,
    SendChatMessage.serve w =
      (Returned (chat_failure w (SendChatMessage.message_or_default e) (clock w 0)), st)
    /\ fetches (trace st) = [].
Proof.
  intros Hm Hun.
  unfold SendChatMessage.serve, SendChatMessage.handler.
  apply String.eqb_neq in Hm. rewrite Hm.
  unfold SendChatMessage.relay. rewrite try_catch_bind, req_json_initial.
  unfold unreadable in Hun.
  destruct (request_body (request w)) as [b|] eqn:Hb.
  - destruct Hun as [Hj|[Hj Hd]]; rewrite Hj.
    + rewrite B_on_error_run. eexists. split; reflexivity.
    + rewrite try_catch_bind. unfold lift. rewrite Hd.
      rewrite B_on_error_run. eexists. split; reflexivity.
  - subst e. rewrite B_on_error_run. eexists. split; reflexivity.
Qed.

Lemma unreadable_chat_request_witness :
  exists st,
    SendChatMessage.serve (world chat_env post_hello (Returned ok_true)) =
      (Returned
         (chat_failure (world chat_env post_hello (Returned ok_true))
            (SendChatMessage.message_or_default
               (SyntaxError "Unexpected token 'h', hello is not valid JSON"))
            "2024-05-01T12:00:00.000Z"), st)
    /\ fetches (trace st) = [].
Proof.
  apply (unreadable_chat_request (world chat_env post_hello (Returned ok_true))).
  - discriminate.
  - left. reflexivity.
Defined.

(** X20.  Handler B lets no exception out: every run ends in a response
    that carries the CORS headers.  Its status is 200 or 500; a 500 has
    the shape of the top-level [catch] with an [error] message that is
    never empty.  Unless the request is a preflight the response is a
    JSON document with [Content-Type: application/json].  No run calls
    the webhook more than once, reads the clock more than twice, or
    writes a status record. *)
Theorem send_chat_message_always_answers (w : World) :
  exists resp st,
    SendChatMessage.serve w = (Returned resp, st)
    /\ (res_status resp = 200%N
        \/ exists msg n, msg <> "" /\ n <= 1 /\ resp = chat_failure w msg (clock w n))
    /\ (forall h, In h SendChatMessage.corsHeaders -> In h (res_headers resp))
    /\ (method (request w) <> "OPTIONS" ->
        In ("Content-Type", "application/json") (res_headers resp)
        /\ exists v, res_body resp = JSON_stringify v)
    /\ length (fetches (trace st)) <= 1
    /\ clock_reads st <= 2
    /\ updates (trace st) = [].
Proof.
  pose proof (B_handler_no_update w initial) as Hup.
  change (SendChatMessage.handler w initial) with (SendChatMessage.serve w) in Hup.
  revert Hup.
  unfold SendChatMessage.serve, SendChatMessage.handler.
  destruct (String.eqb (method (request w)) "OPTIONS") eqn:Hm.
  - apply String.eqb_eq in Hm. intros Hup.
    eexists. eexists. split; [reflexivity|]. cbn.
    split; [left; reflexivity|]. split; [auto|]. split; [congruence|].
    split; [lia|]. split; [lia|reflexivity].
  - destruct (B_relay_outcome w) as (Hf & Hc & Hr).
    unfold try_catch.
    destruct (SendChatMessage.relay w initial) as [[resp|e] st].
    + intros Hup. cbn [fst snd] in *.
      destruct (Hr resp eq_refl) as (Hs & Hh & v & Hv).
      exists resp, st. split; [reflexivity|]. split; [left; exact Hs|].
      rewrite Hh. split.
      { intros h Hin. apply in_or_app. left. exact Hin. }
      split; [intros _; split; [|eauto]; right; right; left; reflexivity|].
      split; [exact Hf|]. split; [lia|exact Hup].
    + rewrite B_on_error_run. intros Hup. cbn [fst snd] in *.
      eexists. eexists. split; [reflexivity|]. split.
      { right. exists (SendChatMessage.message_or_default e), (clock_reads st).
        split; [apply message_or_default_not_empty|]. split; [exact Hc|reflexivity]. }
      cbn [chat_error_response res_headers res_body trace clock_reads].
      split.
      { intros h Hin. apply in_or_app. left. exact Hin. }
      split; [intros _; split; [|eauto]; right; right; left; reflexivity|].
      split; [rewrite fetches_app; cbn; rewrite app_nil_r; exact Hf|].
      split; [lia|exact Hup].
Qed.

Lemma chat_body_that_is_not_JSON_witness :
  exists st n,
    SendChatMessage.serve (world chat_env post_chat (Returned done_text)) =
      (Returned
         (chat_error_response (world chat_env post_chat (Returned done_text))
            body_unusable
            (clock (world chat_env post_chat (Returned done_text)) n)), st).
Proof.
  eapply (chat_body_that_is_not_JSON (world chat_env post_chat (Returned done_text))
            "https://example.com/path" chat_call done_text).
  - vm_compute. left. reflexivity.
  - reflexivity.
  - reflexivity.
  - reflexivity.
  - reflexivity.
Defined.

Lemma chat_response_without_body_witness :
  exists st,
    SendChatMessage.serve (world chat_env post_chat (Returned no_content)) =
      (Returned
         (mkHttpResponse
            (JSON_stringify
               (VObject
                  [("success", VBool true);
                   ("data",
                    VObject [("message", VString "Webhook processed successfully");
                             ("response", VString "")])]))
            200%N SendChatMessage.json_headers), st).
Proof.
  apply (chat_response_without_body (world chat_env post_chat (Returned no_content))
           "https://example.com/path" chat_call no_content).
  - vm_compute. left. reflexivity.
  - reflexivity.
  - reflexivity.
  - reflexivity.
Defined.
